(** * claude-remote: executor, formatter and approval workflow

    A shallow embedding of the core of the bot:
    - [bot/claude_executor.py]: parsing of the assistant's stream-json
      output ([_parse_stream_json], [execute], [execute_streaming]);
    - [bot/formatters.py]: splitting of long replies ([format_response],
      [_split_message], [_find_split_point]);
    - [bot/bot.py]: the per-user session helpers, [/clear] and the part
      of [handle_text] that runs after the executor returns;
    - [bot/callback_handlers.py]: the approve / reject / clear callbacks.

    Around this core, further down:
    - the command line of the executor ([_build_command]), the small
      helpers of [bot/formatters.py] ([truncate_text], [escape_markdown],
      [format_code_block]) and the diff shown by the [git:diff] button;
    - [bot/git_operations.py]: [_run_git], [is_git_repo], [get_status],
      [add_files] and [commit], on an oracle for the git commands;
    - [bot/keyboards.py] and the routing of [handle_callback_query]:
      [confirmation], [pagination], [handle_page_callback];
    - [bot/config.py] and [bot/bot.py]: the allow list, [/newsession],
      [/compact] and [/repo].

    Definitions come first, the properties are at the end of the file. *)

From Stdlib Require Import Ascii String ZArith Floats.SpecFloat.
From stdpp Require Import base option list strings pretty gmap.

#[local] Set Warnings "-register-all,-clear-no-such-hyp".
#[local] Open Scope string_scope.
#[local] Open Scope list_scope.

(* ===================================================================== *)
(** ** Python strings *)
(* ===================================================================== *)

(** A Python [str] is modelled by a [string] of 8-bit characters (code
    points below 256); [len], slicing and searching count characters. *)
Module Py.

(** [str.isspace] on one character: TAB..CR, FS..US, SPACE, NEL, NBSP. *)
Definition isspace (c : ascii) : bool :=
  let n := nat_of_ascii c in
  (((9 <=? n) && (n <=? 13)) || ((28 <=? n) && (n <=? 32))
   || (n =? 133) || (n =? 160))%nat.

Fixpoint lstrip (s : string) : string :=
  match s with
  | String c s' => if isspace c then lstrip s' else s
  | EmptyString => EmptyString
  end.

Fixpoint rstrip (s : string) : string :=
  match s with
  | EmptyString => EmptyString
  | String c s' =>
      match rstrip s' with
      | EmptyString => if isspace c then EmptyString else String c EmptyString
      | r => String c r
      end
  end.

(** [s.strip()] *)
Definition strip (s : string) : string := rstrip (lstrip s).

(** [''.join(parts)] *)
Definition join (parts : list string) : string :=
  foldr String.append "" parts.

(** [bool(s)] for a [str] *)
Definition truthy (s : string) : bool :=
  match s with EmptyString => false | _ => true end.

(** [bool(x)] for an [Optional[str]]: [None] and [''] are false. *)
Definition truthy_opt (o : option string) : bool :=
  match o with Some s => truthy s | None => false end.

(** [s[:n]] for [n >= 0] *)
Fixpoint take (n : nat) (s : string) : string :=
  match n, s with
  | S n', String c s' => String c (take n' s')
  | _, _ => EmptyString
  end.

(** [s[n:]] for [n >= 0] *)
Fixpoint drop (n : nat) (s : string) : string :=
  match n, s with
  | S n', String _ s' => drop n' s'
  | _, _ => s
  end.

(** [s.startswith(p)] *)
Fixpoint startswith (p s : string) : bool :=
  match p, s with
  | EmptyString, _ => true
  | String a p', String b s' => if Ascii.eqb a b then startswith p' s' else false
  | String _ _, EmptyString => false
  end.

(** Start offsets of the matches [re.finditer] reports for a literal,
    non-empty pattern [p]: leftmost first, never overlapping. [skip]
    counts the characters still covered by the previous match. *)
Fixpoint finditer_from (p : string) (skip pos : nat) (s : string) : list nat :=
  match s with
  | EmptyString => []
  | String _ s' =>
      match skip with
      | S k => finditer_from p k (S pos) s'
      | O =>
          if startswith p s
          then pos :: finditer_from p (String.length p - 1) (S pos) s'
          else finditer_from p 0 (S pos) s'
      end
  end.

Definition finditer (p s : string) : list nat := finditer_from p 0 0 s.

(** [p in s] *)
Definition contains (p s : string) : bool :=
  match p with
  | EmptyString => true
  | _ => match finditer p s with [] => false | _ => true end
  end.

(** [s.count(p)] for non-empty [p]: non-overlapping occurrences. *)
Definition count (p s : string) : nat := length (finditer p s).

(** [s.split(sep)[-1]] for a one-character separator. *)
Fixpoint last_segment (sep : ascii) (s : string) : string :=
  match s with
  | EmptyString => EmptyString
  | String c s' =>
      if Ascii.eqb c sep then last_segment sep s'
      else if contains (String sep EmptyString) s' then last_segment sep s'
      else s
  end.

End Py.

(* ===================================================================== *)
(** ** claude_executor.py *)
(* ===================================================================== *)

Module Executor.

(** *** Stream events

    One line of the subprocess's standard output, as the parser that
    runs reads it: [Blank] when nothing is left of it after [strip()],
    [Malformed] when [json.loads] raises [json.JSONDecodeError] (the
    one exception the loops catch), [Json] when it decodes to a JSON
    object.  A decoded object is represented by the keys the parser
    reads from it, each at the type the stream-json format gives it;
    [None] stands for an absent key (what [dict.get] returns without
    a default).

    A reading belongs to one parser: [_parse_stream_json] hands
    [json.loads] the line as it is and [execute_streaming] the
    stripped line, so that the two may read one line of bytes
    differently.  A line on which the body of the loop raises
    anything else ([json.loads] raising [RecursionError] or
    [ValueError], a line that decodes to something that is not an
    object) has no reading: the exception leaves the loop, see
    [run_outcome] and [stream_outcome]. *)

(** [block.get('input', {})]: the two keys read for progress lines. *)
Record tool_input := {
  file_path : option string;
  command : option string;
}.

Record block := {
  block_type : option string;
  block_text : option string;
  block_name : option string;
  block_input : tool_input;
}.

Record usage := {
  usage_input_tokens : option Z;
  usage_output_tokens : option Z;
}.

Record event := {
  event_type : option string;
  event_subtype : option string;
  event_session_id : option string;
  event_model : option string;
  (** [event.get('message', {}).get('content', [])] *)
  event_content : list block;
  event_total_cost_usd : option spec_float;
  event_duration_ms : option Z;
  (** [event.get('usage', {})] *)
  event_usage : usage;
  (** [event.get('errors', [])] *)
  event_errors : list string;
}.

Inductive line :=
| Blank
| Malformed (raw : string)
| Json (e : event).

(** *** Results *)

Record ClaudeResponse := {
  success : bool;
  output : string;
  error : option string;
  session_id : option string;
  cost_usd : spec_float;
  input_tokens : Z;
  output_tokens : Z;
  duration_ms : Z;
  model : option string;
  tools_used : list string;
  raw_events : list event;
}.

Definition float_zero : spec_float := S754_zero false.

(** [ClaudeResponse(success=.., output=.., error=..)]: every other
    field takes its dataclass default. *)
Definition error_response (out : string) (err : string) : ClaudeResponse :=
  {| success := false; output := out; error := Some err;
     session_id := None; cost_usd := float_zero;
     input_tokens := 0; output_tokens := 0; duration_ms := 0;
     model := None; tools_used := []; raw_events := [] |}.

Record ClaudeExecutor := {
  workspace : string;
  timeout : Z;
  max_turns : Z;
}.

Definition DEFAULT_TIMEOUT : Z := 3600.

Definition default_executor : ClaudeExecutor :=
  {| workspace := "/workspace"; timeout := DEFAULT_TIMEOUT; max_turns := 10 |}.

Definition NO_TEXT_PLACEHOLDER : string :=
  "(Claude completed task with no text output)".

(** One progress notification: the tool name, the detail shown after
    it (empty when none applies) and the step number. *)
Record progress := {
  pg_tool : string;
  pg_detail : string;
  pg_step : nat;
}.

(** *** The accumulators of the parsing loops

    The local variables of [_parse_stream_json] and of
    [execute_streaming].  [tools_used] is a Python [set]: it keeps no
    record of the order of insertion, and is modelled by a finite set
    that [elements] enumerates.  [tool_call_count] and [progress_log]
    (the calls made to [on_progress]) are only touched by the streaming
    reader. *)
Record parse_state := {
  st_events : list event;
  st_output_parts : list string;
  st_session_id : option string;
  st_cost_usd : spec_float;
  st_input_tokens : Z;
  st_output_tokens : Z;
  st_duration_ms : Z;
  st_model : option string;
  st_tools_used : gset string;
  st_tool_call_count : nat;
  st_progress_log : list progress;
}.

Definition init_state : parse_state :=
  {| st_events := []; st_output_parts := []; st_session_id := None;
     st_cost_usd := float_zero; st_input_tokens := 0; st_output_tokens := 0;
     st_duration_ms := 0; st_model := None; st_tools_used := ∅;
     st_tool_call_count := 0; st_progress_log := [] |}.

(** [o == s] for an optional string [o] and a literal [s]. *)
Definition py_eq (o : option string) (s : string) : bool :=
  match o with Some x => String.eqb x s | None => false end.

(** Assignments to single accumulators. *)
Definition set_events (v : list event) (st : parse_state) : parse_state :=
  {| st_events := v; st_output_parts := st_output_parts st;
     st_session_id := st_session_id st; st_cost_usd := st_cost_usd st;
     st_input_tokens := st_input_tokens st;
     st_output_tokens := st_output_tokens st;
     st_duration_ms := st_duration_ms st; st_model := st_model st;
     st_tools_used := st_tools_used st;
     st_tool_call_count := st_tool_call_count st;
     st_progress_log := st_progress_log st |}.

Definition set_output_parts (v : list string) (st : parse_state) : parse_state :=
  {| st_events := st_events st; st_output_parts := v;
     st_session_id := st_session_id st; st_cost_usd := st_cost_usd st;
     st_input_tokens := st_input_tokens st;
     st_output_tokens := st_output_tokens st;
     st_duration_ms := st_duration_ms st; st_model := st_model st;
     st_tools_used := st_tools_used st;
     st_tool_call_count := st_tool_call_count st;
     st_progress_log := st_progress_log st |}.

Definition set_session_id (v : option string) (st : parse_state) : parse_state :=
  {| st_events := st_events st; st_output_parts := st_output_parts st;
     st_session_id := v; st_cost_usd := st_cost_usd st;
     st_input_tokens := st_input_tokens st;
     st_output_tokens := st_output_tokens st;
     st_duration_ms := st_duration_ms st; st_model := st_model st;
     st_tools_used := st_tools_used st;
     st_tool_call_count := st_tool_call_count st;
     st_progress_log := st_progress_log st |}.

Definition set_model (v : option string) (st : parse_state) : parse_state :=
  {| st_events := st_events st; st_output_parts := st_output_parts st;
     st_session_id := st_session_id st; st_cost_usd := st_cost_usd st;
     st_input_tokens := st_input_tokens st;
     st_output_tokens := st_output_tokens st;
     st_duration_ms := st_duration_ms st; st_model := v;
     st_tools_used := st_tools_used st;
     st_tool_call_count := st_tool_call_count st;
     st_progress_log := st_progress_log st |}.

(** [cost_usd], [duration_ms], [input_tokens] and [output_tokens], as a
    [result] event assigns them together. *)
Definition set_totals (cost : spec_float) (dur inp out : Z)
    (st : parse_state) : parse_state :=
  {| st_events := st_events st; st_output_parts := st_output_parts st;
     st_session_id := st_session_id st; st_cost_usd := cost;
     st_input_tokens := inp; st_output_tokens := out;
     st_duration_ms := dur; st_model := st_model st;
     st_tools_used := st_tools_used st;
     st_tool_call_count := st_tool_call_count st;
     st_progress_log := st_progress_log st |}.

Definition set_tools_used (v : gset string) (st : parse_state) : parse_state :=
  {| st_events := st_events st; st_output_parts := st_output_parts st;
     st_session_id := st_session_id st; st_cost_usd := st_cost_usd st;
     st_input_tokens := st_input_tokens st;
     st_output_tokens := st_output_tokens st;
     st_duration_ms := st_duration_ms st; st_model := st_model st;
     st_tools_used := v;
     st_tool_call_count := st_tool_call_count st;
     st_progress_log := st_progress_log st |}.

Definition set_progress (n : nat) (log : list progress)
    (st : parse_state) : parse_state :=
  {| st_events := st_events st; st_output_parts := st_output_parts st;
     st_session_id := st_session_id st; st_cost_usd := st_cost_usd st;
     st_input_tokens := st_input_tokens st;
     st_output_tokens := st_output_tokens st;
     st_duration_ms := st_duration_ms st; st_model := st_model st;
     st_tools_used := st_tools_used st;
     st_tool_call_count := n;
     st_progress_log := log |}.

(** *** [_parse_stream_json] *)

(** The body of [for block in content]. *)
Definition parse_block (st : parse_state) (b : block) : parse_state :=
  if py_eq (block_type b) "text" then
    set_output_parts (st_output_parts st ++ [default "" (block_text b)]) st
  else if py_eq (block_type b) "tool_use" then
    let tool_name := default "unknown" (block_name b) in
    set_tools_used (st_tools_used st ∪ {[ tool_name ]}) st
  else st.

(** The [if / elif] chain on [event_type], after [events.append]. *)
Definition parse_event (st : parse_state) (e : event) : parse_state :=
  let st := set_events (st_events st ++ [e]) st in
  if py_eq (event_type e) "system" && py_eq (event_subtype e) "init" then
    set_model (event_model e) (set_session_id (event_session_id e) st)
  else if py_eq (event_type e) "assistant" then
    foldl parse_block st (event_content e)
  else if py_eq (event_type e) "result" then
    let st :=
      if negb (Py.truthy_opt (st_session_id st))
      then set_session_id (event_session_id e) st else st in
    set_totals (default float_zero (event_total_cost_usd e))
               (default 0%Z (event_duration_ms e))
               (default 0%Z (usage_input_tokens (event_usage e)))
               (default 0%Z (usage_output_tokens (event_usage e))) st
  else st.

(** The body of [for line in result.stdout.strip().split('\\n')]: blank
    lines are skipped, a [JSONDecodeError] is logged and skipped. *)
Definition parse_line (st : parse_state) (l : line) : parse_state :=
  match l with
  | Blank => st
  | Malformed _ => st
  | Json e => parse_event st e
  end.

(** What [subprocess.run] hands to the parser.  [stdout] is kept as
    the lines of [result.stdout.strip().split('\\n')]; an empty
    standard output is one blank line. *)
Record CompletedProcess := {
  returncode : Z;
  stdout : list line;
  stderr : string;
}.

(** The search for an [error_during_execution] result, over the lines
    in reverse order.  A line [json.loads] rejects raises inside the
    [try], which ends the search without a message. *)
Fixpoint find_error (reversed_lines : list line) : option string :=
  match reversed_lines with
  | [] => None
  | Blank :: rest => find_error rest
  | Malformed _ :: _ => None
  | Json e :: rest =>
      if py_eq (event_type e) "result"
         && py_eq (event_subtype e) "error_during_execution"
      then match event_errors e with
           | msg :: _ => Some msg
           | [] => find_error rest
           end
      else find_error rest
  end.

(** The [returncode != 0] branch.  The guard [and result.stdout] of
    the source only skips a search over no line at all. *)
Definition parse_failure (result : CompletedProcess) : ClaudeResponse :=
  let error_msg :=
    if Py.truthy (stderr result) then Some (Py.strip (stderr result)) else None in
  let error_msg :=
    if negb (Py.truthy_opt error_msg) then find_error (rev (stdout result))
    else error_msg in
  let error_msg :=
    if negb (Py.truthy_opt error_msg) then "Unknown error"
    else default "" error_msg in
  error_response "" error_msg.

(** The code after a parsing loop, shared word for word by
    [_parse_stream_json] and [execute_streaming]: [output], [is_success]
    and the placeholder.  [is_success] is the Python value of
    [returncode == 0 and (output or tools_used)]; only its truth value
    is ever inspected.  [tools_used] is [list(tools_used)] of a Python
    [set]: the names are the elements of the set, in an order Python
    does not fix (it depends on the hash seed of the process); the
    order of [elements] stands for it, and only what holds of every
    order is to be read off it. *)
Definition final_output (st : parse_state) : string :=
  Py.strip (Py.join (st_output_parts st)).

Definition tools_nonempty (st : parse_state) : bool :=
  negb (bool_decide (st_tools_used st = ∅)).

Definition is_success (rc : Z) (st : parse_state) : bool :=
  (rc =? 0)%Z && (Py.truthy (final_output st) || tools_nonempty st).

Definition shown_output (st : parse_state) : string :=
  if negb (Py.truthy (final_output st)) && tools_nonempty st
  then NO_TEXT_PLACEHOLDER else final_output st.

Definition full_response (rc : Z) (st : parse_state) : ClaudeResponse :=
  {| success := is_success rc st;
     output := shown_output st;
     error := None;
     session_id := st_session_id st;
     cost_usd := st_cost_usd st;
     input_tokens := st_input_tokens st;
     output_tokens := st_output_tokens st;
     duration_ms := st_duration_ms st;
     model := st_model st;
     tools_used := elements (st_tools_used st);
     raw_events := st_events st |}.

Definition _parse_stream_json (result : CompletedProcess) : ClaudeResponse :=
  if negb (returncode result =? 0)%Z then parse_failure result
  else full_response (returncode result)
         (foldl parse_line init_state (stdout result)).

(** *** [execute]

    The three ways the [try] of [execute] can end.  A timeout carries
    the lines the subprocess had written when it was killed;
    [RunException] stands for any other exception, raised by
    [subprocess.run] or by [_parse_stream_json] on a line that has no
    reading. *)
Inductive run_outcome :=
| RunCompleted (result : CompletedProcess)
| RunTimeoutExpired (written : list line)
| RunException (message : string).

Definition timeout_message (self : ClaudeExecutor) : string :=
  "Command timeout after " +:+ pretty (timeout self) +:+ " seconds".

Definition execute (self : ClaudeExecutor) (run : run_outcome) : ClaudeResponse :=
  match run with
  | RunCompleted result => _parse_stream_json result
  | RunTimeoutExpired _ => error_response "" (timeout_message self)
  | RunException message => error_response "" ("Execution error: " +:+ message)
  end.

(** *** [execute_streaming] *)

Definition one_of (name : string) (names : list string) : bool :=
  existsb (String.eqb name) names.

Definition has_key {A} (o : option A) : bool :=
  match o with Some _ => true | None => false end.

(** The text shown after the tool name in a progress line: the file
    name for the file tools, the first 40 characters of the command
    for [Bash]. *)
Definition progress_detail (tool_name : string) (tool_input : tool_input)
    : string :=
  let file_name := Py.last_segment "/" (default "" (file_path tool_input)) in
  if one_of tool_name ["Write"; "Edit"; "Create"]
     && has_key (file_path tool_input)
  then ": `" +:+ file_name +:+ "`"
  else if String.eqb tool_name "Bash" && has_key (command tool_input)
  then ": `" +:+ Py.take 40 (default "" (command tool_input)) +:+ "`"
  else if String.eqb tool_name "Read" && has_key (file_path tool_input)
  then ": `" +:+ file_name +:+ "`"
  else "".

(** The body of [for block in content] in [read_stdout];
    [on_progress] tells whether the caller passed a callback. *)
Definition read_block (on_progress : bool) (st : parse_state) (b : block)
    : parse_state :=
  if py_eq (block_type b) "text" then
    set_output_parts (st_output_parts st ++ [default "" (block_text b)]) st
  else if py_eq (block_type b) "tool_use" then
    let tool_name := default "unknown" (block_name b) in
    let st := set_tools_used (st_tools_used st ∪ {[ tool_name ]}) st in
    let count := S (st_tool_call_count st) in
    if on_progress then
      set_progress count
        (st_progress_log st ++
           [{| pg_tool := tool_name;
               pg_detail := progress_detail tool_name (block_input b);
               pg_step := count |}]) st
    else set_progress count (st_progress_log st) st
  else st.

Definition read_event (on_progress : bool) (st : parse_state) (e : event)
    : parse_state :=
  let st := set_events (st_events st ++ [e]) st in
  if py_eq (event_type e) "system" && py_eq (event_subtype e) "init" then
    set_model (event_model e) (set_session_id (event_session_id e) st)
  else if py_eq (event_type e) "assistant" then
    foldl (read_block on_progress) st (event_content e)
  else if py_eq (event_type e) "result" then
    let st :=
      if negb (Py.truthy_opt (st_session_id st))
      then set_session_id (event_session_id e) st else st in
    set_totals (default float_zero (event_total_cost_usd e))
               (default 0%Z (event_duration_ms e))
               (default 0%Z (usage_input_tokens (event_usage e)))
               (default 0%Z (usage_output_tokens (event_usage e))) st
  else st.

(** The body of [async for raw_line in proc.stdout]. *)
Definition read_line (on_progress : bool) (st : parse_state) (l : line)
    : parse_state :=
  match l with
  | Blank => st
  | Malformed _ => st
  | Json e => read_event on_progress st e
  end.

(** The two ways [execute_streaming] returns: the reader reached the
    end of the stream and the process exited, or [asyncio.wait_for]
    cut the reader off.  The cut-off falls either between two lines
    ([inflight = []]) or inside an [await on_progress(...)], after the
    blocks [inflight] of the current event.  (When the subprocess
    cannot be started at all, [execute_streaming] raises before any of
    this: see [Bot.execute_streaming].  It also raises, and returns no
    response, when the reader meets a line longer than the limit of
    the stream (64 KiB) or a line that has no reading, and when the
    callback raises: such a run has no outcome here.) *)
Inductive stream_outcome :=
| StreamExited (lines : list line) (returncode : Z) (stderr : string)
| StreamTimedOut (lines : list line) (inflight : list block).

Definition execute_streaming (self : ClaudeExecutor) (on_progress : bool)
    (run : stream_outcome) : ClaudeResponse * list progress :=
  match run with
  | StreamTimedOut lines inflight =>
      let st := foldl (read_line on_progress) init_state lines in
      let st := foldl (read_block on_progress) st inflight in
      (error_response (final_output st) (timeout_message self),
       st_progress_log st)
  | StreamExited lines rc err =>
      let st := foldl (read_line on_progress) init_state lines in
      if negb (rc =? 0)%Z && negb (Py.truthy (shown_output st)) then
        let err := Py.strip err in
        (error_response "" (if Py.truthy err then err else "Unknown error"),
         st_progress_log st)
      else (full_response rc st, st_progress_log st)
  end.

(** *** Observations used to state the properties *)

(** The content blocks the loops visit: those of the [assistant]
    events, in stream order. *)
Definition line_blocks (l : line) : list block :=
  match l with
  | Json e => if py_eq (event_type e) "assistant" then event_content e else []
  | _ => []
  end.

Definition stream_blocks (lines : list line) : list block :=
  flat_map line_blocks lines.

Definition is_text (b : block) : bool := py_eq (block_type b) "text".
Definition is_tool_use (b : block) : bool := py_eq (block_type b) "tool_use".

(** The texts of the [text] blocks. *)
Definition block_texts (bs : list block) : list string :=
  map (fun b => default "" (block_text b)) (filter (fun b => is_text b = true) bs).

(** The names of the [tool_use] blocks. *)
Definition block_tools (bs : list block) : list string :=
  map (fun b => default "unknown" (block_name b))
      (filter (fun b => is_tool_use b = true) bs).

(** The aggregated output text of a stream. *)
Definition aggregated_text (lines : list line) : string :=
  Py.strip (Py.join (block_texts (stream_blocks lines))).

Definition tool_use_seen (lines : list line) : Prop :=
  block_tools (stream_blocks lines) <> [].

(** The distinct names of a list, each at its first position. *)
Fixpoint first_seen (names : list string) : list string :=
  match names with
  | [] => []
  | x :: rest => x :: filter (fun y => y <> x) (first_seen rest)
  end.





(** A line of each kind, for examples. *)
Definition no_input : tool_input := {| file_path := None; command := None |}.

Definition text_block (t : string) : block :=
  {| block_type := Some "text"; block_text := Some t; block_name := None;
     block_input := no_input |}.

Definition tool_block (name : string) : block :=
  {| block_type := Some "tool_use"; block_text := None;
     block_name := Some name; block_input := no_input |}.

Definition plain_event (type : string) : event :=
  {| event_type := Some type; event_subtype := None;
     event_session_id := None; event_model := None; event_content := [];
     event_total_cost_usd := None; event_duration_ms := None;
     event_usage := {| usage_input_tokens := None; usage_output_tokens := None |};
     event_errors := [] |}.

Definition assistant_event (content : list block) : event :=
  {| event_type := Some "assistant"; event_subtype := None;
     event_session_id := None; event_model := None; event_content := content;
     event_total_cost_usd := None; event_duration_ms := None;
     event_usage := {| usage_input_tokens := None; usage_output_tokens := None |};
     event_errors := [] |}.

Definition init_event (sid model : option string) : event :=
  {| event_type := Some "system"; event_subtype := Some "init";
     event_session_id := sid; event_model := model; event_content := [];
     event_total_cost_usd := None; event_duration_ms := None;
     event_usage := {| usage_input_tokens := None; usage_output_tokens := None |};
     event_errors := [] |}.

Definition result_event (sid : option string) (cost : spec_float)
    (duration inp out : Z) : event :=
  {| event_type := Some "result"; event_subtype := Some "success";
     event_session_id := sid; event_model := None; event_content := [];
     event_total_cost_usd := Some cost; event_duration_ms := Some duration;
     event_usage := {| usage_input_tokens := Some inp;
                       usage_output_tokens := Some out |};
     event_errors := [] |}.

(** A state without the bookkeeping of the streaming reader. *)
Definition core (st : parse_state) : parse_state := set_progress 0 [] st.

Definition three_text_events : list line :=
  [ Json (assistant_event [text_block "a"]);
    Json (assistant_event [text_block "b"]);
    Json (assistant_event [text_block "c"]) ].

End Executor.


(* ===================================================================== *)
(** ** formatters.py *)
(* ===================================================================== *)

Module Formatter.

Definition MAX_MESSAGE_LENGTH : Z := 4096.
Definition MAX_SAFE_LENGTH : Z := 3900.

Record FormattedMessage := {
  text : string;
  parse_mode : string;
  has_code : bool;
}.

Record ResponseFormatter := { max_length : Z }.

Definition default_formatter : ResponseFormatter :=
  {| max_length := MAX_SAFE_LENGTH |}.

Definition FENCE : string := "```".

Definition len (s : string) : Z := Z.of_nat (String.length s).

(** Python slices with an integer bound of either sign: a negative
    bound counts from the end, and bounds are clamped to the string. *)
Definition slice_index (k : Z) (s : string) : nat :=
  if (k <? 0)%Z then Z.to_nat (len s + k) else Z.to_nat k.

(** [s[:k]] *)
Definition upto (k : Z) (s : string) : string := Py.take (slice_index k s) s.

(** [s[k:]] *)
Definition from (k : Z) (s : string) : string := Py.drop (slice_index k s) s.

(** Offset of the first occurrence of the non-empty literal [p]. *)
Fixpoint find_first (p : string) (s : string) : option nat :=
  if Py.startswith p s then Some 0
  else match s with
       | EmptyString => None
       | String _ s' => S <$> find_first p s'
       end.

(** The matches of [re.finditer(r'```[\s\S]*?```', s)] as pairs
    (start, end): an opening fence and the nearest closing fence after
    it; the scan resumes after the closing fence.  [skip] counts the
    characters still inside the previous match. *)
Fixpoint code_blocks_from (skip pos : nat) (s : string) : list (nat * nat) :=
  match s with
  | EmptyString => []
  | String _ s' =>
      match skip with
      | S k => code_blocks_from k (S pos) s'
      | O =>
          if Py.startswith FENCE s then
            match find_first FENCE (Py.drop 3 s) with
            | Some j =>
                (pos, pos + 3 + j + 3) :: code_blocks_from (3 + j + 2) (S pos) s'
            | None => code_blocks_from 0 (S pos) s'
            end
          else code_blocks_from 0 (S pos) s'
      end
  end.

Definition code_blocks (s : string) : list (nat * nat) :=
  code_blocks_from 0 0 s.

(** [splits[-1] + width] when the literal [p] occurs in [s]. *)
Definition after_last (p : string) (width : Z) (s : string) : option Z :=
  (fun start => Z.of_nat start + width)%Z <$> last (Py.finditer p s).

Definition NEWLINE : string := String (ascii_of_nat 10) EmptyString.

Definition _find_split_point (self : ResponseFormatter) (text : string) : Z :=
  let max_search := Z.min (max_length self) (len text) in
  let code_blocks := code_blocks (upto (max_search + 500) text) in
  let block_end :=
    match last code_blocks with
    | Some last_block =>
        if (Z.of_nat (snd last_block) <=? max_length self)%Z
        then Some (Z.of_nat (snd last_block)) else None
    | None => None
    end in
  let search_text := upto max_search text in
  match block_end with
  | Some e => e
  | None =>
  match after_last (NEWLINE +:+ NEWLINE) 2 search_text with
  | Some p => p
  | None =>
  match after_last NEWLINE 1 search_text with
  | Some p => p
  | None =>
  match after_last ". " 2 search_text with
  | Some p => p
  | None =>
  match after_last " " 1 search_text with
  | Some p => p
  | None => max_length self
  end end end end end.

Definition message (chunk : string) : FormattedMessage :=
  {| text := chunk; parse_mode := "Markdown";
     has_code := Py.contains FENCE chunk |}.

Definition CONTINUED_AFTER : string :=
  NEWLINE +:+ NEWLINE +:+ "_(...continued)_".
Definition CONTINUED_BEFORE : string :=
  "_(...continued)_" +:+ NEWLINE +:+ NEWLINE.

(** The [while len(remaining) > self.max_length] loop.  [fuel] bounds
    the number of iterations; [None] means the bound was reached with
    the loop still running. *)
Fixpoint split_loop (fuel : nat) (self : ResponseFormatter)
    (messages : list FormattedMessage) (remaining : string)
    : option (list FormattedMessage * string) :=
  if (len remaining >? max_length self)%Z then
    match fuel with
    | O => None
    | S fuel' =>
        let split_point := _find_split_point self remaining in
        let chunk := Py.strip (upto split_point remaining) in
        let remaining := Py.strip (from split_point remaining) in
        let chunk :=
          if Py.truthy remaining then chunk +:+ CONTINUED_AFTER else chunk in
        split_loop fuel' self (messages ++ [message chunk]) remaining
    end
  else Some (messages, remaining).

Definition split_with_fuel (fuel : nat) (self : ResponseFormatter)
    (text : string) : option (list FormattedMessage) :=
  match split_loop fuel self [] text with
  | None => None
  | Some (messages, remaining) =>
      if Py.truthy remaining then
        let remaining :=
          match messages with
          | [] => remaining
          | _ => CONTINUED_BEFORE +:+ remaining
          end in
        Some (messages ++ [message remaining])%list
      else Some messages
  end.

(** Each iteration with a positive limit removes at least one
    character, so the length of the text bounds the iterations. *)
Definition _split_message (self : ResponseFormatter) (text : string)
    : option (list FormattedMessage) :=
  split_with_fuel (String.length text) self text.

Definition EMPTY_RESPONSE : FormattedMessage :=
  {| text := "(Empty response)"; parse_mode := "Markdown"; has_code := false |}.

Definition format_response (self : ResponseFormatter) (text : string)
    (add_header : bool) (header_text : string)
    : option (list FormattedMessage) :=
  if negb (Py.truthy text) || negb (Py.truthy (Py.strip text)) then
    Some [EMPTY_RESPONSE]
  else
    let text := if add_header then header_text +:+ text else text in
    if (len text <=? max_length self)%Z then Some [message text]
    else _split_message self text.

(** *** An input used to state the properties *)

Fixpoint repeat_char (n : nat) (c : ascii) : string :=
  match n with
  | O => EmptyString
  | S n' => String c (repeat_char n' c)
  end.

(** A fenced block of 230 characters with a blank line inside. *)
Definition fenced_example : string :=
  FENCE +:+ NEWLINE +:+ repeat_char 20 "a" +:+ NEWLINE +:+ NEWLINE
  +:+ repeat_char 200 "b" +:+ NEWLINE +:+ FENCE.

(** 3800 characters of prose, a line break, then the block: the block
    starts before the limit of 3900 and ends after it. *)
Definition straddling_text : string :=
  repeat_char 3800 "x" +:+ NEWLINE +:+ fenced_example.

End Formatter.

(* ===================================================================== *)
(** ** bot.py: per-user state and message handlers *)
(* ===================================================================== *)

Module Bot.

Definition CHANGE_STATE_PENDING : string := "pending".
Definition CHANGE_STATE_APPROVED : string := "approved".
Definition CHANGE_STATE_REJECTED : string := "rejected".

(** *** Stored values

    [context.user_data] is a dictionary from key names to Python
    values.  [value] lists the kinds of value the bot stores in it.
    The dictionary kept under ['pending_change'] is a record of its
    keys; [approved_at] and [rejected_at] are the keys a decision
    adds. *)
Record change_ (V : Type) := {
  id : string;
  state : string;
  prompt : string;
  timestamp : string;
  output : string;
  session_id : V;
  tools_used : list string;
  approved_at : option string;
  rejected_at : option string;
}.
Arguments id {V} _.
Arguments state {V} _.
Arguments prompt {V} _.
Arguments timestamp {V} _.
Arguments output {V} _.
Arguments session_id {V} _.
Arguments tools_used {V} _.
Arguments approved_at {V} _.
Arguments rejected_at {V} _.

(** One element of ['approval_history']. *)
Record history_entry := {
  change_id : string;
  entry_state : string;
  entry_timestamp : string;
  entry_prompt : string;
}.

Inductive value :=
| VNone
| VInt (n : Z)
| VStr (s : string)
| VPreferences (auto_compact show_transcription : bool)
               (max_turns_before_compact : Z)
| VChange (c : change_ value)
| VHistory (entries : list history_entry).

Abbreviation change := (change_ value).

(** [bool(v)] *)
Definition truthy (v : value) : bool :=
  match v with
  | VNone => false
  | VInt n => negb (n =? 0)%Z
  | VStr s => Py.truthy s
  | VPreferences _ _ _ => true
  | VChange _ => true
  | VHistory entries => match entries with [] => false | _ => true end
  end.

Definition USER_DATA_SCHEMA : gmap string value :=
  list_to_map
    [ ("claude_session_id", VNone);
      ("turn_count", VInt 0);
      ("last_active", VNone);
      ("workspace_path", VStr "/workspace");
      ("last_transcription", VNone);
      ("github_repo", VNone);
      ("repo_path", VNone);
      ("preferences", VPreferences true true 20) ].

(** *** What a handler does to the outside *)

(** The texts sent to the chat, by the branch that sends them. *)
Inductive notice :=
| Unauthorized
| Processing
| PendingChangesWarning
| SessionCleared
| ClaudeReply (units : option (list Formatter.FormattedMessage))
| ExecutionFailed (error : option string)
| ExecutionError
| ApprovedCommitted (commit_hash : string) (subject : string)
| ApprovedCommitFailed (reason : string)
| ApprovedStagingFailed (reason : string)
| ApprovedNoGitChanges
| ApprovedNotARepository
| NoPendingChanges
| RejectedGitChanges
| RejectedNoModifications
| RetryingCommand
| NoPreviousCommand
| BackToMainActions
| UnknownAction (action : string)
| NewSessionCreated
| OldSessionsCleaned
| ClearCancelled
| ErrorProcessingRequest.

Inductive effect :=
| Say (text : notice)
| DeleteMessage
| GitAddFiles
| GitCommit (message : string)
| RunClaude (prompt : string) (repo_context : option (value * value))
            (session_id : value).

(** *** Handlers

    A handler runs on the user's dictionary and the log of its
    effects; it returns or raises, and what it did before raising
    stays done. *)
Record world := {
  user_data : gmap string value;
  effects : list effect;
}.

Inductive outcome (A : Type) :=
| Returned (a : A)
| Raised (exception : string).
Arguments Returned {A} _.
Arguments Raised {A} _.

Definition handler (A : Type) : Type := world -> outcome A * world.

#[export] Instance handler_ret : MRet handler :=
  fun A a w => (Returned a, w).

#[export] Instance handler_bind : MBind handler :=
  fun A B f m w =>
    match m w with
    | (Returned a, w') => f a w'
    | (Raised e, w') => (Raised e, w')
    end.

Definition raise {A} (exception : string) : handler A :=
  fun w => (Raised exception, w).

(** [try: body except Exception: rescue] *)
Definition try_except {A} (body rescue : handler A) : handler A :=
  fun w =>
    match body w with
    | (Returned a, w') => (Returned a, w')
    | (Raised _, w') => rescue w'
    end.

(** [context.user_data.get(key)]; [None] is an absent key. *)
Definition get (key : string) : handler (option value) :=
  fun w => (Returned (user_data w !! key), w).

(** [context.user_data[key] = v] *)
Definition put (key : string) (v : value) : handler unit :=
  fun w => (Returned tt,
            {| user_data := <[key := v]> (user_data w); effects := effects w |}).

Definition emit (e : effect) : handler unit :=
  fun w => (Returned tt,
            {| user_data := user_data w; effects := effects w ++ [e] |}).

Definition skip : handler unit := mret tt.

Definition start (ud : gmap string value) : world :=
  {| user_data := ud; effects := [] |}.

(** *** Session helpers *)

Definition initialize_user_data (now : string) : handler unit :=
  fun w =>
    let ud :=
      match user_data w !! "claude_session_id" with
      | None => USER_DATA_SCHEMA ∪ user_data w
      | Some _ => user_data w
      end in
    (Returned tt,
     {| user_data := <["last_active" := VStr now]> ud; effects := effects w |}).

Definition get_or_create_session_id (now : string) : handler value :=
  initialize_user_data now;;
  session_id ← get "claude_session_id";
  mret (default VNone session_id).

Definition increment_turn_count (now : string) : handler value :=
  initialize_user_data now;;
  turn_count ← get "turn_count";
  match default (VInt 0) turn_count with
  | VInt n => put "turn_count" (VInt (n + 1));; mret (VInt (n + 1))
  | _ => raise "TypeError"
  end.

Definition reset_session : handler unit :=
  put "claude_session_id" VNone;;
  put "turn_count" (VInt 0).

(** [pending_change and pending_change.get('state') == CHANGE_STATE_PENDING]:
    a false value stops at [and], a dictionary is asked for its state,
    anything else has no [get]. *)
Definition is_pending (pending_change : option value) : handler bool :=
  match pending_change with
  | None => mret false
  | Some v =>
      if negb (truthy v) then mret false
      else match v with
           | VChange c => mret (String.eqb (state c) CHANGE_STATE_PENDING)
           | VPreferences _ _ _ => mret false
           | _ => raise "AttributeError"
           end
  end.

(** *** [/clear] *)

Definition handle_clear (authorized : bool) : handler unit :=
  if negb authorized then emit (Say Unauthorized)
  else
    pending_change ← get "pending_change";
    pending ← is_pending pending_change;
    if (pending : bool) then emit (Say PendingChangesWarning)
    else
      put "claude_session_id" VNone;;
      put "turn_count" (VInt 0);;
      put "pending_change" VNone;;
      emit (Say SessionCleared).

(** *** Text messages *)

(** What one text message meets outside the bot: the authorisation
    check, the clock, whether the assistant subprocess can be started
    and what it does once started.  The calls to the chat are taken to
    return. *)
Record text_env := {
  user_id : Z;
  authorized : bool;
  now : nat -> string;
  now_timestamp : Z;
  spawn_raises : bool;
  run : Executor.stream_outcome;
}.

Definition claude_executor : Executor.ClaudeExecutor := Executor.default_executor.
Definition formatter : Formatter.ResponseFormatter := Formatter.default_formatter.

(** [claude_executor.execute_streaming(prompt, session_id, on_progress)].
    [asyncio.create_subprocess_exec] only takes strings, so a true
    session id of another kind raises before the subprocess starts, and
    so does a subprocess that cannot be started. *)
Definition execute_streaming (env : text_env) (prompt : string)
    (repo_context : option (value * value)) (session_id : value)
    : handler Executor.ClaudeResponse :=
  if truthy session_id && negb (match session_id with VStr _ => true | _ => false end)
  then raise "TypeError"
  else if spawn_raises env then raise "OSError"
  else
    emit (RunClaude prompt repo_context session_id);;
    mret (fst (Executor.execute_streaming claude_executor true (run env))).

(** The entry stored under ['pending_change'] after a successful run. *)
Definition new_pending_change (env : text_env) (text : string)
    (response : Executor.ClaudeResponse) (stored_session : value) : change :=
  {| id := "change_" +:+ pretty (user_id env) +:+ "_" +:+ pretty (now_timestamp env);
     state := CHANGE_STATE_PENDING;
     prompt := text;
     timestamp := now env 2;
     output := Executor.output response;
     session_id := stored_session;
     tools_used := Executor.tools_used response;
     approved_at := None;
     rejected_at := None |}.

(** [handle_text], up to the reply: the throttled progress edits and
    the details appended to the reply are left out of the effect
    log. *)
Definition handle_text (env : text_env) (text : string) : handler unit :=
  if negb (authorized env) then emit (Say Unauthorized)
  else
    put "last_prompt" (VStr text);;
    session_id ← get_or_create_session_id (now env 0);
    _ ← increment_turn_count (now env 1);
    emit (Say Processing);;
    try_except
      (github_repo ← get "github_repo";
       repo_path ← get "repo_path";
       let repo_context :=
         match github_repo, repo_path with
         | Some g, Some p => if truthy g && truthy p then Some (g, p) else None
         | _, _ => None
         end in
       claude_response ← execute_streaming env text repo_context session_id;
       (if Py.truthy_opt (Executor.session_id claude_response)
        then put "claude_session_id"
               (VStr (default "" (Executor.session_id claude_response)))
        else skip);;
       if Executor.success claude_response then
         stored ← get "claude_session_id";
         put "pending_change"
           (VChange (new_pending_change env text claude_response
                       (default VNone stored)));;
         emit (Say (ClaudeReply
                      (Formatter.format_response formatter
                         (Executor.output claude_response) false "")))
       else
         emit (Say (ExecutionFailed (Executor.error claude_response))))
      (emit (Say ExecutionError)).

(** *** Observations used to state the properties *)

(** The session keys hold what the bot writes there: a string or
    [None] for the session id, an integer for the turn counter. *)
Definition session_keys_ok (ud : gmap string value) : Prop :=
  match ud !! "claude_session_id" with
  | None => True
  | Some VNone | Some (VStr _) =>
      match ud !! "turn_count" with
      | None | Some (VInt _) => True
      | Some _ => False
      end
  | Some _ => False
  end.

(** [user_data.get('claude_session_id')] *)
Definition stored_session_id (ud : gmap string value) : value :=
  default VNone (ud !! "claude_session_id").

(** [user_data.get('turn_count', 0)] as an integer. *)
Definition turn_count_of (ud : gmap string value) : Z :=
  match ud !! "turn_count" with
  | Some (VInt n) => n
  | _ => 0
  end.

(** The dictionary [initialize_user_data] leaves, clock apart. *)
Definition initialised (ud : gmap string value) : gmap string value :=
  match ud !! "claude_session_id" with
  | None => USER_DATA_SCHEMA ∪ ud
  | Some _ => ud
  end.

(** The response the executor gives in [env]. *)
Definition response_in (env : text_env) : Executor.ClaudeResponse :=
  fst (Executor.execute_streaming claude_executor true (run env)).

(** [/clear] is taken without a pending change. *)
Definition no_pending_change (ud : gmap string value) : Prop :=
  fst (is_pending (ud !! "pending_change") (start ud)) = Returned false.

(** The three assignments of a session clear. *)
Definition cleared (ud : gmap string value) : gmap string value :=
  <["pending_change" := VNone]>
    (<["turn_count" := VInt 0]> (<["claude_session_id" := VNone]> ud)).

(** A run that exits cleanly after announcing a session, with no text
    and no tool call. *)
Definition silent_run : Executor.stream_outcome :=
  Executor.StreamExited
    [ Executor.Json (Executor.init_event (Some "abc") (Some "m")) ] 0 "".

Definition silent_env : text_env :=
  {| user_id := 1; authorized := true;
     now := fun _ => "2026-01-01T00:00:00";
     now_timestamp := 1700000000; spawn_raises := false; run := silent_run |}.

(** A run that announces a session, emits part of an answer and exits
    with code 1. *)
Definition crashed_run : Executor.stream_outcome :=
  Executor.StreamExited
    [ Executor.Json (Executor.init_event (Some "abc") (Some "m"));
      Executor.Json (Executor.assistant_event [Executor.text_block "partial"]) ]
    1 "boom".

Definition crashed_env : text_env :=
  {| user_id := 1; authorized := true;
     now := fun _ => "2026-01-01T00:00:00";
     now_timestamp := 1700000000; spawn_raises := false; run := crashed_run |}.

Definition some_change : change :=
  {| id := "change_1_1700000000"; state := CHANGE_STATE_PENDING;
     prompt := "add tests"; timestamp := "2026-01-01T00:00:00";
     output := "done"; session_id := VStr "s-1"; tools_used := ["Write"];
     approved_at := None; rejected_at := None |}.

End Bot.

(* ===================================================================== *)
(** ** callback_handlers.py: inline-button callbacks *)
(* ===================================================================== *)

Module Callbacks.
Import Bot.

(** [GitStatus], by the one field the callbacks read. *)
Record GitStatus := { is_clean : bool }.

(** What one button press meets outside the bot: the answers of the
    [git_ops] wrappers (none of which raises), the clock, and whether
    [query.edit_message_text] raises.  The other calls to the chat are
    taken to return. *)
Record callback_env := {
  is_git_repo : bool;
  get_status : option GitStatus;
  add_files : bool * string;
  commit : bool * string;
  now : nat -> string;
  edit_message_text_raises : bool;
}.

Definition edit_message_text (env : callback_env) (text : notice)
    : handler unit :=
  emit (Say text);;
  if edit_message_text_raises env then raise "TelegramError" else skip.

(** [lst[-20:]] *)
Definition last_20 {A} (l : list A) : list A := drop (length l - 20) l.

(** The lines from "Add to approval history" to "Limit history". *)
Definition record_decision (entry : history_entry) : handler unit :=
  history ← get "approval_history";
  (match history with
   | None => put "approval_history" (VHistory [])
   | Some _ => skip
   end);;
  history ← get "approval_history";
  match history with
  | Some (VHistory entries) =>
      let entries := (entries ++ [entry])%list in
      put "approval_history" (VHistory entries);;
      if (20 <? length entries)%nat
      then put "approval_history" (VHistory (last_20 entries))
      else skip
  | _ => raise "AttributeError"
  end.

Definition commit_message (pending_change : change) : string :=
  "Apply changes from Claude" +:+ Formatter.NEWLINE +:+ Formatter.NEWLINE
  +:+ "Prompt: " +:+ Py.take 100 (prompt pending_change).

Definition commit_subject : string := "Apply changes from Claude".

(** The lines from "Try to commit changes" to the last notice of the
    approve branch. *)
Definition commit_approved (env : callback_env) (pending_change : change)
    : handler unit :=
  if is_git_repo env then
    match get_status env with
    | Some status =>
        if negb (is_clean status) then
          emit GitAddFiles;;
          let '(success, msg) := add_files env in
          if (success : bool) then
            emit (GitCommit (commit_message pending_change));;
            let '(success, result) := commit env in
            if (success : bool)
            then edit_message_text env (ApprovedCommitted result commit_subject)
            else edit_message_text env (ApprovedCommitFailed result)
          else edit_message_text env (ApprovedStagingFailed msg)
        else edit_message_text env ApprovedNoGitChanges
    | None => edit_message_text env ApprovedNoGitChanges
    end
  else edit_message_text env ApprovedNotARepository.

(** The lines from "Check if there are uncommitted changes to
    discard" to the last notice of the reject branch. *)
Definition report_rejected (env : callback_env) : handler unit :=
  if is_git_repo env then
    match get_status env with
    | Some status =>
        if negb (is_clean status)
        then edit_message_text env RejectedGitChanges
        else edit_message_text env RejectedNoModifications
    | None => edit_message_text env RejectedNoModifications
    end
  else edit_message_text env RejectedNoModifications.

(** [pending_change['state'] = ...] and
    [pending_change['approved_at'] = ...]: [pending_change] is the
    dictionary stored in [user_data], so the store sees both. *)
Definition mark_approved (env : callback_env) (c : change) : change :=
  {| id := id c; state := CHANGE_STATE_APPROVED; prompt := prompt c;
     timestamp := timestamp c; output := output c;
     session_id := session_id c; tools_used := tools_used c;
     approved_at := Some (now env 0); rejected_at := rejected_at c |}.

Definition mark_rejected (env : callback_env) (c : change) : change :=
  {| id := id c; state := CHANGE_STATE_REJECTED; prompt := prompt c;
     timestamp := timestamp c; output := output c;
     session_id := session_id c; tools_used := tools_used c;
     approved_at := approved_at c; rejected_at := Some (now env 0) |}.

Definition approve (env : callback_env) : handler unit :=
  pending_change ← get "pending_change";
  pending ← is_pending pending_change;
  match pending_change, (pending : bool) with
  | Some (VChange c), true =>
      let c := mark_approved env c in
      put "pending_change" (VChange c);;
      record_decision
        {| change_id := id c; entry_state := CHANGE_STATE_APPROVED;
           entry_timestamp := now env 1;
           entry_prompt := Py.take 100 (prompt c) |};;
      commit_approved env c;;
      put "pending_change" VNone
  | _, _ => edit_message_text env NoPendingChanges
  end.

Definition reject (env : callback_env) : handler unit :=
  pending_change ← get "pending_change";
  pending ← is_pending pending_change;
  match pending_change, (pending : bool) with
  | Some (VChange c), true =>
      let c := mark_rejected env c in
      put "pending_change" (VChange c);;
      record_decision
        {| change_id := id c; entry_state := CHANGE_STATE_REJECTED;
           entry_timestamp := now env 1;
           entry_prompt := Py.take 100 (prompt c) |};;
      report_rejected env;;
      put "pending_change" VNone
  | _, _ => edit_message_text env NoPendingChanges
  end.

(** [retry_text[:50]] needs a string or a list. *)
Definition retry (env : callback_env) : handler unit :=
  last_prompt ← get "last_prompt";
  last_transcription ← get "last_transcription";
  let retry_text :=
    if truthy (default VNone last_transcription)
    then default VNone last_transcription else default VNone last_prompt in
  if truthy retry_text then
    match retry_text with
    | VStr _ | VHistory _ => edit_message_text env RetryingCommand
    | _ => raise "TypeError"
    end
  else edit_message_text env NoPreviousCommand.

Definition handle_action_callback (env : callback_env) (action : string)
    : handler unit :=
  if String.eqb action "approve" then approve env
  else if String.eqb action "reject" then reject env
  else if String.eqb action "retry" then retry env
  else if String.eqb action "dismiss" then emit DeleteMessage
  else if String.eqb action "back" then emit (Say BackToMainActions)
  else edit_message_text env (UnknownAction action).

Definition handle_confirm_callback (env : callback_env) (action : string)
    : handler unit :=
  if String.eqb action "newsession" then
    put "claude_session_id" VNone;;
    put "turn_count" (VInt 0);;
    edit_message_text env NewSessionCreated
  else if String.eqb action "cleansessions" then
    edit_message_text env OldSessionsCleaned
  else skip.

Definition handle_clear_callback (env : callback_env) (action : string)
    : handler unit :=
  if String.eqb action "confirm" then
    put "claude_session_id" VNone;;
    put "turn_count" (VInt 0);;
    put "pending_change" VNone;;
    edit_message_text env SessionCleared
  else if String.eqb action "cancel" then
    edit_message_text env ClearCancelled
  else skip.

(** [callback_data] after [split(':', 2)], for the three categories
    whose handlers write user data: ["action:<a>"], ["clear:<a>"] and
    ["confirm:<a>"]. *)
Inductive callback_data :=
| ActionData (action : string)
| ClearData (action : string)
| ConfirmData (action : string).

(** [handle_callback_query]: route on the category, and turn any
    exception into an error notice. *)
Definition handle_callback_query (env : callback_env) (data : callback_data)
    : handler unit :=
  try_except
    match data with
    | ActionData action => handle_action_callback env action
    | ClearData action => handle_clear_callback env action
    | ConfirmData action => handle_confirm_callback env action
    end
    (edit_message_text env ErrorProcessingRequest).

(** *** Observations used to state the properties *)

(** The list kept under ['approval_history']. *)
Definition approval_history (ud : gmap string value) : list history_entry :=
  match ud !! "approval_history" with
  | Some (VHistory entries) => entries
  | _ => []
  end.

(** ['approval_history'] is absent or a list. *)
Definition history_ok (ud : gmap string value) : Prop :=
  match ud !! "approval_history" with
  | None | Some (VHistory _) => True
  | Some _ => False
  end.

(** The user holds a change in the [Pending] state. *)
Definition holds_pending (ud : gmap string value) (c : change) : Prop :=
  ud !! "pending_change" = Some (VChange c) /\ state c = CHANGE_STATE_PENDING.

(** The stored change, if any, has been decided. *)
Definition decided (ud : gmap string value) : Prop :=
  ud !! "pending_change" = Some VNone
  \/ exists c, ud !! "pending_change" = Some (VChange c)
               /\ state c <> CHANGE_STATE_PENDING.

Definition is_decision (action : string) : Prop :=
  action = "approve" \/ action = "reject".

Definition is_git_write (e : effect) : bool :=
  match e with
  | GitAddFiles | GitCommit _ => true
  | _ => false
  end.

(** The store after one press of approve or reject. *)
Definition after (env : callback_env) (action : string)
    (ud : gmap string value) : gmap string value :=
  user_data (snd (handle_callback_query env (ActionData action) (start ud))).

(** The history entry a decision on [c] leaves. *)
Definition entry_for (env : callback_env) (action : string) (c : change)
    : history_entry :=
  {| change_id := id c;
     entry_state :=
       if String.eqb action "approve"
       then CHANGE_STATE_APPROVED else CHANGE_STATE_REJECTED;
     entry_timestamp := now env 1;
     entry_prompt := Py.take 100 (prompt c) |}.

(** The change as a decision marks it. *)
Definition mark (env : callback_env) (action : string) (c : change) : change :=
  if String.eqb action "approve"
  then mark_approved env c else mark_rejected env c.

(** The store that approve or reject leaves to a user who held the
    pending change [c]: the change is marked; unless the history is
    not a list, the entry is recorded; and unless the notice could not
    be sent, the change is cleared. *)
Definition decision_store (env : callback_env) (action : string) (c : change)
    (ud : gmap string value) : gmap string value :=
  let marked := <["pending_change" := VChange (mark env action c)]> ud in
  match ud !! "approval_history" with
  | None | Some (VHistory _) =>
      let recorded :=
        <["approval_history" :=
            VHistory (last_20 (approval_history ud ++ [entry_for env action c]))]>
          marked in
      if edit_message_text_raises env then recorded
      else <["pending_change" := VNone]> recorded
  | Some _ => marked
  end.

(** One step of a user's session, as far as the approval workflow sees
    it: a run proposes a change, or the user presses a button. *)
Inductive step :=
| Propose (c : change)
| Press (env : callback_env) (data : callback_data).

Definition do_step (ud : gmap string value) (s : step) : gmap string value :=
  match s with
  | Propose c => <["pending_change" := VChange c]> ud
  | Press env data => user_data (snd (handle_callback_query env data (start ud)))
  end.

Definition run_steps (ud : gmap string value) (steps : list step)
    : gmap string value :=
  foldl do_step ud steps.

(** One round of the approval workflow: a run proposes [proposal]
    (the assignment to ['pending_change'] in [handle_text]), then the
    user presses approve or reject. *)
Record round := {
  proposal : change;
  decision : string;
  meets : callback_env;
}.

Definition play (ud : gmap string value) (r : round) : gmap string value :=
  run_steps ud [ Propose (proposal r);
                 Press (meets r) (ActionData (decision r)) ].

Definition play_all (ud : gmap string value) (rounds : list round)
    : gmap string value :=
  foldl play ud rounds.

Definition entry_of (r : round) : history_entry :=
  entry_for (meets r) (decision r) (proposal r).

Definition well_formed_round (r : round) : Prop :=
  state (proposal r) = CHANGE_STATE_PENDING /\ is_decision (decision r).

Definition clean_repo : callback_env :=
  {| is_git_repo := true; get_status := Some {| is_clean := true |};
     add_files := (true, "All changes staged"); commit := (true, "abc1234");
     now := fun _ => "2026-01-01T00:00:01";
     edit_message_text_raises := false |}.

Definition dirty_repo : callback_env :=
  {| is_git_repo := true; get_status := Some {| is_clean := false |};
     add_files := (true, "All changes staged"); commit := (true, "abc1234");
     now := fun _ => "2026-01-01T00:00:01";
     edit_message_text_raises := false |}.

Definition twenty_five_rounds : list round :=
  replicate 24 {| proposal := some_change; decision := "approve";
                  meets := dirty_repo |}
  ++ [ {| proposal := some_change; decision := "reject"; meets := clean_repo |} ].

End Callbacks.

(* ===================================================================== *)
(** ** More of Python's strings *)
(* ===================================================================== *)

(** More of Python's [str], on the same 8-bit strings as [Py]. *)
Module Str.

(** Puts [c] in front of the first segment. *)
Definition push (c : ascii) (segments : list string) : list string :=
  match segments with
  | seg :: rest => String c seg :: rest
  | [] => [String c EmptyString]
  end.

(** [s.split(sep, maxsplit)] for a non-empty [sep]: the separators are
    found from the left and never overlap; [skip] counts the
    characters still inside the separator just found. *)
Fixpoint splitn_from (sep : string) (maxsplit skip : nat) (s : string)
    : list string :=
  match s with
  | EmptyString => [EmptyString]
  | String c s' =>
      match skip with
      | S k => splitn_from sep maxsplit k s'
      | O =>
          match maxsplit with
          | O => [s]
          | S n =>
              if Py.startswith sep s
              then EmptyString :: splitn_from sep n (String.length sep - 1) s'
              else push c (splitn_from sep maxsplit 0 s')
          end
      end
  end.

Definition splitn (sep : string) (maxsplit : nat) (s : string) : list string :=
  splitn_from sep maxsplit 0 s.

(** [s.split(sep)] for a non-empty [sep]. *)
Fixpoint split_from (sep : string) (skip : nat) (s : string) : list string :=
  match s with
  | EmptyString => [EmptyString]
  | String c s' =>
      match skip with
      | S k => split_from sep k s'
      | O =>
          if Py.startswith sep s
          then EmptyString :: split_from sep (String.length sep - 1) s'
          else push c (split_from sep 0 s')
      end
  end.

Definition split (sep s : string) : list string := split_from sep 0 s.

(** [sep.join(parts)] *)
Fixpoint join (sep : string) (parts : list string) : string :=
  match parts with
  | [] => EmptyString
  | [part] => part
  | part :: rest => part +:+ sep +:+ join sep rest
  end.

(** [s.replace(old, new)] for a non-empty [old]. *)
Fixpoint replace_from (old new : string) (skip : nat) (s : string) : string :=
  match s with
  | EmptyString => EmptyString
  | String c s' =>
      match skip with
      | S k => replace_from old new k s'
      | O =>
          if Py.startswith old s
          then new +:+ replace_from old new (String.length old - 1) s'
          else String c (replace_from old new 0 s')
      end
  end.

Definition replace (old new s : string) : string := replace_from old new 0 s.

(** [c in chars] *)
Fixpoint has (c : ascii) (chars : string) : bool :=
  match chars with
  | EmptyString => false
  | String d rest => Ascii.eqb c d || has c rest
  end.

Fixpoint lstrip_chars (chars s : string) : string :=
  match s with
  | String c s' => if has c chars then lstrip_chars chars s' else s
  | EmptyString => EmptyString
  end.

Fixpoint rstrip_chars (chars s : string) : string :=
  match s with
  | EmptyString => EmptyString
  | String c s' =>
      match rstrip_chars chars s' with
      | EmptyString => if has c chars then EmptyString else String c EmptyString
      | r => String c r
      end
  end.

(** [s.strip(chars)] *)
Definition strip_chars (chars s : string) : string :=
  rstrip_chars chars (lstrip_chars chars s).

(** [s.lower()]: the capital letters below code point 256 are A-Z and
    the accented capitals 192-222, the multiplication sign 215 apart. *)
Definition lower_char (c : ascii) : ascii :=
  let n := nat_of_ascii c in
  if ((65 <=? n) && (n <=? 90)
      || (192 <=? n) && (n <=? 222) && negb (n =? 215))%nat
  then ascii_of_nat (n + 32) else c.

Fixpoint lower (s : string) : string :=
  match s with
  | EmptyString => EmptyString
  | String c s' => String (lower_char c) (lower s')
  end.

(** *** [int(s)]

    The characters [int] strips from both ends: TAB..CR, SPACE, NEL
    and NBSP (the separators FS..US, which [str.strip] removes, make
    [int] fail). *)
Definition int_space (c : ascii) : bool :=
  let n := nat_of_ascii c in
  (((9 <=? n) && (n <=? 13)) || (n =? 32) || (n =? 133) || (n =? 160))%nat.

Definition digit_of (c : ascii) : option Z :=
  let n := nat_of_ascii c in
  if ((48 <=? n) && (n <=? 57))%nat then Some (Z.of_nat (n - 48)) else None.

(** The longest string of decimal digits [int] and [str] convert. *)
Definition INT_MAX_STR_DIGITS : nat := 4300.

(** Digits with single underscores between them.  [acc] is the value
    read so far, [count] the number of digits read, [after_digit]
    tells whether the previous character was a digit. *)
Fixpoint int_digits (acc : Z) (count : nat) (after_digit : bool) (s : string)
    : option (Z * nat) :=
  match s with
  | EmptyString => if after_digit then Some (acc, count) else None
  | String c s' =>
      match digit_of c with
      | Some d => int_digits (10 * acc + d) (S count) true s'
      | None =>
          if Ascii.eqb c "_" && after_digit
          then int_digits acc count false s'
          else None
      end
  end.

Fixpoint lstrip_int (s : string) : string :=
  match s with
  | String c s' => if int_space c then lstrip_int s' else s
  | EmptyString => EmptyString
  end.

Fixpoint rstrip_int (s : string) : string :=
  match s with
  | EmptyString => EmptyString
  | String c s' =>
      match rstrip_int s' with
      | EmptyString => if int_space c then EmptyString else String c EmptyString
      | r => String c r
      end
  end.

(** [int(s)]; [None] stands for [ValueError]. *)
Definition int (s : string) : option Z :=
  let s := rstrip_int (lstrip_int s) in
  let '(negative, digits) :=
    match s with
    | String "-" rest => (true, rest)
    | String "+" rest => (false, rest)
    | _ => (false, s)
    end in
  match int_digits 0 0 false digits with
  | Some (n, count) =>
      if (INT_MAX_STR_DIGITS <? count)%nat then None
      else Some (if negative then - n else n)%Z
  | None => None
  end.

End Str.

(* ===================================================================== *)
(** ** Observations on the executor's results *)
(* ===================================================================== *)

Module Reports.
Import Executor.

Definition is_result (e : event) : bool := py_eq (event_type e) "result".

(** The [result] events of a stream, in stream order. *)
Definition result_events (lines : list line) : list event :=
  omap (fun l => match l with
                 | Json e => if is_result e then Some e else None
                 | _ => None
                 end) lines.

(** [cost_usd], [duration_ms], [input_tokens] and [output_tokens]. *)
Definition totals (r : ClaudeResponse) : spec_float * Z * Z * Z :=
  (cost_usd r, duration_ms r, input_tokens r, output_tokens r).

Definition event_totals (e : event) : spec_float * Z * Z * Z :=
  (default float_zero (event_total_cost_usd e),
   default 0%Z (event_duration_ms e),
   default 0%Z (usage_input_tokens (event_usage e)),
   default 0%Z (usage_output_tokens (event_usage e))).

Definition st_totals (st : parse_state) : spec_float * Z * Z * Z :=
  (st_cost_usd st, st_duration_ms st, st_input_tokens st, st_output_tokens st).

(** The totals of a response built without its parser's loop. *)
Definition zero_totals : spec_float * Z * Z * Z := (float_zero, 0%Z, 0%Z, 0%Z).

(** The totals of the last [result] event among the lines read. *)
Definition last_result_totals (lines : list line) : spec_float * Z * Z * Z :=
  match last (result_events lines) with
  | Some e => event_totals e
  | None => zero_totals
  end.


End Reports.

(* ===================================================================== *)
(** ** More of formatters.py *)
(* ===================================================================== *)

Module Splitting.
Import Formatter.

(** The characters of [s] that are not white space, in order. *)
Fixpoint nonspace (s : string) : string :=
  match s with
  | EmptyString => EmptyString
  | String c s' => if Py.isspace c then nonspace s' else String c (nonspace s')
  end.

(** The message [m] is the text [body], with or without the marks
    that announce a continuation. *)
Definition carries (body : string) (m : FormattedMessage) : Prop :=
  exists pre post,
    pre ∈ [EmptyString; CONTINUED_BEFORE]
    /\ post ∈ [EmptyString; CONTINUED_AFTER]
    /\ text m = pre +:+ body +:+ post.

(** The length of either continuation mark. *)
Definition MARK_LENGTH : Z := 18.

End Splitting.

Module Formatting.
Import Formatter.

(** [truncate_text(text, max_length, suffix)] *)
Definition truncate_text (text : string) (max_length : Z) (suffix : string)
    : string :=
  if (len text <=? max_length)%Z then text
  else upto (max_length - len suffix) text +:+ suffix.

Definition special_chars : list string :=
  [ "_"; "*"; "["; "]"; "("; ")"; "~"; "`"; ">"; "#"; "+"; "-"; "="; "|";
    "{"; "}"; "."; "!" ].

(** [escape_markdown]: one [str.replace] per special character, in the
    order of the list. *)
Definition escape_markdown (text : string) : string :=
  foldl (fun text char => Str.replace char ("\" +:+ char) text) text special_chars.

(** *** Observations used to state the properties *)

Definition is_special (c : ascii) : bool :=
  existsb (String.eqb (String c EmptyString)) special_chars.

(** Escaping character by character: a backslash before each special
    character. *)
Fixpoint escape_each (text : string) : string :=
  match text with
  | EmptyString => EmptyString
  | String c rest =>
      if is_special c then String "\" (String c (escape_each rest))
      else String c (escape_each rest)
  end.

Fixpoint count_special (text : string) : nat :=
  match text with
  | EmptyString => 0
  | String c rest => (if is_special c then 1 else 0) + count_special rest
  end.

End Formatting.

(* ===================================================================== *)
(** ** More of the approval workflow and of the session commands *)
(* ===================================================================== *)

Module Approval.
Import Bot Callbacks.

(** The git commands among the effects of a handler. *)
Definition git_writes (effs : list effect) : list effect :=
  filter (fun e => is_git_write e = true) effs.

(** The git commands an approval of [c] runs in [env]: none outside a
    repository or on a clean tree, else [git add -A], followed by the
    commit when staging succeeded. *)
Definition approval_writes (env : callback_env) (c : change) : list effect :=
  if is_git_repo env then
    match get_status env with
    | Some status =>
        if negb (is_clean status) then
          GitAddFiles ::
            (if fst (add_files env) then [GitCommit (commit_message c)] else [])
        else []
    | None => []
    end
  else [].

End Approval.

Module Sessions.
Import Bot.

Definition CLAUDE_EXECUTABLE : string := "claude".

(** [ClaudeExecutor._build_command] *)
Definition _build_command (self : Executor.ClaudeExecutor) (prompt : string)
    (session_id : option string) : list string :=
  let cmd :=
    [ CLAUDE_EXECUTABLE; "-p"; prompt; "--output-format"; "stream-json";
      "--verbose"; "--max-turns"; pretty (Executor.max_turns self) ] in
  if Py.truthy_opt session_id
  then cmd ++ ["--resume"; default "" session_id]
  else cmd.

(** The session id [handle_text] hands to the executor, as
    [_build_command] receives it. *)
Definition session_argument (session_id : value) : option string :=
  match session_id with
  | VStr s => Some s
  | _ => None
  end.

(** The session ids the executor was asked to resume. *)
Definition sessions_resumed (effs : list effect) : list value :=
  omap (fun e =>
          match e with
          | RunClaude _ _ session_id => Some session_id
          | _ => None
          end) effs.

(** What the session commands reply. *)
Inductive reply :=
| Unauthorized
| NewSessionStarted (old_session : value)
| NoActiveSessionToCompact
| CompactingSession
| SessionCompacted.

(** [handle_newsession]; the calls to the chat are taken to return. *)
Definition handle_newsession (authorized : bool) (ud : gmap string value)
    : list reply * gmap string value :=
  if negb authorized then ([Unauthorized], ud)
  else
    let old_session := default (VStr "None") (ud !! "claude_session_id") in
    let ud := user_data (snd (reset_session (start ud))) in
    ([NewSessionStarted old_session], ud).

(** [handle_compact] *)
Definition handle_compact (authorized : bool) (ud : gmap string value)
    : list reply * gmap string value :=
  if negb authorized then ([Unauthorized], ud)
  else
    let session_id := default VNone (ud !! "claude_session_id") in
    if negb (truthy session_id) then ([NoActiveSessionToCompact], ud)
    else ([CompactingSession; SessionCompacted], <["turn_count" := VInt 0]> ud).

End Sessions.

(* ===================================================================== *)
(** ** config.py and bot.py: the allow list *)
(* ===================================================================== *)

Module Access.

(** The integers [str] and [int] convert: at most
    [INT_MAX_STR_DIGITS] decimal digits. *)
Definition convertible (n : Z) : Prop := (Z.abs n < 10 ^ 4300)%Z.

(** config.py: the list built from the environment variable
    [ALLOWED_USER_IDS]; [None] stands for the [ValueError] that ends
    the program. *)
Definition parse_allowed_user_ids (ALLOWED_USER_IDS_STR : string)
    : option (list Z) :=
  if Py.truthy ALLOWED_USER_IDS_STR then
    mapM (fun uid => Str.int (Py.strip uid))
      (filter (fun uid => Py.truthy (Py.strip uid) = true)
         (Str.split "," ALLOWED_USER_IDS_STR))
  else Some [].

(** bot.py: [check_authorization], on the list of the configuration. *)
Definition check_authorization (ALLOWED_USER_IDS : list Z) (user_id : Z) : bool :=
  match ALLOWED_USER_IDS with
  | [] => true
  | _ => bool_decide (user_id ∈ ALLOWED_USER_IDS)
  end.

(** *** Observations used to state the properties *)

Fixpoint all_chars (P : ascii -> bool) (s : string) : bool :=
  match s with
  | EmptyString => true
  | String c rest => P c && all_chars P rest
  end.

Definition is_digit (c : ascii) : bool :=
  match Str.digit_of c with Some _ => true | None => false end.

(** The value of a string of digits read after [acc]. *)
Fixpoint digits_value (acc : Z) (digits : string) : Z :=
  match digits with
  | EmptyString => acc
  | String c rest => digits_value (10 * acc + default 0%Z (Str.digit_of c)) rest
  end.

End Access.

(* ===================================================================== *)
(** ** git_operations.py *)
(* ===================================================================== *)

Module Git.

(** What [subprocess.run] returns. *)
Record CompletedProcess := {
  returncode : Z;
  stdout : string;
  stderr : string;
}.

Inductive exception :=
| TimeoutExpired (cmd : list string)
| CalledProcessError (cmd : list string) (returncode : Z) (stderr : string)
| ValueError
| OtherError (description : string).

(** How a command ends: the process exits; or it is still running at
    the timeout; or it cannot be started ([description] is the text
    of the exception [subprocess.run] raises then). *)
Inductive process :=
| Exits (result : CompletedProcess)
| TimesOut
| Fails (description : string).

(** What the wrappers meet outside: what a command does, given the
    commands run before it, and the text [str(e)] of an exception. *)
Record environment := {
  run : list (list string) -> list string -> process;
  str : exception -> string;
}.

(** A wrapper runs on the list of the commands run so far; it returns
    or raises. *)
Definition git (A : Type) : Type :=
  list (list string) -> (A + exception) * list (list string).

#[export] Instance git_ret : MRet git := fun A a past => (inl a, past).

#[export] Instance git_bind : MBind git :=
  fun A B f m past =>
    match m past with
    | (inl a, past') => f a past'
    | (inr e, past') => (inr e, past')
    end.

Definition throw {A} (e : exception) : git A := fun past => (inr e, past).

(** [try: body except Exception as e: handler(e)] *)
Definition catch {A} (body : git A) (handler : exception -> git A) : git A :=
  fun past =>
    match body past with
    | (inl a, past') => (inl a, past')
    | (inr e, past') => handler e past'
    end.

(** [_run_git]: the three [except] clauses log and re-raise. *)
Definition _run_git (env : environment) (args : list string) (check : bool)
    : git CompletedProcess :=
  fun past =>
    let cmd := "git" :: args in
    (match run env past cmd with
     | Exits result =>
         if check && negb (returncode result =? 0)%Z
         then inr (CalledProcessError cmd (returncode result) (stderr result))
         else inl result
     | TimesOut => inr (TimeoutExpired cmd)
     | Fails description => inr (OtherError description)
     end, past ++ [cmd]).

Definition is_git_repo (env : environment) : git bool :=
  catch
    (result ← _run_git env ["rev-parse"; "--git-dir"] false;
     mret (returncode result =? 0)%Z)
    (fun _ => mret false).

Record GitStatus := {
  is_repo : bool;
  is_clean : bool;
  branch : string;
  staged : list string;
  modified : list string;
  untracked : list string;
  ahead : Z;
  behind : Z;
}.

(** [parts[i]], where the code has made sure the index exists. *)
Definition item (i : nat) (parts : list string) : string :=
  default EmptyString (parts !! i).

(** [int(...)] inside a [try]. *)
Definition int (s : string) : git Z :=
  match Str.int s with
  | Some n => mret n
  | None => throw ValueError
  end.

(** The body of [for line in status_lines], on the five accumulators. *)
Definition read_status_line (st : GitStatus) (line : string) : git GitStatus :=
  if Py.startswith "##" line then
    ahead ← (if Py.contains "[ahead " line
             then int (item 0 (Str.split ","
                         (item 0 (Str.split "]"
                            (item 1 (Str.split "[ahead " line))))))
             else mret (ahead st));
    behind ← (if Py.contains "behind " line
              then int (item 0 (Str.split "]" (item 1 (Str.split "behind " line))))
              else mret (behind st));
    mret {| is_repo := is_repo st; is_clean := is_clean st; branch := branch st;
            staged := staged st; modified := modified st;
            untracked := untracked st; ahead := ahead; behind := behind |}
  else if (String.length line <? 3)%nat then mret st
  else
    let status_code := Py.take 2 line in
    let filename := Py.drop 3 line in
    let staged :=
      if negb (String.eqb (Py.take 1 status_code) " ")
      then staged st ++ [filename] else staged st in
    let modified :=
      if String.eqb (Py.drop 1 status_code) "M"
      then modified st ++ [filename] else modified st in
    let untracked :=
      if negb (String.eqb (Py.drop 1 status_code) "M")
         && String.eqb status_code "??"
      then untracked st ++ [filename] else untracked st in
    mret {| is_repo := is_repo st; is_clean := is_clean st; branch := branch st;
            staged := staged; modified := modified; untracked := untracked;
            ahead := ahead st; behind := behind st |}.

Fixpoint read_status_lines (st : GitStatus) (lines : list string)
    : git GitStatus :=
  match lines with
  | [] => mret st
  | line :: rest => st ← read_status_line st line; read_status_lines st rest
  end.

(** [stdout.strip().split('\n') if stdout.strip() else []] *)
Definition status_lines (stdout : string) : list string :=
  if Py.truthy (Py.strip stdout)
  then Str.split Formatter.NEWLINE (Py.strip stdout) else [].

Definition get_status (env : environment) : git (option GitStatus) :=
  repo ← is_git_repo env;
  if negb repo then mret None
  else
    catch
      (branch_result ← _run_git env ["branch"; "--show-current"] false;
       let branch :=
         if Py.truthy (Py.strip (stdout branch_result))
         then Py.strip (stdout branch_result) else "HEAD" in
       status_result ← _run_git env ["status"; "--porcelain=v1"; "--branch"] false;
       st ← read_status_lines
              {| is_repo := true; is_clean := true; branch := branch;
                 staged := []; modified := []; untracked := [];
                 ahead := 0; behind := 0 |}
              (status_lines (stdout status_result));
       let is_clean :=
         match staged st, modified st, untracked st with
         | [], [], [] => true
         | _, _, _ => false
         end in
       mret (Some {| is_repo := true; is_clean := is_clean; branch := branch;
                     staged := staged st; modified := modified st;
                     untracked := untracked st;
                     ahead := ahead st; behind := behind st |}))
      (fun _ => mret None).

Definition add_files (env : environment) (files : option (list string))
    : git (bool * string) :=
  repo ← is_git_repo env;
  if negb repo then mret (false, "Not a git repository")
  else
    catch
      (match files with
       | Some files =>
           if bool_decide (files = ["."]) then
             _run_git env ["add"; "-A"] false;;
             mret (true, "All changes staged")
           else
             _run_git env ("add" :: files) false;;
             mret (true, "Staged " +:+ pretty (length files) +:+ " file(s)")
       | None =>
           _run_git env ["add"; "-A"] false;;
           mret (true, "All changes staged")
       end)
      (fun e => mret (false, "Failed to stage: " +:+ str env e)).

Definition commit (env : environment) (message : string) (amend : bool)
    : git (bool * string) :=
  repo ← is_git_repo env;
  if negb repo then mret (false, "Not a git repository")
  else if negb (Py.truthy (Py.strip message))
  then mret (false, "Commit message cannot be empty")
  else
    catch
      (let args :=
         ["commit"; "-m"; message] ++ (if amend then ["--amend"] else []) in
       _run_git env args false;;
       hash_result ← _run_git env ["rev-parse"; "--short"; "HEAD"] false;
       mret (true, Py.strip (stdout hash_result)))
      (fun e =>
         match e with
         | CalledProcessError _ _ stderr =>
             let error := Py.strip stderr in
             if Py.contains "nothing to commit" error
             then mret (false, "No changes to commit")
             else mret (false, "Commit failed: " +:+ error)
         | _ => mret (false, "Failed to commit: " +:+ str env e)
         end).

End Git.

Module GitRuns.
Import Git.

(** A line of [git status --porcelain] that [get_status] counts in
    none of its lists: the branch line, a line shorter than three
    characters, or an entry whose first column is blank and whose
    second column is not [M]. *)
Definition unseen (line : string) : bool :=
  Py.startswith "##" line
  || (String.length line <? 3)%nat
  || (String.eqb (Py.take 1 line) " "
      && negb (String.eqb (Py.take 1 (Py.drop 1 line)) "M")).

(** Every command ends with an exit code, whichever it is. *)
Definition always_exits (env : environment) : Prop :=
  forall past cmd, exists result, run env past cmd = Exits result.

(** Nothing is listed as staged or as modified. *)
Definition nothing_listed (st : GitStatus) : Prop :=
  staged st = [] /\ modified st = [].

(** A repository in which [git commit] exits with code 1. *)
Definition nothing_to_commit : environment :=
  {| run := fun _ cmd =>
       if bool_decide (cmd = ["git"; "rev-parse"; "--short"; "HEAD"])
       then Exits {| returncode := 0; stdout := "abc1234" +:+ Formatter.NEWLINE;
                     stderr := "" |}
       else if bool_decide (take 2 cmd = ["git"; "commit"])
       then Exits {| returncode := 1;
                     stdout := "nothing to commit, working tree clean";
                     stderr := "" |}
       else if bool_decide (take 2 cmd = ["git"; "status"])
       then Exits {| returncode := 0;
                     stdout := "## main" +:+ Formatter.NEWLINE +:+ " D gone.txt";
                     stderr := "" |}
       else Exits {| returncode := 0; stdout := ""; stderr := "" |};
     str := fun _ => "" |}.

(** A repository with a modified file in which [git commit] fails. *)
Definition refused_commit : environment :=
  {| run := fun _ cmd =>
       if bool_decide (cmd = ["git"; "rev-parse"; "--short"; "HEAD"])
       then Exits {| returncode := 0; stdout := "abc1234" +:+ Formatter.NEWLINE;
                     stderr := "" |}
       else if bool_decide (take 2 cmd = ["git"; "commit"])
       then Exits {| returncode := 128; stdout := "";
                     stderr := "fatal: unable to auto-detect email address" |}
       else if bool_decide (take 2 cmd = ["git"; "status"])
       then Exits {| returncode := 0;
                     stdout := "## main" +:+ Formatter.NEWLINE +:+ " M notes.txt";
                     stderr := "" |}
       else Exits {| returncode := 0; stdout := ""; stderr := "" |};
     str := fun _ => "" |}.

(** [rev-parse --git-dir] succeeds whenever it is run. *)
Definition in_repository (env : environment) : Prop :=
  forall past, exists result,
    run env past ["git"; "rev-parse"; "--git-dir"] = Exits result
    /\ returncode result = 0%Z.

(** The value a wrapper returns; the wrappers of [git_ops] catch every
    exception. *)
Definition returned {A} (fallback : A)
    (r : (A + exception) * list (list string)) : A :=
  match fst r with
  | inl a => a
  | inr _ => fallback
  end.

(** The git commands the approve callback has run when it calls
    [commit]: those of [is_git_repo], [get_status] and [add_files]. *)
Definition commands_before_commit (env : environment) : list (list string) :=
  snd (add_files env None (snd (get_status env (snd (is_git_repo env []))))).

(** What the approve callback gets from [git_ops] in [env]: the
    answers of [is_git_repo], [get_status], [add_files] and [commit],
    called in this order on one repository. *)
Definition git_ops (env : environment) (pending_change : Bot.change)
    (now : nat -> string) (edit_message_text_raises : bool)
    : Callbacks.callback_env :=
  let r1 := is_git_repo env [] in
  let r2 := get_status env (snd r1) in
  let r3 := add_files env None (snd r2) in
  let r4 :=
    commit env (Callbacks.commit_message pending_change) false (snd r3) in
  {| Callbacks.is_git_repo := returned false r1;
     Callbacks.get_status :=
       (fun st => {| Callbacks.is_clean := is_clean st |})
         <$> returned None r2;
     Callbacks.add_files := returned (false, "") r3;
     Callbacks.commit := returned (false, "") r4;
     Callbacks.now := now;
     Callbacks.edit_message_text_raises := edit_message_text_raises |}.

End GitRuns.

(* ===================================================================== *)
(** ** keyboards.py and the routing of button presses *)
(* ===================================================================== *)

Module Keyboards.

(** The captions of the buttons built here. *)
Inductive caption :=
| Confirm
| Cancel
| Previous
| PageOf (page total_pages : Z)
| Next
| Dismiss.

Record InlineKeyboardButton := {
  text : caption;
  callback_data : string;
}.

(** A keyboard is a list of rows. *)
Definition InlineKeyboardMarkup : Type := list (list InlineKeyboardButton).

(** [KeyboardBuilder.confirmation] *)
Definition confirmation (action : string) : InlineKeyboardMarkup :=
  [ [ {| text := Confirm; callback_data := "confirm:" +:+ action |};
      {| text := Cancel; callback_data := "cancel:" +:+ action |} ] ].

(** [KeyboardBuilder.pagination] *)
Definition pagination (current_page total_pages : Z) (data_type : string)
    : InlineKeyboardMarkup :=
  let nav_row :=
    if (0 <? current_page)%Z
    then [ {| text := Previous;
              callback_data :=
                "page:" +:+ data_type +:+ ":" +:+ pretty (current_page - 1)%Z |} ]
    else [] in
  let nav_row :=
    nav_row ++ [ {| text := PageOf (current_page + 1) total_pages;
                    callback_data := "page:noop" |} ] in
  let nav_row :=
    if (current_page <? total_pages - 1)%Z
    then nav_row ++
         [ {| text := Next;
              callback_data :=
                "page:" +:+ data_type +:+ ":" +:+ pretty (current_page + 1)%Z |} ]
    else nav_row in
  [ nav_row; [ {| text := Dismiss; callback_data := "action:dismiss" |} ] ].

End Keyboards.

Module Routing.

(** The handler [handle_callback_query] calls, with the arguments it
    passes; [None] is Python's [None]. *)
Inductive call :=
| ActionCallback (action param : option string)
| GitCallback (action : option string)
| SessionCallback (action : option string)
| InfoCallback (action : option string)
| ClearCallback (action : option string)
| ConfirmCallback (action : option string)
| CancelCallback (action : option string)
| PageCallback (action param : option string)
| UnknownCategory.

(** The body of the [try] of [handle_callback_query], up to the call. *)
Definition route (callback_data : string) : call :=
  let parts := Str.splitn ":" 2 callback_data in
  let category := default EmptyString (parts !! 0) in
  let action := if (1 <? length parts)%nat then parts !! 1 else None in
  let param := if (2 <? length parts)%nat then parts !! 2 else None in
  if String.eqb category "action" then ActionCallback action param
  else if String.eqb category "git" then GitCallback action
  else if String.eqb category "session" then SessionCallback action
  else if String.eqb category "info" then InfoCallback action
  else if String.eqb category "clear" then ClearCallback action
  else if String.eqb category "confirm" then ConfirmCallback action
  else if String.eqb category "cancel" then CancelCallback action
  else if String.eqb category "page" then PageCallback action param
  else UnknownCategory.

(** What [handle_page_callback] shows: nothing for the page
    indicator, else the page. *)
Inductive page_reply :=
| NothingShown
| PageShown (page_number : Z) (data_type : option string).

(** [handle_page_callback]; [None] stands for the [ValueError] of
    [int(page)]. *)
Definition handle_page_callback (data_type page : option string)
    : option page_reply :=
  if Executor.py_eq data_type "noop" then Some NothingShown
  else
    page_num ← (if Py.truthy_opt page then Str.int (default EmptyString page)
                else Some 0%Z);
    Some (PageShown (page_num + 1) data_type).

(** What a press of a button leads to: a page, the [ValueError] that
    [handle_callback_query] reports as an error, or the call of
    another handler. *)
Inductive outcome :=
| Shows (reply : page_reply)
| RaisesValueError
| Calls (handler : call).

Definition press (callback_data : string) : outcome :=
  match route callback_data with
  | PageCallback data_type page =>
      match handle_page_callback data_type page with
      | Some reply => Shows reply
      | None => RaisesValueError
      end
  | handler => Calls handler
  end.

(** The string has no colon. *)
Definition colon_free (s : string) : bool :=
  Access.all_chars (fun a => negb (Ascii.eqb ":" a)) s.

End Routing.

(* ===================================================================== *)
(** ** The diff shown by the [git:diff] button *)
(* ===================================================================== *)

Module Diffs.
Import Formatter.

(** [l[:k]] on a list *)
Definition list_upto {A} (k : Z) (l : list A) : list A :=
  take (if (k <? 0)%Z then Z.to_nat (Z.of_nat (length l) + k) else Z.to_nat k) l.

(** [ResponseFormatter.format_code_block] *)
Definition format_code_block (code language : string) (max_lines : option Z)
    : string :=
  let code :=
    match max_lines with
    | Some max_lines =>
        if negb (max_lines =? 0)%Z then
          let lines := Str.split NEWLINE code in
          if (Z.of_nat (length lines) >? max_lines)%Z
          then Str.join NEWLINE (list_upto max_lines lines)
               +:+ NEWLINE +:+ "... ("
               +:+ pretty (Z.of_nat (length lines) - max_lines)%Z
               +:+ " more lines)"
          else code
        else code
    | None => code
    end in
  FENCE +:+ language +:+ NEWLINE +:+ code +:+ NEWLINE +:+ FENCE.

(** What the [git:diff] button answers: an alert, or a new text for
    the message. *)
Inductive diff_reply :=
| NoGitRepositoryFound
| NoChangesInWorkingDirectory
| GitDiff (formatted : string)
| GitCommandTimedOut
| ErrorRunningGitDiff.

Definition TRUNCATED : string := NEWLINE +:+ NEWLINE +:+ "...(truncated)".

(** The [diff] branch of [handle_git_callback], on the way
    [git diff] ends and on whether editing the message raises
    ([query.answer] is taken to return). *)
Definition show_diff (outcome : Git.process) (edit_message_text_raises : bool)
    : diff_reply :=
  match outcome with
  | Git.Exits result =>
      if negb (Git.returncode result =? 0)%Z then NoGitRepositoryFound
      else
        let diff_output := Py.strip (Git.stdout result) in
        if edit_message_text_raises then ErrorRunningGitDiff
        else if negb (Py.truthy diff_output) then NoChangesInWorkingDirectory
        else
          let diff_output :=
            if (len diff_output >? 3500)%Z
            then upto 3500 diff_output +:+ TRUNCATED else diff_output in
          GitDiff (format_code_block diff_output "diff" (Some 50%Z))
  | Git.TimesOut => GitCommandTimedOut
  | Git.Fails _ => ErrorRunningGitDiff
  end.

(** [len] of the heading the reply puts before the code block. *)
Definition GIT_DIFF_HEADING_LENGTH : Z := 16.

End Diffs.

(* ===================================================================== *)
(** ** bot.py: the [/repo] command *)
(* ===================================================================== *)

Module Repo.
Import Bot.

Definition WORKSPACE_BASE : string := "/workspace".

(** [str(WORKSPACE_BASE / repo_name)] for a name without a slash: an
    empty name and [.] add nothing to the path. *)
Definition repo_path_of (repo_name : string) : string :=
  if String.eqb repo_name "" || String.eqb repo_name "."
  then WORKSPACE_BASE
  else WORKSPACE_BASE +:+ "/" +:+ repo_name.

(** What the command meets outside: the clock, the token of the
    environment, the directories that exist, and how a git command
    ends. *)
Record repo_env := {
  authorized : bool;
  now : string;
  GITHUB_TOKEN : string;
  path_exists : string -> bool;
  run : list string -> Git.process;
}.

(** The texts sent to the chat, by the branch that sends them. *)
Inductive reply :=
| Unauthorized
| LinkedRepository (repo repo_path : value)
| NoRepositoryLinked
| UnlinkedRepository (old : value)
| InvalidFormat
| SettingUpRepository (repo_slug : string)
| FailedTo (verb repo_slug detail : string)
| RepositoryReady (repo_slug action repo_path branch : string)
| TimeoutCloning (repo_slug : string)
| Error (description : string).

(** [handle_repo] on the arguments of the command; the calls to the
    chat are taken to return. *)
Definition handle_repo (env : repo_env) (args : list string)
    (ud : gmap string value) : list reply * gmap string value :=
  if negb (authorized env) then ([Unauthorized], ud)
  else
    let ud := user_data (snd (initialize_user_data (now env) (start ud))) in
    match args with
    | [] =>
        let repo := default VNone (ud !! "github_repo") in
        let repo_path := default VNone (ud !! "repo_path") in
        if truthy repo then ([LinkedRepository repo repo_path], ud)
        else ([NoRepositoryLinked], ud)
    | arg :: _ =>
        if String.eqb (Str.lower arg) "clear" then
          let old := default (VStr "none") (ud !! "github_repo") in
          ([UnlinkedRepository old],
           <["claude_session_id" := VNone]>
             (<["repo_path" := VNone]> (<["github_repo" := VNone]> ud)))
        else
          let repo_slug := Str.strip_chars "/" arg in
          if negb (Py.contains "/" repo_slug) then ([InvalidFormat], ud)
          else
            let repo_name := default EmptyString (last (Str.split "/" repo_slug)) in
            let repo_path := repo_path_of repo_name in
            let clone_url :=
              if Py.truthy (GITHUB_TOKEN env)
              then "https://" +:+ GITHUB_TOKEN env +:+ "@github.com/"
                   +:+ repo_slug +:+ ".git"
              else "https://github.com/" +:+ repo_slug +:+ ".git" in
            let '(action, outcome) :=
              if path_exists env repo_path
              then ("updated", run env ["git"; "pull"])
              else ("cloned", run env ["git"; "clone"; clone_url; repo_path]) in
            match outcome with
            | Git.Exits result =>
                let detail :=
                  if Py.truthy (Py.strip (Git.stdout result))
                  then Py.strip (Git.stdout result)
                  else Py.strip (Git.stderr result) in
                if negb (Git.returncode result =? 0)%Z then
                  ([SettingUpRepository repo_slug;
                    FailedTo (Str.replace "d" "" action) repo_slug
                      (Formatter.upto 500 detail)], ud)
                else
                  let ud :=
                    <["claude_session_id" := VNone]>
                      (<["repo_path" := VStr repo_path]>
                         (<["github_repo" := VStr repo_slug]> ud)) in
                  match run env ["git"; "branch"; "--show-current"] with
                  | Git.Exits branch_result =>
                      let branch :=
                        if Py.truthy (Py.strip (Git.stdout branch_result))
                        then Py.strip (Git.stdout branch_result)
                        else "unknown" in
                      ([SettingUpRepository repo_slug;
                        RepositoryReady repo_slug action repo_path branch], ud)
                  | Git.TimesOut =>
                      ([SettingUpRepository repo_slug; TimeoutCloning repo_slug],
                       ud)
                  | Git.Fails description =>
                      ([SettingUpRepository repo_slug; Error description], ud)
                  end
            | Git.TimesOut =>
                ([SettingUpRepository repo_slug; TimeoutCloning repo_slug], ud)
            | Git.Fails description =>
                ([SettingUpRepository repo_slug; Error description], ud)
            end
    end.

(** *** Observations used to state the properties *)

(** The git command [/repo arg] runs first, and the directory it
    links. *)
Definition setup_of (env : repo_env) (arg : string) : list string * string :=
  let repo_slug := Str.strip_chars "/" arg in
  let repo_path :=
    repo_path_of (default EmptyString (last (Str.split "/" repo_slug))) in
  if path_exists env repo_path then (["git"; "pull"], repo_path)
  else
    (["git"; "clone";
      (if Py.truthy (GITHUB_TOKEN env)
       then "https://" +:+ GITHUB_TOKEN env +:+ "@github.com/"
            +:+ repo_slug +:+ ".git"
       else "https://github.com/" +:+ repo_slug +:+ ".git");
      repo_path], repo_path).

(** The command [/repo arg] asks for a link, and git sets it up. *)
Definition set_up (env : repo_env) (arg : string) : Prop :=
  Str.lower arg <> "clear"
  /\ Py.contains "/" (Str.strip_chars "/" arg) = true
  /\ exists result,
       run env (fst (setup_of env arg)) = Git.Exits result
       /\ Git.returncode result = 0%Z.

(** The dictionary the command starts from. *)
Definition initialised_at (env : repo_env) (ud : gmap string value)
    : gmap string value :=
  user_data (snd (initialize_user_data (now env) (start ud))).

(** Two example runs: github answers, or it cannot be reached. *)
Definition reachable : repo_env :=
  {| authorized := true; now := "2026-01-01T00:00:00"; GITHUB_TOKEN := "";
     path_exists := fun _ => false;
     run := fun _ => Git.Exits {| Git.returncode := 0; Git.stdout := "";
                                  Git.stderr := "" |} |}.

Definition unreachable : repo_env :=
  {| authorized := true; now := "2026-01-01T00:00:00"; GITHUB_TOKEN := "";
     path_exists := fun _ => false;
     run := fun _ => Git.Exits {| Git.returncode := 128; Git.stdout := "";
                                  Git.stderr := "fatal: unable to access" |} |}.

End Repo.

(* ===================================================================== *)
(** ** Properties of the executor *)
(* ===================================================================== *)

Section ExecutorFacts.
Import Executor.

(** The repository's own parser tests, replayed on the model (the
    cost apart). *)
Example test_parse_stream_json_with_tools :
  let r := _parse_stream_json
    {| returncode := 0;
       stdout := [ Json (init_event (Some "test-456") None);
                   Json (assistant_event
                           [tool_block "Read"; text_block "File content";
                            tool_block "Write"]);
                   Json (result_event None (S754_zero false) 2000 10 20) ];
       stderr := "" |} in
  success r = true /\ output r = "File content"
  /\ "Read" ∈ tools_used r /\ "Write" ∈ tools_used r
  /\ length (tools_used r) = 2 /\ session_id r = Some "test-456".
Proof. vm_compute. repeat split; set_solver. Qed.

Example test_parse_stream_json_no_output :
  let r := _parse_stream_json
    {| returncode := 0;
       stdout := [ Json (init_event (Some "test-789") None);
                   Json (assistant_event [tool_block "Bash"]) ];
       stderr := "" |} in
  success r = true /\ output r = NO_TEXT_PLACEHOLDER /\ tools_used r = ["Bash"].
Proof. vm_compute. auto. Qed.

Example test_parse_stream_json_error :
  let r := _parse_stream_json
    {| returncode := 1; stdout := [Blank]; stderr := "Error: Not logged in" |} in
  success r = false /\ output r = "" /\ error r = Some "Error: Not logged in".
Proof. vm_compute. auto. Qed.

Example test_execute_timeout :
  let r := execute {| workspace := "/workspace"; timeout := 120; max_turns := 10 |}
                   (RunTimeoutExpired []) in
  success r = false /\ output r = ""
  /\ error r = Some "Command timeout after 120 seconds".
Proof. vm_compute. auto. Qed.

(** *** The two parsing loops agree *)

Lemma read_block_core on_progress st b :
  core (read_block on_progress st b) = parse_block (core st) b.
Proof.
  unfold read_block, parse_block.
  destruct (py_eq (block_type b) "text"); [reflexivity|].
  destruct (py_eq (block_type b) "tool_use"); [|reflexivity].
  destruct on_progress; reflexivity.
Qed.

Lemma read_blocks_core on_progress bs : forall st,
  core (foldl (read_block on_progress) st bs) = foldl parse_block (core st) bs.
Proof.
  induction bs as [|b bs IH]; intros st; simpl; [reflexivity|].
  rewrite IH, read_block_core. reflexivity.
Qed.

Lemma read_line_core on_progress st l :
  core (read_line on_progress st l) = parse_line (core st) l.
Proof.
  destruct l as [| raw | e]; simpl; try reflexivity.
  unfold read_event, parse_event.
  destruct (py_eq (event_type e) "system" && py_eq (event_subtype e) "init");
    [reflexivity|].
  destruct (py_eq (event_type e) "assistant").
  { rewrite read_blocks_core. reflexivity. }
  destruct (py_eq (event_type e) "result"); [|reflexivity].
  simpl. destruct (Py.truthy_opt (st_session_id st)); reflexivity.
Qed.

Lemma read_lines_core on_progress lines : forall st,
  core (foldl (read_line on_progress) st lines) = foldl parse_line (core st) lines.
Proof.
  induction lines as [|l lines IH]; intros st; simpl; [reflexivity|].
  rewrite IH, read_line_core. reflexivity.
Qed.

Lemma full_response_core rc st : full_response rc (core st) = full_response rc st.
Proof. reflexivity. Qed.

Lemma streaming_state on_progress lines :
  core (foldl (read_line on_progress) init_state lines)
  = foldl parse_line init_state lines.
Proof. rewrite read_lines_core. reflexivity. Qed.

Lemma streaming_full_response on_progress rc lines :
  full_response rc (foldl (read_line on_progress) init_state lines)
  = full_response rc (foldl parse_line init_state lines).
Proof. rewrite <- full_response_core, streaming_state. reflexivity. Qed.

(** *** What the loop accumulates *)

Lemma block_texts_app bs1 bs2 :
  block_texts (bs1 ++ bs2) = block_texts bs1 ++ block_texts bs2.
Proof. unfold block_texts. rewrite filter_app, map_app. reflexivity. Qed.

Lemma block_tools_app bs1 bs2 :
  block_tools (bs1 ++ bs2) = block_tools bs1 ++ block_tools bs2.
Proof. unfold block_tools. rewrite filter_app, map_app. reflexivity. Qed.

Lemma stream_blocks_app l1 l2 :
  stream_blocks (l1 ++ l2) = stream_blocks l1 ++ stream_blocks l2.
Proof. apply flat_map_app. Qed.

Lemma text_not_tool b : is_text b = true -> is_tool_use b = false.
Proof.
  unfold is_text, is_tool_use, py_eq. destruct (block_type b) as [t|]; [|done].
  intros H%String.eqb_eq. subst. reflexivity.
Qed.

Lemma parse_blocks_parts bs : forall st,
  st_output_parts (foldl parse_block st bs) = st_output_parts st ++ block_texts bs.
Proof.
  induction bs as [|b bs IH]; intros st; simpl.
  { by rewrite app_nil_r. }
  rewrite IH. unfold parse_block, block_texts. rewrite filter_cons.
  fold (is_text b). destruct (is_text b) eqn:Ht.
  - rewrite decide_True by done. simpl. by rewrite <- app_assoc.
  - rewrite decide_False by (by destruct (is_text b)).
    fold (is_tool_use b). by destruct (is_tool_use b).
Qed.

Lemma parse_blocks_tools bs : forall st,
  st_tools_used (foldl parse_block st bs)
  = st_tools_used st ∪ list_to_set (block_tools bs).
Proof.
  induction bs as [|b bs IH]; intros st; simpl.
  { set_solver. }
  rewrite IH. unfold parse_block, block_tools. rewrite filter_cons.
  fold (is_text b) (is_tool_use b).
  destruct (is_text b) eqn:Ht.
  - rewrite (text_not_tool _ Ht). rewrite decide_False by done. reflexivity.
  - destruct (is_tool_use b) eqn:Hu.
    + rewrite decide_True by done. simpl. set_solver.
    + rewrite decide_False by done. reflexivity.
Qed.

Lemma parse_line_parts st l :
  st_output_parts (parse_line st l) = st_output_parts st ++ block_texts (line_blocks l).
Proof.
  destruct l as [| raw | e]; simpl; try by rewrite app_nil_r.
  unfold parse_event.
  destruct (py_eq (event_type e) "system" && py_eq (event_subtype e) "init") eqn:Hi.
  { simpl. destruct (py_eq (event_type e) "assistant") eqn:Ha.
    - exfalso. unfold py_eq in *. destruct (event_type e) as [t|]; [|done].
      apply String.eqb_eq in Ha. subst. done.
    - by rewrite app_nil_r. }
  destruct (py_eq (event_type e) "assistant").
  { by rewrite parse_blocks_parts. }
  rewrite app_nil_r.
  destruct (py_eq (event_type e) "result"); [|reflexivity].
  simpl. by destruct (Py.truthy_opt (st_session_id st)).
Qed.

Lemma parse_line_tools st l :
  st_tools_used (parse_line st l)
  = st_tools_used st ∪ list_to_set (block_tools (line_blocks l)).
Proof.
  destruct l as [| raw | e]; simpl; try set_solver.
  unfold parse_event.
  destruct (py_eq (event_type e) "system" && py_eq (event_subtype e) "init") eqn:Hi.
  { simpl. destruct (py_eq (event_type e) "assistant") eqn:Ha.
    - exfalso. unfold py_eq in *. destruct (event_type e) as [t|]; [|done].
      apply String.eqb_eq in Ha. subst. done.
    - set_solver. }
  destruct (py_eq (event_type e) "assistant").
  { by rewrite parse_blocks_tools. }
  destruct (py_eq (event_type e) "result"); [|set_solver].
  simpl. destruct (Py.truthy_opt (st_session_id st)); set_solver.
Qed.

Lemma parse_lines_parts lines : forall st,
  st_output_parts (foldl parse_line st lines)
  = st_output_parts st ++ block_texts (stream_blocks lines).
Proof.
  induction lines as [|l lines IH]; intros st; simpl.
  { by rewrite app_nil_r. }
  rewrite IH, parse_line_parts, block_texts_app. by rewrite <- app_assoc.
Qed.

Lemma parse_lines_tools lines : forall st,
  st_tools_used (foldl parse_line st lines)
  = st_tools_used st ∪ list_to_set (block_tools (stream_blocks lines)).
Proof.
  induction lines as [|l lines IH]; intros st; simpl.
  { set_solver. }
  rewrite IH, parse_line_tools, block_tools_app. set_solver.
Qed.

Lemma final_output_parsed lines :
  final_output (foldl parse_line init_state lines) = aggregated_text lines.
Proof. unfold final_output, aggregated_text. by rewrite parse_lines_parts. Qed.

Lemma tools_used_parsed lines :
  st_tools_used (foldl parse_line init_state lines)
  = list_to_set (block_tools (stream_blocks lines)).
Proof. rewrite parse_lines_tools. set_solver. Qed.

Lemma tools_nonempty_parsed lines :
  tools_nonempty (foldl parse_line init_state lines) = true <-> tool_use_seen lines.
Proof.
  unfold tools_nonempty, tool_use_seen. rewrite tools_used_parsed.
  destruct (block_tools (stream_blocks lines)) as [|x l] eqn:E.
  - simpl. rewrite bool_decide_eq_true_2 by done. simpl. split; done.
  - rewrite bool_decide_eq_false_2 by set_solver. simpl. split; done.
Qed.

Lemma truthy_nonempty s : Py.truthy s = true <-> s <> "".
Proof. destruct s; simpl; split; done. Qed.

Lemma is_success_parsed rc lines :
  is_success rc (foldl parse_line init_state lines) = true
  <-> rc = 0%Z /\ (aggregated_text lines <> "" \/ tool_use_seen lines).
Proof.
  unfold is_success. rewrite andb_true_iff, orb_true_iff, Z.eqb_eq.
  rewrite final_output_parsed, truthy_nonempty, tools_nonempty_parsed. done.
Qed.


(** *** C1 *)

(** C1. For a run whose subprocess has exited, [execute] and
    [execute_streaming] return [success = true] exactly when the exit
    code is zero and the aggregated output text is non-empty or a
    [tool_use] block was seen; a clean exit with neither is not a
    success. *)
Theorem C1_success_iff_clean_exit_and_output_or_tool
    (self : ClaudeExecutor) (on_progress : bool)
    (lines : list line) (rc : Z) (err : string) :
  let sync :=
    execute self (RunCompleted {| returncode := rc; stdout := lines; stderr := err |}) in
  let streamed :=
    fst (execute_streaming self on_progress (StreamExited lines rc err)) in
  (success sync = true
     <-> rc = 0%Z /\ (aggregated_text lines <> "" \/ tool_use_seen lines))
  /\ (success streamed = true
     <-> rc = 0%Z /\ (aggregated_text lines <> "" \/ tool_use_seen lines))
  /\ (aggregated_text lines = "" /\ ~ tool_use_seen lines ->
      success sync = false /\ success streamed = false).
Proof.
  cbv zeta. unfold execute, execute_streaming, _parse_stream_json.
  cbn [returncode stdout stderr].
  assert (Hsync :
    success (if negb (rc =? 0)%Z
             then parse_failure
                    {| returncode := rc; stdout := lines; stderr := err |}
             else full_response rc (foldl parse_line init_state lines)) = true
    <-> rc = 0%Z /\ (aggregated_text lines <> "" \/ tool_use_seen lines)).
  { destruct (rc =? 0)%Z eqn:Hrc; cbn [negb].
    - apply is_success_parsed.
    - apply Z.eqb_neq in Hrc. split; [done | tauto]. }
  assert (Hstreamed :
    success (fst (if negb (rc =? 0)%Z
                     && negb (Py.truthy
                                (shown_output
                                   (foldl (read_line on_progress) init_state lines)))
                  then (error_response ""
                          (if Py.truthy (Py.strip err)
                           then Py.strip err else "Unknown error"),
                        st_progress_log
                          (foldl (read_line on_progress) init_state lines))
                  else (full_response rc
                          (foldl (read_line on_progress) init_state lines),
                        st_progress_log
                          (foldl (read_line on_progress) init_state lines)))) = true
    <-> rc = 0%Z /\ (aggregated_text lines <> "" \/ tool_use_seen lines)).
  { destruct (negb (rc =? 0)%Z && _) eqn:Hfail; cbn [fst].
    - apply andb_true_iff in Hfail as [Hrc _].
      apply negb_true_iff, Z.eqb_neq in Hrc. split; [done | tauto].
    - rewrite streaming_full_response. apply is_success_parsed. }
  split; [exact Hsync|]. split; [exact Hstreamed|].
  intros [Hempty Hnone]. split; apply not_true_is_false.
  - intros H. apply Hsync in H. tauto.
  - intros H. apply Hstreamed in H. tauto.
Qed.

Lemma C1_success_iff_clean_exit_and_output_or_tool_witness :
  let lines := [ Json (init_event (Some "s") None);
                 Json (assistant_event [text_block "4"]) ] in
  aggregated_text lines <> ""
  /\ success (execute default_executor
                (RunCompleted {| returncode := 0; stdout := lines; stderr := "" |}))
     = true
  /\ success (execute default_executor
                (RunCompleted {| returncode := 0; stdout := [Blank]; stderr := "" |}))
     = false.
Proof.
  cbv zeta. split; [vm_compute; discriminate|]. split.
  - apply (proj1 (C1_success_iff_clean_exit_and_output_or_tool default_executor
                    true _ 0 "")).
    split; [reflexivity | left; vm_compute; discriminate].
  - apply (proj2 (proj2 (C1_success_iff_clean_exit_and_output_or_tool
                           default_executor true [Blank] 0 ""))).
    split; [reflexivity | intros H; apply H; reflexivity].
Defined.

(** *** C3 *)

(** C3, as stated, fails: after three text events and a timeout the
    non-streaming [execute] returns an empty output, not their
    concatenation. *)
Lemma C3_counterexample :
  Py.join (block_texts (stream_blocks three_text_events)) = "abc"
  /\ output (execute default_executor (RunTimeoutExpired three_text_events))
     <> Py.join (block_texts (stream_blocks three_text_events)).
Proof. vm_compute. split; [reflexivity | discriminate]. Qed.

Lemma final_output_core st : final_output (core st) = final_output st.
Proof. reflexivity. Qed.

(** C3 (amended). On timeout both variants return [success = false]
    and the timeout error; [execute] returns an empty output, while
    [execute_streaming] returns the stripped concatenation of the text
    accumulated before the cut-off. *)
Theorem C3_timeout_output
    (self : ClaudeExecutor) (on_progress : bool)
    (written lines : list line) (inflight : list block) :
  let sync := execute self (RunTimeoutExpired written) in
  let streamed :=
    fst (execute_streaming self on_progress (StreamTimedOut lines inflight)) in
  success sync = false
  /\ error sync = Some (timeout_message self)
  /\ output sync = ""
  /\ success streamed = false
  /\ error streamed = Some (timeout_message self)
  /\ output streamed
     = Py.strip (Py.join (block_texts (stream_blocks lines ++ inflight))).
Proof.
  cbv zeta. unfold execute, execute_streaming. cbn [fst].
  repeat split; try reflexivity.
  unfold error_response. cbn [output].
  rewrite <- final_output_core, read_blocks_core, read_lines_core.
  unfold final_output.
  rewrite parse_blocks_parts, parse_lines_parts, block_texts_app.
  reflexivity.
Qed.

Lemma C3_timeout_output_witness :
  output (fst (execute_streaming default_executor true
                 (StreamTimedOut three_text_events [])))
  = "abc"
  /\ output (execute default_executor (RunTimeoutExpired three_text_events)) = "".
Proof.
  destruct (C3_timeout_output default_executor true three_text_events
              three_text_events []) as (_ & _ & Hsync & _ & _ & Hstreamed).
  split; [exact Hstreamed | exact Hsync].
Defined.

(** *** C4 *)

(** C4, as stated, fails: [Bash] is seen before [Write], yet the list
    does not start with it. *)
Lemma C4_counterexample :
  let lines := [ Json (assistant_event [tool_block "Bash"; tool_block "Write"]) ] in
  first_seen (block_tools (stream_blocks lines)) = ["Bash"; "Write"]
  /\ tools_used (_parse_stream_json
                   {| returncode := 0; stdout := lines; stderr := "" |})
     <> first_seen (block_tools (stream_blocks lines)).
Proof. vm_compute. split; [reflexivity | discriminate]. Qed.

(** C4 (amended). [tools_used] lists every tool name seen among the
    [tool_use] blocks exactly once; its order is that of the set, not
    the order of first appearance. *)
Theorem C4_tools_used_lists_each_name_once
    (self : ClaudeExecutor) (on_progress : bool)
    (lines : list line) (err : string) :
  let sync :=
    _parse_stream_json {| returncode := 0; stdout := lines; stderr := err |} in
  let streamed :=
    fst (execute_streaming self on_progress (StreamExited lines 0 err)) in
  NoDup (tools_used sync)
  /\ (forall name, name ∈ tools_used sync
                   <-> name ∈ block_tools (stream_blocks lines))
  /\ tools_used streamed = tools_used sync.
Proof.
  cbv zeta. unfold execute_streaming, _parse_stream_json.
  cbn [returncode stdout stderr negb Z.eqb andb fst].
  rewrite streaming_full_response. cbn [tools_used full_response].
  rewrite tools_used_parsed. split; [apply NoDup_elements|].
  split; [|reflexivity].
  intros name. rewrite elem_of_elements, elem_of_list_to_set. reflexivity.
Qed.


Lemma C4_tools_used_lists_each_name_once_witness :
  let lines := [ Json (assistant_event
                         [tool_block "Read"; tool_block "Write"; tool_block "Read"]) ] in
  let r := _parse_stream_json {| returncode := 0; stdout := lines; stderr := "" |} in
  NoDup (tools_used r) /\ "Read" ∈ tools_used r /\ "Write" ∈ tools_used r.
Proof.
  cbv zeta.
  destruct (C4_tools_used_lists_each_name_once default_executor true
              [ Json (assistant_event
                        [tool_block "Read"; tool_block "Write"; tool_block "Read"]) ]
              "") as (Hnodup & Hin & _).
  split; [exact Hnodup|].
  split; [apply (proj2 (Hin "Read")) | apply (proj2 (Hin "Write"))];
    change (block_tools (stream_blocks _)) with ["Read"; "Write"; "Read"].
  - apply list_elem_of_here.
  - apply list_elem_of_further, list_elem_of_here.
Defined.

(** *** C5 *)








(** *** C8 *)


Lemma append_assoc (s1 s2 s3 : string) :
  (s1 +:+ s2) +:+ s3 = s1 +:+ (s2 +:+ s3).
Proof.
  induction s1 as [|c s1 IH]; [reflexivity|].
  change (String c ((s1 +:+ s2) +:+ s3) = String c (s1 +:+ (s2 +:+ s3))).
  by f_equal.
Qed.

Lemma join_app l1 l2 : Py.join (l1 ++ l2) = Py.join l1 +:+ Py.join l2.
Proof.
  induction l1 as [|x l1 IH]; [reflexivity|].
  change (x +:+ Py.join (l1 ++ l2) = (x +:+ Py.join l1) +:+ Py.join l2).
  by rewrite IH, append_assoc.
Qed.





End ExecutorFacts.

(* ===================================================================== *)
(** ** Properties of the formatter *)
(* ===================================================================== *)

Section FormatterFacts.
Import Formatter.

(** The string helpers on small inputs, against Python's own answers. *)
Example strip_example :
  Py.strip ("  a b " +:+ NEWLINE +:+ " ") = "a b".
Proof. reflexivity. Qed.

Example last_segment_example :
  Py.last_segment "/" "a/b/c.txt" = "c.txt" /\ Py.last_segment "/" "a/" = "".
Proof. split; reflexivity. Qed.

Example finditer_never_overlaps :
  Py.finditer (NEWLINE +:+ NEWLINE) (NEWLINE +:+ NEWLINE +:+ NEWLINE) = [0]
  /\ Py.finditer ". " "a. b.  c. " = [1; 4; 8].
Proof. split; reflexivity. Qed.

Example code_blocks_example :
  code_blocks "````a```b``````" = [(0, 8); (9, 15)].
Proof. reflexivity. Qed.

(** *** The splitting loop ends *)

Lemma lstrip_length s : String.length (Py.lstrip s) <= String.length s.
Proof.
  induction s as [|c s IH]; simpl; [lia|].
  destruct (Py.isspace c); simpl; lia.
Qed.

Lemma rstrip_length s : String.length (Py.rstrip s) <= String.length s.
Proof.
  induction s as [|c s IH]; simpl; [lia|].
  destruct (Py.rstrip s); [destruct (Py.isspace c)|]; simpl in *; lia.
Qed.

Lemma strip_length s : String.length (Py.strip s) <= String.length s.
Proof.
  unfold Py.strip. pose proof (rstrip_length (Py.lstrip s)).
  pose proof (lstrip_length s). lia.
Qed.

Lemma drop_length n s : String.length (Py.drop n s) = String.length s - n.
Proof.
  revert s. induction n as [|n IH]; intros [|c s]; simpl; try lia. apply IH.
Qed.

Lemma code_blocks_from_cons skip pos c s :
  code_blocks_from skip pos (String c s)
  = match skip with
    | S k => code_blocks_from k (S pos) s
    | O =>
        if Py.startswith FENCE (String c s) then
          match find_first FENCE (Py.drop 3 (String c s)) with
          | Some j =>
              (pos, pos + 3 + j + 3) :: code_blocks_from (3 + j + 2) (S pos) s
          | None => code_blocks_from 0 (S pos) s
          end
        else code_blocks_from 0 (S pos) s
    end.
Proof. reflexivity. Qed.

Lemma code_blocks_end s : forall skip pos a b,
  (a, b) ∈ code_blocks_from skip pos s -> 1 <= b.
Proof.
  induction s as [|c s IH]; intros skip pos a b.
  { by intros ?%elem_of_nil. }
  rewrite code_blocks_from_cons.
  destruct skip as [|k]; [|by apply IH].
  destruct (Py.startswith FENCE (String c s)); [|by apply IH].
  destruct (find_first FENCE _) as [j|]; [|by apply IH].
  intros [Heq | Hin]%elem_of_cons; [|by eapply IH].
  injection Heq as -> ->. lia.
Qed.

Lemma after_last_positive p width s k :
  (1 <= width)%Z -> after_last p width s = Some k -> (1 <= k)%Z.
Proof.
  unfold after_last. intros Hw. destruct (last (Py.finditer p s)); simpl; [|done].
  intros [= <-]. lia.
Qed.

Lemma find_split_point_positive self text :
  (1 <= max_length self)%Z -> (1 <= _find_split_point self text)%Z.
Proof.
  intros Hmax. unfold _find_split_point.
  set (search_text := upto (Z.min (max_length self) (len text)) text).
  assert (Hrest :
    (1 <= match after_last (NEWLINE +:+ NEWLINE) 2 search_text with
          | Some p => p
          | None =>
          match after_last NEWLINE 1 search_text with
          | Some p => p
          | None =>
          match after_last ". " 2 search_text with
          | Some p => p
          | None =>
          match after_last " " 1 search_text with
          | Some p => p
          | None => max_length self
          end end end end)%Z).
  { destruct (after_last (NEWLINE +:+ NEWLINE) 2 search_text) eqn:H1.
    { eapply after_last_positive; [|exact H1]. lia. }
    destruct (after_last NEWLINE 1 search_text) eqn:H2.
    { eapply after_last_positive; [|exact H2]. lia. }
    destruct (after_last ". " 2 search_text) eqn:H3.
    { eapply after_last_positive; [|exact H3]. lia. }
    destruct (after_last " " 1 search_text) eqn:H4.
    { eapply after_last_positive; [|exact H4]. lia. }
    exact Hmax. }
  destruct (last (code_blocks _)) as [[a b]|] eqn:Hlast; [|exact Hrest].
  apply last_Some_elem_of, code_blocks_end in Hlast. cbn [snd].
  destruct (Z.of_nat b <=? max_length self)%Z; [lia | exact Hrest].
Qed.

Lemma split_loop_total self fuel : forall messages remaining,
  (1 <= max_length self)%Z ->
  String.length remaining <= fuel ->
  is_Some (split_loop fuel self messages remaining).
Proof.
  induction fuel as [|fuel IH]; intros messages remaining Hmax Hlen; simpl.
  - destruct remaining; [|simpl in Hlen; lia].
    unfold len. cbn [String.length].
    destruct (_ >? _)%Z eqn:H; [|eauto].
    rewrite Z.gtb_ltb in H. apply Z.ltb_lt in H. lia.
  - destruct (len remaining >? max_length self)%Z eqn:Hgt; [|eauto].
    apply IH; [done|].
    pose proof (find_split_point_positive self remaining Hmax) as Hsp.
    pose proof (strip_length (from (_find_split_point self remaining) remaining)).
    unfold from, slice_index in *.
    destruct (_find_split_point self remaining <? 0)%Z eqn:Hneg; [lia|].
    rewrite drop_length in *. unfold len in Hgt.
    rewrite Z.gtb_ltb in Hgt. apply Z.ltb_lt in Hgt. lia.
Qed.

(** With a positive limit [format_response] returns: the length of the
    text is enough fuel for the loop. *)
Lemma format_response_total self text add_header header_text :
  (1 <= max_length self)%Z ->
  is_Some (format_response self text add_header header_text).
Proof.
  intros Hmax. unfold format_response.
  destruct (_ || _); [eauto|].
  destruct (len _ <=? max_length self)%Z; [eauto|].
  unfold _split_message, split_with_fuel.
  destruct (split_loop_total self (String.length (if add_header then header_text +:+ text else text))
              [] (if add_header then header_text +:+ text else text) Hmax (le_n _))
    as [[messages remaining] ->].
  destruct (Py.truthy remaining); eauto.
Qed.


(** The repository's test of code-block preservation: the text fits
    the limit of 200 and is returned as one unit. *)
Example test_split_preserves_code_blocks :
  format_response {| max_length := 200 |}
    ("Text before" +:+ NEWLINE +:+ "```python" +:+ NEWLINE
     +:+ repeat_char 50 "x" +:+ NEWLINE +:+ "```" +:+ NEWLINE +:+ "Text after")
    false ""
  = Some [ message
             ("Text before" +:+ NEWLINE +:+ "```python" +:+ NEWLINE
              +:+ repeat_char 50 "x" +:+ NEWLINE +:+ "```" +:+ NEWLINE
              +:+ "Text after") ].
Proof. vm_compute. reflexivity. Qed.

(** C7. The code at a failing input: [straddling_text] holds a single
    fenced block, shorter than the limit, and [format_response] cuts
    it at its blank line, leaving one fence in each of the two
    units. *)
Example C7_fenced_block_is_cut_in_two :
  code_blocks straddling_text = [(3801, 4031)]
  /\ Py.count FENCE straddling_text = 2
  /\ (len fenced_example < max_length default_formatter)%Z
  /\ _find_split_point default_formatter straddling_text = 3827%Z
  /\ exists first second,
       format_response default_formatter straddling_text false ""
         = Some [first; second]
       /\ Py.count FENCE (text first) = 1
       /\ Py.count FENCE (text second) = 1.
Proof.
  split; [vm_compute; reflexivity|].
  split; [vm_compute; reflexivity|].
  split; [vm_compute; reflexivity|].
  split; [vm_compute; reflexivity|].
  eexists _, _. split; [vm_compute; reflexivity|].
  split; vm_compute; reflexivity.
Qed.

End FormatterFacts.

(* ===================================================================== *)
(** ** Properties of the session helpers and of the approval workflow *)
(* ===================================================================== *)

Section WorkflowFacts.
Import Bot Callbacks.

Ltac run :=
  repeat (progress
    (unfold skip, mbind, handler_bind, mret, handler_ret, get, put, emit,
       raise, start;
     cbn [user_data effects fst snd])).

Lemma world_eta w : {| user_data := user_data w; effects := effects w |} = w.
Proof. by destruct w. Qed.

Lemma edit_message_text_run env t w :
  edit_message_text env t w
  = (if edit_message_text_raises env then Raised "TelegramError" else Returned tt,
     {| user_data := user_data w; effects := effects w ++ [Say t] |}).
Proof. unfold edit_message_text. run. by destruct (edit_message_text_raises env). Qed.

Lemma last_20_short {A} (l : list A) : length l <= 20 -> last_20 l = l.
Proof. intros H. unfold last_20. by replace (length l - 20) with 0 by lia. Qed.

Lemma last_20_length {A} (l : list A) : length (last_20 l) <= 20.
Proof. unfold last_20. rewrite length_drop. lia. Qed.

Lemma last_20_snoc {A} (l : list A) x :
  last_20 (last_20 l ++ [x]) = last_20 (l ++ [x]).
Proof.
  destruct (decide (length l <= 20)) as [Hl|Hl].
  { by rewrite (last_20_short l). }
  unfold last_20. rewrite !length_app, !length_drop. cbn [length].
  rewrite !drop_app_le by (rewrite ?length_drop; lia).
  rewrite drop_drop. f_equal. f_equal. lia.
Qed.

(** What [record_decision] leaves in the store. *)
Lemma record_decision_run entry w :
  record_decision entry w
  = match user_data w !! "approval_history" with
    | None | Some (VHistory _) =>
        (Returned tt,
         {| user_data :=
              <["approval_history" :=
                  VHistory (last_20 (approval_history (user_data w) ++ [entry]))]>
                (user_data w);
            effects := effects w |})
    | Some _ => (Raised "AttributeError", w)
    end.
Proof.
  unfold record_decision, approval_history. run.
  destruct (user_data w !! "approval_history") as [v|] eqn:Hh.
  - rewrite Hh. destruct v as [| | | | |entries]; try reflexivity.
    destruct (20 <? length (entries ++ [entry]))%nat eqn:Hlen; run.
    + by rewrite insert_insert_eq.
    + apply Nat.ltb_ge in Hlen. by rewrite last_20_short.
  - run. rewrite lookup_insert_eq. cbn [app length Nat.ltb Nat.leb]. run.
    by rewrite !insert_insert_eq.
Qed.

Lemma commit_approved_run env c w :
  exists effs,
    commit_approved env c w
    = (if edit_message_text_raises env then Raised "TelegramError" else Returned tt,
       {| user_data := user_data w; effects := effects w ++ effs |}).
Proof.
  unfold commit_approved.
  destruct (is_git_repo env); [|rewrite edit_message_text_run; eauto].
  destruct (get_status env) as [status|]; [|rewrite edit_message_text_run; eauto].
  destruct (negb (is_clean status)); [|rewrite edit_message_text_run; eauto].
  run. destruct (add_files env) as [[] msg].
  - destruct (commit env) as [[] result];
      rewrite edit_message_text_run; cbn [user_data effects];
      rewrite <- !app_assoc; eauto.
  - rewrite edit_message_text_run; cbn [user_data effects];
      rewrite <- !app_assoc; eauto.
Qed.

Lemma report_rejected_run env w :
  exists effs,
    report_rejected env w
    = (if edit_message_text_raises env then Raised "TelegramError" else Returned tt,
       {| user_data := user_data w; effects := effects w ++ effs |}).
Proof.
  unfold report_rejected.
  destruct (is_git_repo env); [|rewrite edit_message_text_run; eauto].
  destruct (get_status env) as [status|]; [|rewrite edit_message_text_run; eauto].
  destruct (negb (is_clean status)); rewrite edit_message_text_run; eauto.
Qed.


Lemma history_ok_insert ud entries :
  history_ok (<["approval_history" := VHistory entries]> ud)
  /\ approval_history (<["approval_history" := VHistory entries]> ud) = entries.
Proof. unfold history_ok, approval_history. by rewrite lookup_insert_eq. Qed.

Lemma history_insert_other ud key v :
  key <> "approval_history" ->
  (history_ok (<[key := v]> ud) <-> history_ok ud)
  /\ approval_history (<[key := v]> ud) = approval_history ud.
Proof.
  intros Hk. unfold history_ok, approval_history.
  by rewrite lookup_insert_ne.
Qed.

(** The store after a first approve or reject. *)
Lemma decision_run ud c env action :
  holds_pending ud c -> is_decision action ->
  after env action ud = decision_store env action c ud.
Proof.
  intros [Hp Hs] Hact.
  unfold after, decision_store, handle_callback_query, try_except,
    handle_action_callback, mark.
  destruct Hact as [-> | ->]; cbn [String.eqb Ascii.eqb Bool.eqb];
    unfold approve, reject; run; rewrite Hp; cbn [is_pending truthy negb];
    run; rewrite Hs; cbn [String.eqb Ascii.eqb Bool.eqb CHANGE_STATE_PENDING];
    rewrite record_decision_run; cbn [user_data effects];
    rewrite lookup_insert_ne by done;
    (destruct (ud !! "approval_history") as [h|] eqn:Hh;
     [destruct h as [| | | | |entries]|]);
    try (by rewrite edit_message_text_run).
  all: try match goal with
           | |- context [commit_approved ?e ?c' ?w] =>
               destruct (commit_approved_run e c' w) as [effs ->]
           end.
  all: try match goal with
           | |- context [report_rejected ?e ?w] =>
               destruct (report_rejected_run e w) as [effs ->]
           end.
  all: unfold approval_history, entry_for;
    rewrite lookup_insert_ne by done; rewrite Hh;
    cbn [String.eqb Ascii.eqb Bool.eqb];
    destruct (edit_message_text_raises env);
    rewrite ?edit_message_text_run; reflexivity.
Qed.

Lemma mark_not_pending env action c :
  is_decision action -> state (mark env action c) <> CHANGE_STATE_PENDING.
Proof. by intros [-> | ->]. Qed.

Lemma decision_store_decided env action c ud :
  is_decision action -> decided (decision_store env action c ud).
Proof.
  intros Hact. pose proof (mark_not_pending env action c Hact) as Hm.
  unfold decision_store, decided.
  destruct (ud !! "approval_history") as [[]|];
    try (right; eexists; split; [apply lookup_insert_eq | exact Hm]).
  all: destruct (edit_message_text_raises env);
    [ right; eexists; split;
      [by rewrite lookup_insert_ne, lookup_insert_eq | exact Hm]
    | left; apply lookup_insert_eq ].
Qed.

Lemma decision_store_other env action c ud key :
  key <> "pending_change" -> key <> "approval_history" ->
  decision_store env action c ud !! key = ud !! key.
Proof.
  intros H1 H2. unfold decision_store.
  destruct (ud !! "approval_history") as [[]|];
    try destruct (edit_message_text_raises env);
    by rewrite ?lookup_insert_ne by done.
Qed.

Lemma decision_store_history env action c ud :
  history_ok ud ->
  history_ok (decision_store env action c ud)
  /\ approval_history (decision_store env action c ud)
     = last_20 (approval_history ud ++ [entry_for env action c]).
Proof.
  intros Hok. remember (approval_history ud) as old.
  unfold history_ok in Hok. unfold decision_store. rewrite <- Heqold.
  destruct (ud !! "approval_history") as [[]|]; try done.
  all: destruct (edit_message_text_raises env);
    unfold history_ok, approval_history;
    rewrite ?lookup_insert_ne by done; by rewrite lookup_insert_eq.
Qed.

Lemma decision_store_bad_history env action c ud :
  ~ history_ok ud ->
  approval_history (decision_store env action c ud) = approval_history ud.
Proof.
  unfold history_ok, decision_store, approval_history.
  destruct (ud !! "approval_history") as [[]|] eqn:Hh; try done.
  all: intros _; by rewrite lookup_insert_ne, Hh.
Qed.

(** Without a change in the [Pending] state, approve and reject only
    report that nothing is pending. *)
Lemma decided_is_no_op ud env action :
  decided ud -> is_decision action ->
  snd (handle_callback_query env (ActionData action) (start ud))
  = {| user_data := ud;
       effects :=
         Say NoPendingChanges ::
           (if edit_message_text_raises env
            then [Say ErrorProcessingRequest] else []) |}.
Proof.
  intros Hd Hact. unfold handle_callback_query, try_except, handle_action_callback.
  destruct Hact as [-> | ->]; cbn [String.eqb Ascii.eqb Bool.eqb];
    unfold approve, reject; run.
  all: destruct Hd as [-> | (c & -> & Hc)]; cbn [is_pending truthy negb]; run.
  all: try (apply String.eqb_neq in Hc; rewrite Hc).
  all: rewrite !edit_message_text_run; cbn [user_data effects app].
  all: destruct (edit_message_text_raises env);
    rewrite ?edit_message_text_run; reflexivity.
Qed.

(** Approve and reject change nothing in the store of a user who holds
    no pending change, whatever is kept under ['pending_change']. *)
Lemma not_pending_unchanged env action ud :
  is_decision action ->
  (forall c, ~ holds_pending ud c) ->
  user_data (snd (handle_callback_query env (ActionData action) (start ud))) = ud.
Proof.
  intros Hact Hno.
  unfold handle_callback_query, try_except, handle_action_callback.
  destruct Hact as [-> | ->]; cbn [String.eqb Ascii.eqb Bool.eqb];
    unfold approve, reject; run.
  all: destruct (ud !! "pending_change") as [v|] eqn:Hp; cbn [is_pending]; run.
  all: try destruct v as [|n|s|a b m|c|entries]; cbn [truthy negb]; run.
  all: try destruct (n =? 0)%Z; try destruct (Py.truthy s);
    try destruct entries; cbn [negb]; run.
  all: try (destruct (state c =? CHANGE_STATE_PENDING) eqn:Hs;
            [apply String.eqb_eq in Hs; by destruct (Hno c)|]).
  all: rewrite ?edit_message_text_run; cbn [user_data];
    destruct (edit_message_text_raises env);
    rewrite ?edit_message_text_run; reflexivity.
Qed.

(** The other actions do not write to the store. *)
Lemma other_action_unchanged env action ud :
  ~ is_decision action ->
  user_data (snd (handle_callback_query env (ActionData action) (start ud))) = ud.
Proof.
  intros Hact.
  unfold handle_callback_query, try_except, handle_action_callback.
  destruct (action =? "approve") eqn:Ha.
  { apply String.eqb_eq in Ha. destruct Hact. by left. }
  destruct (action =? "reject") eqn:Hr.
  { apply String.eqb_eq in Hr. destruct Hact. by right. }
  destruct (action =? "retry"); [unfold retry; run|].
  { destruct (truthy (default VNone (ud !! "last_transcription")));
      [destruct (truthy (default VNone (ud !! "last_transcription")))
      |destruct (truthy (default VNone (ud !! "last_prompt")))].
    all: try destruct (default VNone _); run.
    all: rewrite ?edit_message_text_run; cbn [user_data];
      destruct (edit_message_text_raises env);
      rewrite ?edit_message_text_run; reflexivity. }
  destruct (action =? "dismiss"); [reflexivity|].
  destruct (action =? "back"); [reflexivity|].
  rewrite edit_message_text_run.
  destruct (edit_message_text_raises env);
    rewrite ?edit_message_text_run; reflexivity.
Qed.

(** A button press leaves the history as it is or adds one entry to
    it. *)
Lemma press_history env data ud :
  approval_history (do_step ud (Press env data)) = approval_history ud
  \/ exists entry,
       approval_history (do_step ud (Press env data))
       = last_20 (approval_history ud ++ [entry]).
Proof.
  cbn [do_step]. destruct data as [action | action | action].
  - destruct (decide (is_decision action)) as [Hact | Hact];
      [|left; by rewrite other_action_unchanged].
    destruct (ud !! "pending_change") as [[| | | |c|]|] eqn:Hp.
    5: destruct (decide (state c = CHANGE_STATE_PENDING)) as [Hs | Hs].
    5: { fold (after env action ud).
         rewrite (decision_run ud c env action (conj Hp Hs) Hact).
         assert (history_ok ud \/ ~ history_ok ud) as [Hok | Hok].
         { unfold history_ok. destruct (ud !! "approval_history") as [[]|]; tauto. }
         - right. eexists. by apply decision_store_history.
         - left. by apply decision_store_bad_history. }
    all: left; rewrite not_pending_unchanged; [done | done |].
    all: intros c' [Hc' Hs']; congruence.
  - left. unfold handle_callback_query, try_except, handle_clear_callback.
    destruct (action =? "confirm"); [|destruct (action =? "cancel")]; run.
    all: rewrite ?edit_message_text_run; cbn [user_data];
      destruct (edit_message_text_raises env);
      rewrite ?edit_message_text_run; cbn [user_data snd]; try reflexivity.
    all: unfold approval_history; by rewrite !lookup_insert_ne.
  - left. unfold handle_callback_query, try_except, handle_confirm_callback.
    destruct (action =? "newsession"); [|destruct (action =? "cleansessions")]; run.
    all: rewrite ?edit_message_text_run; cbn [user_data];
      destruct (edit_message_text_raises env);
      rewrite ?edit_message_text_run; cbn [user_data snd]; try reflexivity.
    all: unfold approval_history; by rewrite !lookup_insert_ne.
Qed.

Lemma step_history_bound ud s :
  length (approval_history ud) <= 20 ->
  length (approval_history (do_step ud s)) <= 20.
Proof.
  intros Hlen. destruct s as [c | env data].
  - cbn [do_step]. unfold approval_history in *. by rewrite lookup_insert_ne.
  - destruct (press_history env data ud) as [-> | [entry ->]];
      [done | apply last_20_length].
Qed.

Lemma run_steps_history_bound steps : forall ud,
  length (approval_history ud) <= 20 ->
  length (approval_history (run_steps ud steps)) <= 20.
Proof.
  induction steps as [|s steps IH]; intros ud Hlen; [done|].
  cbn [run_steps foldl]. apply IH. by apply step_history_bound.
Qed.

(** *** C2 *)

(** C2. Once approve or reject has processed a pending change, a
    second approve or reject reports that nothing is pending, performs
    no git operation, adds no history entry and leaves the stored
    state as it is. *)
Theorem C2_second_decision_is_reported_no_op
    (ud : gmap string value) (c : change)
    (first second : string) (env1 env2 : callback_env) :
  holds_pending ud c ->
  is_decision first ->
  is_decision second ->
  let w1 := snd (handle_callback_query env1 (ActionData first) (start ud)) in
  let w2 := snd (handle_callback_query env2 (ActionData second)
                   (start (user_data w1))) in
  head (effects w2) = Some (Say NoPendingChanges)
  /\ existsb is_git_write (effects w2) = false
  /\ approval_history (user_data w2) = approval_history (user_data w1)
  /\ user_data w2 = user_data w1.
Proof.
  intros Hp H1 H2. cbv zeta.
  pose proof (decision_store_decided env1 first c ud H1) as Hd.
  rewrite <- (decision_run ud c env1 first Hp H1) in Hd.
  unfold after in Hd. rewrite (decided_is_no_op _ env2 second Hd H2).
  cbn [user_data effects head]. repeat split.
  by destruct (edit_message_text_raises env2).
Qed.


Lemma C2_second_decision_is_reported_no_op_witness :
  let ud : gmap string value := {[ "pending_change" := VChange some_change ]} in
  holds_pending ud some_change
  /\ is_decision "approve"
  /\ is_decision "reject"
  /\ let w1 := snd (handle_callback_query dirty_repo (ActionData "approve")
                     (start ud)) in
     let w2 := snd (handle_callback_query dirty_repo (ActionData "reject")
                     (start (user_data w1))) in
     head (effects w2) = Some (Say NoPendingChanges)
     /\ user_data w2 = user_data w1.
Proof.
  assert (Hp : holds_pending ({[ "pending_change" := VChange some_change ]})
                 some_change).
  { split; [apply lookup_singleton_eq | reflexivity]. }
  split; [exact Hp|]. split; [by left|]. split; [by right|].
  destruct (C2_second_decision_is_reported_no_op _ some_change "approve" "reject"
              dirty_repo dirty_repo Hp (or_introl eq_refl) (or_intror eq_refl))
    as (Hsaid & _ & _ & Hsame).
  split; [exact Hsaid | exact Hsame].
Defined.

(** *** C9 *)

Lemma last_20_app {A} (l l' : list A) :
  last_20 (last_20 l ++ l') = last_20 (l ++ l').
Proof.
  destruct (decide (length l <= 20)) as [Hl|Hl].
  { by rewrite (last_20_short l). }
  unfold last_20. rewrite !length_app, !length_drop.
  rewrite <- (drop_app_le l l' (length l - 20)) by lia.
  rewrite drop_drop. f_equal. lia.
Qed.

Lemma last_drop {A} (l : list A) k : k < length l -> last (drop k l) = last l.
Proof.
  intros Hk. rewrite !last_lookup, lookup_drop, length_drop. f_equal. lia.
Qed.

Lemma last_last_20 {A} (l : list A) : last (last_20 l) = last l.
Proof.
  destruct l as [|x l]; [done|]. unfold last_20. apply last_drop.
  simpl. lia.
Qed.

Lemma play_history ud r :
  well_formed_round r -> history_ok ud ->
  history_ok (play ud r)
  /\ approval_history (play ud r) = last_20 (approval_history ud ++ [entry_of r]).
Proof.
  intros [Hs Hd] Hok.
  destruct (history_insert_other ud "pending_change" (VChange (proposal r)))
    as [Hok' Hh]; [done|].
  change (play ud r)
    with (after (meets r) (decision r)
            (<["pending_change" := VChange (proposal r)]> ud)).
  rewrite (decision_run _ (proposal r));
    [| split; [apply lookup_insert_eq | exact Hs] | exact Hd].
  destruct (decision_store_history (meets r) (decision r) (proposal r)
              (<["pending_change" := VChange (proposal r)]> ud))
    as [H1 H2]; [by apply Hok'|].
  split; [exact H1|]. by rewrite H2, Hh.
Qed.

Lemma play_all_history rounds : forall ud,
  Forall well_formed_round rounds -> history_ok ud ->
  length (approval_history ud) <= 20 ->
  history_ok (play_all ud rounds)
  /\ approval_history (play_all ud rounds)
     = last_20 (approval_history ud ++ map entry_of rounds).
Proof.
  induction rounds as [|r rounds IH]; intros ud Hwf Hok Hlen.
  { simpl. rewrite app_nil_r, last_20_short by done. done. }
  apply Forall_cons in Hwf as [Hr Hwf].
  destruct (play_history ud r Hr Hok) as [Hok1 Hh1].
  destruct (IH (play ud r) Hwf Hok1) as [Hok2 Hh2].
  { rewrite Hh1. apply last_20_length. }
  cbn [play_all foldl]. fold (play_all (play ud r) rounds).
  split; [exact Hok2|].
  rewrite Hh2, Hh1, last_20_app, <- app_assoc. reflexivity.
Qed.

(** C9. Whatever the user's runs propose and whatever buttons the
    user presses, [approval_history] never holds more than 20 entries.
    Along a sequence of decisions it is the last twenty of the entries
    recorded so far, oldest first: its last entry is that of the most
    recent decision, and after 25 decisions it holds exactly 20. *)
Theorem C9_history_keeps_the_last_20
    (ud : gmap string value) (steps : list step) (rounds : list round) :
  history_ok ud ->
  length (approval_history ud) <= 20 ->
  Forall well_formed_round rounds ->
  let history := approval_history (play_all ud rounds) in
  length (approval_history (run_steps ud steps)) <= 20
  /\ history = last_20 (approval_history ud ++ map entry_of rounds)
  /\ length history <= 20
  /\ (forall r, last rounds = Some r -> last history = Some (entry_of r))
  /\ (length rounds = 25 -> length history = 20).
Proof.
  intros Hok Hlen Hwf. cbv zeta.
  split; [by apply run_steps_history_bound|].
  destruct (play_all_history rounds ud Hwf Hok Hlen) as [_ ->].
  split; [reflexivity|]. split; [apply last_20_length|]. split.
  - intros r Hr. rewrite last_last_20.
    destruct rounds as [|r0 rounds] using rev_ind; [done|].
    rewrite last_snoc in Hr. injection Hr as ->.
    rewrite map_app, app_assoc. cbn [map]. by rewrite last_snoc.
  - intros H25. unfold last_20.
    rewrite length_drop, length_app, length_map. lia.
Qed.

Lemma C9_history_keeps_the_last_20_witness :
  let history := approval_history (play_all ∅ twenty_five_rounds) in
  history_ok ∅
  /\ length (approval_history ∅) <= 20
  /\ Forall well_formed_round twenty_five_rounds
  /\ length history = 20
  /\ last history
     = Some {| change_id := "change_1_1700000000";
               entry_state := CHANGE_STATE_REJECTED;
               entry_timestamp := "2026-01-01T00:00:01";
               entry_prompt := "add tests" |}.
Proof.
  assert (Hwf : Forall well_formed_round twenty_five_rounds).
  { apply Forall_app. split.
    - apply Forall_replicate. split; [reflexivity | by left].
    - apply Forall_singleton. split; [reflexivity | by right]. }
  assert (Hok : history_ok ∅) by (vm_compute; exact I).
  assert (Hlen : length (approval_history ∅) <= 20) by (vm_compute; lia).
  destruct (C9_history_keeps_the_last_20 ∅ [] twenty_five_rounds Hok Hlen Hwf)
    as (_ & _ & _ & Hlast & H25).
  split; [exact Hok|]. split; [exact Hlen|]. split; [exact Hwf|].
  split; [exact (H25 eq_refl) | exact (Hlast _ eq_refl)].
Defined.

(** *** C10 *)

Lemma is_pending_world v w : snd (is_pending v w) = w.
Proof.
  unfold is_pending. destruct v as [v|]; [|done].
  destruct (negb (truthy v)); [done|]. destruct v; done.
Qed.

Lemma cleared_lookup ud :
  cleared ud !! "claude_session_id" = Some VNone
  /\ cleared ud !! "turn_count" = Some (VInt 0)
  /\ cleared ud !! "pending_change" = Some VNone
  /\ (forall key, key ∉ ["claude_session_id"; "turn_count"; "pending_change"] ->
                  cleared ud !! key = ud !! key).
Proof.
  unfold cleared. repeat split.
  - by rewrite 2!lookup_insert_ne, lookup_insert_eq.
  - by rewrite lookup_insert_ne, lookup_insert_eq.
  - by rewrite lookup_insert_eq.
  - intros key Hkey. rewrite 3!lookup_insert_ne; [done| |  |]; set_solver.
Qed.

(** C10. Clearing the session, by [/clear] taken without a pending
    change or by the clear-confirm button (pressed on any store, with
    or without a pending change), sets the session id to [None], the
    turn counter to 0 and the pending change to [None], and leaves
    every other key as it was. *)
Theorem C10_clear_resets_three_keys_only
    (ud : gmap string value) (env : callback_env) :
  let by_command := user_data (snd (handle_clear true (start ud))) in
  let by_button :=
    user_data (snd (handle_callback_query env (ClearData "confirm") (start ud))) in
  (no_pending_change ud -> by_command = cleared ud)
  /\ by_button = cleared ud
  /\ cleared ud !! "claude_session_id" = Some VNone
  /\ cleared ud !! "turn_count" = Some (VInt 0)
  /\ cleared ud !! "pending_change" = Some VNone
  /\ (forall key, key ∉ ["claude_session_id"; "turn_count"; "pending_change"] ->
                  cleared ud !! key = ud !! key)
  /\ cleared ud !! "approval_history" = ud !! "approval_history"
  /\ cleared ud !! "github_repo" = ud !! "github_repo"
  /\ cleared ud !! "repo_path" = ud !! "repo_path".
Proof.
  cbv zeta.
  destruct (cleared_lookup ud) as (H1 & H2 & H3 & Hframe).
  split; [|split].
  - intros Hno. unfold handle_clear. cbn [negb]. run.
    pose proof (is_pending_world (ud !! "pending_change") (start ud)) as Hw.
    unfold no_pending_change in Hno. unfold start in Hno, Hw.
    destruct (is_pending (ud !! "pending_change") _) as [o w'].
    cbn [fst snd] in Hno, Hw. subst o w'. run. reflexivity.
  - unfold handle_callback_query, try_except, handle_clear_callback.
    cbn [String.eqb Ascii.eqb Bool.eqb]. run.
    rewrite edit_message_text_run. cbn [user_data].
    destruct (edit_message_text_raises env);
      rewrite ?edit_message_text_run; reflexivity.
  - repeat split; try done; apply Hframe; set_solver.
Qed.

Lemma C10_clear_resets_three_keys_only_witness :
  let ud : gmap string value :=
    {[ "claude_session_id" := VStr "s-1"; "turn_count" := VInt 7;
       "github_repo" := VStr "owner/repo" ]} in
  let asked : gmap string value :=
    <["pending_change" := VChange some_change]> ud in
  no_pending_change ud
  /\ user_data (snd (handle_clear true (start ud))) !! "github_repo"
     = Some (VStr "owner/repo")
  /\ holds_pending asked some_change
  /\ user_data (snd (handle_clear true (start asked))) = asked
  /\ user_data (snd (handle_callback_query clean_repo (ClearData "confirm")
                       (start asked))) !! "pending_change" = Some VNone
  /\ user_data (snd (handle_callback_query clean_repo (ClearData "confirm")
                       (start asked))) !! "github_repo"
     = Some (VStr "owner/repo").
Proof.
  cbv zeta.
  assert (Hno : no_pending_change
            ({[ "claude_session_id" := VStr "s-1"; "turn_count" := VInt 7;
                "github_repo" := VStr "owner/repo" ]})) by (vm_compute; reflexivity).
  split; [exact Hno|].
  destruct (C10_clear_resets_three_keys_only
              ({[ "claude_session_id" := VStr "s-1"; "turn_count" := VInt 7;
                  "github_repo" := VStr "owner/repo" ]}) clean_repo)
    as (Hcommand & _ & _ & _ & _ & _ & _ & Hrepo & _).
  split; [rewrite (Hcommand Hno), Hrepo; vm_compute; reflexivity|].
  split; [split; [apply lookup_insert_eq | reflexivity]|].
  split; [vm_compute; reflexivity|].
  destruct (C10_clear_resets_three_keys_only
              (<["pending_change" := VChange some_change]>
                 ({[ "claude_session_id" := VStr "s-1"; "turn_count" := VInt 7;
                     "github_repo" := VStr "owner/repo" ]})) clean_repo)
    as (_ & -> & _ & _ & Hpending & _ & _ & -> & _).
  split; [exact Hpending | vm_compute; reflexivity].
Defined.


(** *** C6 *)

(** C6, as stated, fails: a run that exits with code 1 after some
    text, or one that exits cleanly without text or tool use, is not a
    success, and its session id is stored all the same. *)
Lemma C6_counterexample :
  Executor.success (response_in crashed_env) = false
  /\ Executor.session_id (response_in crashed_env) = Some "abc"
  /\ user_data (snd (handle_text crashed_env "hello" (start ∅)))
       !! "claude_session_id" = Some (VStr "abc")
  /\ Executor.success (response_in silent_env) = false
  /\ user_data (snd (handle_text silent_env "hello" (start ∅)))
       !! "claude_session_id" = Some (VStr "abc").
Proof. vm_compute. repeat split. Qed.

Lemma initialised_session ud :
  initialised ud !! "claude_session_id" = Some (stored_session_id ud).
Proof.
  unfold initialised, stored_session_id.
  destruct (ud !! "claude_session_id") as [v|] eqn:Hs; [by rewrite Hs|].
  by apply lookup_union_Some_l.
Qed.

Lemma get_or_create_session_id_run now w :
  get_or_create_session_id now w
  = (Returned (stored_session_id (user_data w)),
     {| user_data := <["last_active" := VStr now]> (initialised (user_data w));
        effects := effects w |}).
Proof.
  unfold get_or_create_session_id, initialize_user_data. run.
  fold (initialised (user_data w)).
  rewrite lookup_insert_ne by done. by rewrite initialised_session.
Qed.

Lemma increment_turn_count_run now w n :
  user_data w !! "claude_session_id" <> None ->
  default (VInt 0) (user_data w !! "turn_count") = VInt n ->
  increment_turn_count now w
  = (Returned (VInt (n + 1)),
     {| user_data :=
          <["turn_count" := VInt (n + 1)]>
            (<["last_active" := VStr now]> (user_data w));
        effects := effects w |}).
Proof.
  intros Hs Ht. unfold increment_turn_count, initialize_user_data. run.
  destruct (user_data w !! "claude_session_id"); [|done].
  rewrite lookup_insert_ne by done. rewrite Ht. run. reflexivity.
Qed.

Lemma increment_turn_count_new now w :
  user_data w !! "claude_session_id" = None ->
  increment_turn_count now w
  = (Returned (VInt 1),
     {| user_data :=
          <["turn_count" := VInt 1]>
            (<["last_active" := VStr now]> (USER_DATA_SCHEMA ∪ user_data w));
        effects := effects w |}).
Proof.
  intros Hs. unfold increment_turn_count, initialize_user_data. run.
  rewrite Hs. rewrite lookup_insert_ne by done.
  rewrite (lookup_union_Some_l USER_DATA_SCHEMA _ "turn_count" (VInt 0))
    by reflexivity.
  run. reflexivity.
Qed.


Lemma stored_session_kind ud :
  session_keys_ok ud ->
  stored_session_id ud = VNone \/ exists s, stored_session_id ud = VStr s.
Proof.
  unfold session_keys_ok, stored_session_id.
  destruct (ud !! "claude_session_id") as [[]|]; simpl; eauto; done.
Qed.

Lemma initialised_turn_count ud :
  session_keys_ok ud ->
  exists n, default (VInt 0) (initialised ud !! "turn_count") = VInt n.
Proof.
  unfold session_keys_ok, initialised.
  destruct (ud !! "claude_session_id") as [v|] eqn:Hs.
  - destruct v; try done.
    all: destruct (ud !! "turn_count") as [[]|]; simpl; eauto; done.
  - intros _. exists 0%Z.
    by rewrite (lookup_union_Some_l USER_DATA_SCHEMA _ "turn_count" (VInt 0)).
Qed.

Lemma session_keys_ok_insert ud key v :
  key <> "claude_session_id" -> key <> "turn_count" ->
  session_keys_ok ud -> session_keys_ok (<[key := v]> ud).
Proof.
  intros H1 H2. unfold session_keys_ok. by rewrite !lookup_insert_ne.
Qed.

(** The session id in the store after a text message. *)
Lemma handle_text_session env text ud :
  authorized env = true ->
  session_keys_ok ud ->
  user_data (snd (handle_text env text (start ud))) !! "claude_session_id"
  = Some (if negb (spawn_raises env)
             && Py.truthy_opt (Executor.session_id (response_in env))
          then VStr (default "" (Executor.session_id (response_in env)))
          else stored_session_id ud).
Proof.
  intros Hauth Hok. unfold handle_text. rewrite Hauth. cbn [negb]. run.
  rewrite get_or_create_session_id_run. cbn [user_data effects].
  set (ud0 := <["last_prompt" := VStr text]> ud).
  assert (Hok0 : session_keys_ok ud0) by (by apply session_keys_ok_insert).
  assert (Hsid : stored_session_id ud0 = stored_session_id ud).
  { unfold stored_session_id, ud0. by rewrite lookup_insert_ne. }
  destruct (initialised_turn_count ud0 Hok0) as [n Hn].
  rewrite (increment_turn_count_run _ _ n); cbn [user_data effects].
  2: { rewrite lookup_insert_ne by done. by rewrite initialised_session. }
  2: { by rewrite lookup_insert_ne. }
  unfold try_except. run.
  unfold execute_streaming. fold (response_in env). rewrite Hsid.
  assert (Hkind : truthy (stored_session_id ud)
                  && negb match stored_session_id ud with
                          | VStr _ => true | _ => false end = false).
  { destruct (stored_session_kind ud Hok) as [-> | [s ->]]; [done|].
    simpl. apply andb_false_r. }
  rewrite Hkind. destruct (spawn_raises env); run; cbn [negb andb].
  2: destruct (Py.truthy_opt (Executor.session_id (response_in env))); run;
    destruct (Executor.success (response_in env)); run.
  all: rewrite ?lookup_insert_eq; run;
    repeat (rewrite lookup_insert_ne by done);
    rewrite ?lookup_insert_eq; try reflexivity.
  all: by rewrite initialised_session, Hsid.
Qed.


(** C6 (amended). Resolving a turn never invents a session id:
    [get_or_create_session_id] returns the stored id ([None] when
    there is none) and leaves it in place, and [increment_turn_count]
    adds one to the stored counter (a new user gets 1).  Once the
    subprocess has run, the id carried by the executor's result is
    stored whenever it is non-empty, whether or not the run succeeded;
    otherwise the stored id stays. *)
Theorem C6_session_id_is_stored_whenever_present
    (ud : gmap string value) (env : text_env) (text now : string) :
  authorized env = true ->
  session_keys_ok ud ->
  fst (get_or_create_session_id now (start ud)) = Returned (stored_session_id ud)
  /\ user_data (snd (get_or_create_session_id now (start ud)))
       !! "claude_session_id" = Some (stored_session_id ud)
  /\ (ud !! "claude_session_id" <> None ->
      fst (increment_turn_count now (start ud))
        = Returned (VInt (turn_count_of ud + 1))
      /\ user_data (snd (increment_turn_count now (start ud))) !! "turn_count"
         = Some (VInt (turn_count_of ud + 1)))
  /\ (ud !! "claude_session_id" = None ->
      fst (increment_turn_count now (start ud)) = Returned (VInt 1)
      /\ user_data (snd (increment_turn_count now (start ud))) !! "turn_count"
         = Some (VInt 1))
  /\ user_data (snd (handle_text env text (start ud))) !! "claude_session_id"
     = Some (if negb (spawn_raises env)
                && Py.truthy_opt (Executor.session_id (response_in env))
             then VStr (default "" (Executor.session_id (response_in env)))
             else stored_session_id ud).
Proof.
  intros Hauth Hok.
  rewrite get_or_create_session_id_run. cbn [fst snd user_data start].
  split; [reflexivity|]. split.
  { rewrite lookup_insert_ne by done. apply initialised_session. }
  split; [|split].
  - intros Hs.
    assert (Ht : default (VInt 0) (ud !! "turn_count") = VInt (turn_count_of ud)).
    { unfold session_keys_ok, turn_count_of in *.
      destruct (ud !! "claude_session_id") as [[]|]; try done.
      all: by destruct (ud !! "turn_count") as [[]|]. }
    rewrite (increment_turn_count_run now (start ud) _ Hs Ht).
    cbn [fst snd user_data]. by rewrite lookup_insert_eq.
  - intros Hs. rewrite (increment_turn_count_new now (start ud) Hs).
    cbn [fst snd user_data]. by rewrite lookup_insert_eq.
  - by apply handle_text_session.
Qed.

Lemma C6_session_id_is_stored_whenever_present_witness :
  let ud : gmap string value :=
    {[ "claude_session_id" := VStr "old"; "turn_count" := VInt 3 ]} in
  authorized silent_env = true
  /\ session_keys_ok ud
  /\ Executor.success (response_in silent_env) = false
  /\ fst (get_or_create_session_id "t" (start ud)) = Returned (VStr "old")
  /\ fst (increment_turn_count "t" (start ud)) = Returned (VInt 4)
  /\ user_data (snd (handle_text silent_env "hello" (start ud)))
       !! "claude_session_id" = Some (VStr "abc").
Proof.
  assert (Hok : session_keys_ok
            ({[ "claude_session_id" := VStr "old"; "turn_count" := VInt 3 ]}))
    by (vm_compute; exact I).
  destruct (C6_session_id_is_stored_whenever_present _ silent_env "hello" "t"
              eq_refl Hok) as (Ha & _ & Hb & _ & Hc).
  split; [reflexivity|]. split; [exact Hok|]. split; [reflexivity|].
  split; [exact Ha|]. split; [|exact Hc].
  apply Hb. vm_compute. discriminate.
Defined.

End WorkflowFacts.

(* ===================================================================== *)
(** ** Properties of the executor, continued *)
(* ===================================================================== *)

Section ReportFacts.
Import Executor Reports.



Lemma shown_output_parsed lines :
  shown_output (foldl parse_line init_state lines)
  = if negb (Py.truthy (aggregated_text lines))
       && negb (bool_decide (block_tools (stream_blocks lines) = []))
    then NO_TEXT_PLACEHOLDER else aggregated_text lines.
Proof.
  unfold shown_output, tools_nonempty.
  rewrite final_output_parsed, tools_used_parsed.
  destruct (block_tools (stream_blocks lines)) as [|x l]; [reflexivity|].
  rewrite bool_decide_eq_false_2 by set_solver.
  by rewrite (bool_decide_eq_false_2 (_ :: _ = [])).
Qed.

Lemma shown_output_core st : shown_output (core st) = shown_output st.
Proof. reflexivity. Qed.

Lemma shown_output_truthy lines :
  Py.truthy (shown_output (foldl parse_line init_state lines)) = true
  <-> aggregated_text lines <> "" \/ tool_use_seen lines.
Proof.
  rewrite shown_output_parsed. unfold tool_use_seen.
  destruct (aggregated_text lines) as [|c s] eqn:Ha; cbn [Py.truthy negb andb].
  - destruct (block_tools (stream_blocks lines)) as [|x l].
    + rewrite bool_decide_eq_true_2 by done. cbn. split; [done|]. intros [?|?]; done.
    + rewrite bool_decide_eq_false_2 by done. cbn. split; [|done]. intros _. by right.
  - split; [|done]. intros _. by left.
Qed.

Lemma streamed_output_truthy on_progress lines :
  Py.truthy (shown_output (foldl (read_line on_progress) init_state lines)) = true
  <-> aggregated_text lines <> "" \/ tool_use_seen lines.
Proof.
  rewrite <- shown_output_truthy, <- (streaming_state on_progress). reflexivity.
Qed.

(** X2.  [execute_streaming] keeps what a failed run wrote.  For a run
    that exits with a non-zero code, success is false; [execute]
    returns an empty output and no session id; the streamed response
    of a run that produced text or used a tool has no error and the
    output, session id, tools and events of a clean exit of the same
    stream; the streamed response of a run that produced neither is
    the error made of the standard error ("Unknown error" when that
    is blank). *)
Theorem X2_streamed_failure_keeps_partial_output
    (self : ClaudeExecutor) (on_progress : bool)
    (lines : list line) (rc : Z) (err : string) :
  rc <> 0%Z ->
  let streamed := fst (execute_streaming self on_progress (StreamExited lines rc err)) in
  let sync :=
    execute self (RunCompleted {| returncode := rc; stdout := lines; stderr := err |}) in
  let clean :=
    execute self (RunCompleted {| returncode := 0; stdout := lines; stderr := err |}) in
  success streamed = false
  /\ output sync = "" /\ session_id sync = None
  /\ (aggregated_text lines = "" /\ ~ tool_use_seen lines ->
      streamed = error_response ""
                   (if Py.truthy (Py.strip err) then Py.strip err else "Unknown error"))
  /\ (aggregated_text lines <> "" \/ tool_use_seen lines ->
      error streamed = None
      /\ output streamed = output clean
      /\ output streamed <> ""
      /\ session_id streamed = session_id clean
      /\ tools_used streamed = tools_used clean
      /\ raw_events streamed = raw_events clean).
Proof.
  intros Hrc. cbv zeta. apply Z.eqb_neq in Hrc.
  unfold execute, execute_streaming, _parse_stream_json.
  cbn [returncode stdout stderr]. rewrite Hrc. cbn [negb andb Z.eqb].
  pose proof (streamed_output_truthy on_progress lines) as Hshown.
  destruct (Py.truthy (shown_output (foldl (read_line on_progress) init_state lines)))
    eqn:Ht; cbn [negb fst].
  - rewrite streaming_full_response.
    split; [cbn [success full_response]; unfold is_success; by rewrite Hrc|].
    split; [reflexivity|]. split; [reflexivity|].
    split; [intros [Ha Hn]; destruct (proj1 Hshown eq_refl); done|].
    intros _. repeat split.
    rewrite <- (streaming_full_response on_progress).
    cbn [output full_response]. by apply truthy_nonempty.
  - split; [reflexivity|]. split; [reflexivity|]. split; [reflexivity|].
    split; [reflexivity|]. intros H. apply Hshown in H. done.
Qed.

Lemma X2_streamed_failure_keeps_partial_output_witness :
  let streamed :=
    fst (execute_streaming default_executor false
           (StreamExited three_text_events 1 "")) in
  success streamed = false /\ error streamed = None /\ output streamed <> "".
Proof.
  destruct (X2_streamed_failure_keeps_partial_output default_executor false
              three_text_events 1 "") as (H1 & _ & _ & _ & H5); [discriminate|].
  destruct H5 as (H6 & _ & H7 & _); [left; vm_compute; discriminate|].
  cbv zeta. split; [exact H1|]. split; [exact H6 | exact H7].
Defined.

(** X3.  A progress callback changes what is reported, never the
    response: whenever [execute_streaming] returns, after an exit of
    the process with any code or after a timeout, the response is the
    same with and without a callback, on the lines and blocks its
    reader read. *)
Theorem X3_progress_callback_leaves_the_response_unchanged
    (self : ClaudeExecutor) (run : stream_outcome) :
  fst (execute_streaming self true run) = fst (execute_streaming self false run).
Proof.
  assert (Hstate : forall lines,
    core (foldl (read_line true) init_state lines)
    = core (foldl (read_line false) init_state lines)).
  { intros lines. by rewrite !streaming_state. }
  destruct run as [lines rc err | lines inflight]; unfold execute_streaming.
  - rewrite <- (shown_output_core (foldl (read_line true) init_state lines)).
    rewrite <- (shown_output_core (foldl (read_line false) init_state lines)).
    rewrite <- (full_response_core rc (foldl (read_line true) init_state lines)).
    rewrite <- (full_response_core rc (foldl (read_line false) init_state lines)).
    rewrite Hstate. by destruct (_ && _).
  - cbn [fst]. f_equal.
    rewrite <- (final_output_core (foldl (read_block true) _ inflight)).
    rewrite <- (final_output_core (foldl (read_block false) _ inflight)).
    by rewrite !read_blocks_core, Hstate.
Qed.

(** *** Progress *)

Lemma read_blocks_progress on_progress bs : forall st,
  let st' := foldl (read_block on_progress) st bs in
  st_tool_call_count st' = st_tool_call_count st + length (block_tools bs)
  /\ map pg_tool (st_progress_log st')
     = map pg_tool (st_progress_log st)
       ++ (if on_progress then block_tools bs else [])
  /\ map pg_step (st_progress_log st')
     = map pg_step (st_progress_log st)
       ++ (if on_progress
           then seq (S (st_tool_call_count st)) (length (block_tools bs)) else []).
Proof.
  induction bs as [|b bs IH]; intros st; cbn [foldl].
  { cbn. destruct on_progress; rewrite !app_nil_r; auto with lia. }
  cbv zeta in *. destruct (IH (read_block on_progress st b)) as (Hc & Ht & Hs).
  rewrite Hc, Ht, Hs. clear IH Hc Ht Hs.
  unfold block_tools. rewrite filter_cons.
  unfold read_block. fold (is_text b) (is_tool_use b).
  destruct (is_text b) eqn:Htext.
  { rewrite (text_not_tool _ Htext). rewrite decide_False by done. done. }
  destruct (is_tool_use b) eqn:Htool.
  - rewrite decide_True by done.
    destruct on_progress; cbn [st_tool_call_count st_progress_log set_progress
      set_tools_used map length seq app pg_tool pg_step];
      rewrite ?map_app, <- ?app_assoc; cbn [map app pg_tool pg_step];
      repeat split; try done; lia.
  - rewrite decide_False by done. done.
Qed.

Lemma read_line_progress on_progress st l :
  let st' := read_line on_progress st l in
  st_tool_call_count st' = st_tool_call_count st + length (block_tools (line_blocks l))
  /\ map pg_tool (st_progress_log st')
     = map pg_tool (st_progress_log st)
       ++ (if on_progress then block_tools (line_blocks l) else [])
  /\ map pg_step (st_progress_log st')
     = map pg_step (st_progress_log st)
       ++ (if on_progress
           then seq (S (st_tool_call_count st))
                  (length (block_tools (line_blocks l))) else []).
Proof.
  assert (Hsame : st_tool_call_count st = st_tool_call_count st + 0
    /\ map pg_tool (st_progress_log st)
       = map pg_tool (st_progress_log st) ++ (if on_progress then [] else [])
    /\ map pg_step (st_progress_log st)
       = map pg_step (st_progress_log st)
         ++ (if on_progress then seq (S (st_tool_call_count st)) 0 else [])).
  { destruct on_progress; cbn; rewrite !app_nil_r; auto with lia. }
  destruct l as [| raw | e]; cbn [read_line line_blocks]; try exact Hsame.
  unfold read_event.
  destruct (py_eq (event_type e) "system" && py_eq (event_subtype e) "init") eqn:Hi.
  { destruct (py_eq (event_type e) "assistant") eqn:Ha; [|exact Hsame].
    exfalso. unfold py_eq in *. destruct (event_type e) as [t|]; [|done].
    apply String.eqb_eq in Ha. subst. done. }
  destruct (py_eq (event_type e) "assistant").
  { apply (read_blocks_progress on_progress (event_content e)
             (set_events (st_events st ++ [e]) st)). }
  destruct (py_eq (event_type e) "result"); [|exact Hsame].
  cbn. destruct (Py.truthy_opt (st_session_id st)); exact Hsame.
Qed.

Lemma read_lines_progress on_progress lines : forall st,
  let st' := foldl (read_line on_progress) st lines in
  st_tool_call_count st'
  = st_tool_call_count st + length (block_tools (stream_blocks lines))
  /\ map pg_tool (st_progress_log st')
     = map pg_tool (st_progress_log st)
       ++ (if on_progress then block_tools (stream_blocks lines) else [])
  /\ map pg_step (st_progress_log st')
     = map pg_step (st_progress_log st)
       ++ (if on_progress
           then seq (S (st_tool_call_count st))
                  (length (block_tools (stream_blocks lines))) else []).
Proof.
  induction lines as [|l lines IH]; intros st; cbn [foldl].
  { cbn. destruct on_progress; rewrite !app_nil_r; auto with lia. }
  cbv zeta in *. destruct (IH (read_line on_progress st l)) as (Hc & Ht & Hs).
  destruct (read_line_progress on_progress st l) as (Hc1 & Ht1 & Hs1).
  rewrite Hc, Ht, Hs, Hc1, Ht1, Hs1. clear.
  change (stream_blocks (l :: lines)) with (line_blocks l ++ stream_blocks lines).
  rewrite block_tools_app, length_app.
  destruct on_progress; rewrite <- ?app_assoc, ?app_nil_r.
  - split; [lia|]. split; [reflexivity|]. f_equal. rewrite seq_app.
    do 2 f_equal; lia.
  - split; [lia|]. split; reflexivity.
Qed.

(** X4.  The progress callback is called once for every [tool_use]
    block, in the order of the stream, with the steps numbered 1, 2,
    3, ...; this holds for a run that exits and for a run that times
    out (the blocks of the event in flight included).  Without a
    callback nothing is reported. *)
Theorem X4_progress_numbers_every_tool_call
    (self : ClaudeExecutor) (run : stream_outcome) :
  let blocks :=
    match run with
    | StreamExited lines _ _ => stream_blocks lines
    | StreamTimedOut lines inflight => stream_blocks lines ++ inflight
    end in
  let log := snd (execute_streaming self true run) in
  map pg_tool log = block_tools blocks
  /\ map pg_step log = seq 1 (length (block_tools blocks))
  /\ snd (execute_streaming self false run) = [].
Proof.
  cbv zeta. destruct run as [lines rc err | lines inflight]; unfold execute_streaming.
  - assert (Hlog : forall b,
      snd (if negb (rc =? 0)%Z
              && negb (Py.truthy (shown_output (foldl (read_line b) init_state lines)))
           then (error_response ""
                   (if Py.truthy (Py.strip err) then Py.strip err else "Unknown error"),
                 st_progress_log (foldl (read_line b) init_state lines))
           else (full_response rc (foldl (read_line b) init_state lines),
                 st_progress_log (foldl (read_line b) init_state lines)))
      = st_progress_log (foldl (read_line b) init_state lines)).
    { intros b. by destruct (_ && _). }
    rewrite !Hlog.
    destruct (read_lines_progress true lines init_state) as (_ & Ht & Hs).
    destruct (read_lines_progress false lines init_state) as (_ & Ht' & _).
    cbv zeta in *. rewrite Ht, Hs. repeat split.
    cbn in Ht'. by apply map_eq_nil in Ht'.
  - cbn [snd].
    destruct (read_lines_progress true lines init_state) as (Hc & Ht & Hs).
    destruct (read_lines_progress false lines init_state) as (_ & Ht' & _).
    destruct (read_blocks_progress true inflight
                (foldl (read_line true) init_state lines)) as (_ & Ht2 & Hs2).
    destruct (read_blocks_progress false inflight
                (foldl (read_line false) init_state lines)) as (_ & Ht2' & _).
    cbv zeta in *. rewrite Ht2, Hs2, Ht, Hs, Hc. rewrite block_tools_app, length_app.
    cbn [init_state st_progress_log st_tool_call_count map app Nat.add].
    repeat split.
    + by rewrite seq_app.
    + rewrite Ht', app_nil_r in Ht2'. cbn in Ht2'. by apply map_eq_nil in Ht2'.
Qed.

Lemma parse_blocks_totals bs : forall st,
  st_totals (foldl parse_block st bs) = st_totals st.
Proof.
  induction bs as [|b bs IH]; intros st; cbn [foldl]; [done|].
  rewrite IH. unfold parse_block.
  destruct (py_eq (block_type b) "text"); [done|].
  by destruct (py_eq (block_type b) "tool_use").
Qed.

Lemma result_type_excludes e :
  py_eq (event_type e) "result" = true ->
  py_eq (event_type e) "system" && py_eq (event_subtype e) "init" = false
  /\ py_eq (event_type e) "assistant" = false.
Proof.
  unfold py_eq. destruct (event_type e) as [t|]; [|done].
  intros ->%String.eqb_eq. done.
Qed.

Lemma result_events_cons l lines :
  result_events (l :: lines)
  = match l with
    | Json e => if is_result e then e :: result_events lines else result_events lines
    | _ => result_events lines
    end.
Proof. destruct l as [| raw | e]; try reflexivity. cbn. by destruct (is_result e). Qed.

Lemma parse_lines_totals lines : forall st,
  st_totals (foldl parse_line st lines)
  = match last (result_events lines) with
    | Some e => event_totals e
    | None => st_totals st
    end.
Proof.
  induction lines as [|l lines IH]; intros st; cbn [foldl]; [done|].
  rewrite IH, result_events_cons.
  destruct l as [| raw | e]; cbn [parse_line]; try done.
  unfold parse_event, is_result.
  destruct (py_eq (event_type e) "result") eqn:Hr.
  - destruct (result_type_excludes e Hr) as [-> ->].
    rewrite last_cons.
    destruct (last (result_events lines)); [done|].
    by destruct (negb (Py.truthy_opt _)).
  - destruct (py_eq (event_type e) "system" && py_eq (event_subtype e) "init");
      [done|].
    destruct (py_eq (event_type e) "assistant"); [|done].
    by rewrite parse_blocks_totals.
Qed.

Lemma full_response_totals rc lines :
  totals (full_response rc (foldl parse_line init_state lines))
  = last_result_totals lines.
Proof. apply (parse_lines_totals lines init_state). Qed.

(** X5.  The cost, the duration and the token counts of a response
    that is built after the parsing loop are those of the last
    [result] event among the lines the parser read, zero standing for
    a count that event lacks, and all zero without a [result] event:
    so it is for [execute] on exit code 0, and for [execute_streaming]
    on exit code 0 or whenever the run produced text or a tool call.
    Every other response has zero totals: a non-zero exit reported by
    [execute], a streamed failure without text or tool call, a
    timeout, an exception. *)
Theorem X5_totals_are_those_of_the_last_result_event
    (self : ClaudeExecutor) (on_progress : bool)
    (printed : list line) (rc : Z) (err : string)
    (read : list line) (code : Z) (errors : string)
    (inflight : list block) (message : string) :
  let sync :=
    execute self (RunCompleted {| returncode := rc; stdout := printed;
                                  stderr := err |}) in
  let streamed :=
    fst (execute_streaming self on_progress (StreamExited read code errors)) in
  (rc = 0%Z -> totals sync = last_result_totals printed)
  /\ (rc <> 0%Z -> totals sync = zero_totals)
  /\ (code = 0%Z \/ aggregated_text read <> "" \/ tool_use_seen read ->
      totals streamed = last_result_totals read)
  /\ (code <> 0%Z -> aggregated_text read = "" -> ~ tool_use_seen read ->
      totals streamed = zero_totals)
  /\ totals (execute self (RunTimeoutExpired printed)) = zero_totals
  /\ totals (execute self (RunException message)) = zero_totals
  /\ totals (fst (execute_streaming self on_progress
                    (StreamTimedOut read inflight))) = zero_totals.
Proof.
  cbv zeta. unfold execute, _parse_stream_json. cbn [returncode stdout stderr].
  split; [|split; [|split; [|split; [|split; [|split]]]]]; try reflexivity.
  - intros ->. cbn [negb Z.eqb]. apply full_response_totals.
  - intros Hrc. apply Z.eqb_neq in Hrc. rewrite Hrc. reflexivity.
  - intros Hshown. unfold execute_streaming.
    assert (Hnot : negb (code =? 0)%Z
                   && negb (Py.truthy (shown_output
                              (foldl (read_line on_progress) init_state read)))
                   = false).
    { destruct Hshown as [-> | Hshown]; [reflexivity|].
      apply (streamed_output_truthy on_progress) in Hshown. rewrite Hshown.
      apply andb_false_r. }
    rewrite Hnot. cbn [fst]. rewrite streaming_full_response.
    apply full_response_totals.
  - intros Hcode Htext Htool. unfold execute_streaming.
    apply Z.eqb_neq in Hcode. rewrite Hcode. cbn [negb andb].
    destruct (Py.truthy (shown_output
                (foldl (read_line on_progress) init_state read))) eqn:Hshown;
      [|reflexivity].
    apply (streamed_output_truthy on_progress) in Hshown.
    destruct Hshown as [H | H]; done.
Qed.

Lemma X5_totals_are_those_of_the_last_result_event_witness :
  let paid := result_event (Some "abc") (S754_zero false) 5 1 2 in
  let lines := [Json (assistant_event [text_block "hi"]); Json paid] in
  totals (execute default_executor
            (RunCompleted {| returncode := 0; stdout := lines; stderr := "" |}))
  = event_totals paid
  /\ totals (execute default_executor
               (RunCompleted {| returncode := 1; stdout := lines; stderr := "" |}))
     = zero_totals
  /\ totals (fst (execute_streaming default_executor true
                    (StreamExited lines 1 "")))
     = event_totals paid.
Proof.
  cbv zeta.
  destruct (X5_totals_are_those_of_the_last_result_event default_executor true
              [ Json (assistant_event [text_block "hi"]);
                Json (result_event (Some "abc") (S754_zero false) 5 1 2) ]
              0 ""
              [ Json (assistant_event [text_block "hi"]);
                Json (result_event (Some "abc") (S754_zero false) 5 1 2) ]
              1 "" [] "") as (Hclean & _ & Hkept & _).
  destruct (X5_totals_are_those_of_the_last_result_event default_executor true
              [ Json (assistant_event [text_block "hi"]);
                Json (result_event (Some "abc") (S754_zero false) 5 1 2) ]
              1 "" [] 0 "" [] "") as (_ & Hfailed & _).
  split; [rewrite (Hclean eq_refl); reflexivity|].
  split; [apply Hfailed; discriminate|].
  rewrite Hkept; [reflexivity|]. right. left. vm_compute. discriminate.
Defined.

End ReportFacts.

(* ===================================================================== *)
(** ** Properties of the split of long replies *)
(* ===================================================================== *)

Section SplittingFacts.
Import Formatter Splitting.

Lemma length_append a b :
  String.length (a +:+ b) = String.length a + String.length b.
Proof.
  induction a as [|c a IH]; [done|].
  change (S (String.length (a +:+ b)) = S (String.length a + String.length b)).
  by rewrite IH.
Qed.

Lemma len_append a b : len (a +:+ b) = (len a + len b)%Z.
Proof. unfold len. rewrite length_append. lia. Qed.

Lemma string_take_length n s : String.length (Py.take n s) = Nat.min n (String.length s).
Proof.
  revert s. induction n as [|n IH]; intros [|c s]; cbn; try done. by rewrite IH.
Qed.

Lemma string_take_drop n s : Py.take n s +:+ Py.drop n s = s.
Proof.
  revert s. induction n as [|n IH]; intros [|c s]; try reflexivity.
  change (String c (Py.take n s +:+ Py.drop n s) = String c s). by rewrite IH.
Qed.

Lemma startswith_length p s :
  Py.startswith p s = true -> String.length p <= String.length s.
Proof.
  revert s. induction p as [|a p IH]; intros [|b s]; cbn; try done; try lia.
  destruct (Ascii.eqb a b); [|done]. intros H%IH. lia.
Qed.

Lemma finditer_from_bound p s : forall skip pos x,
  x ∈ Py.finditer_from p skip pos s ->
  x + String.length p <= pos + String.length s.
Proof.
  induction s as [|c s IH]; intros skip pos x; cbn [Py.finditer_from].
  { by intros ?%elem_of_nil. }
  destruct skip as [|k].
  - destruct (Py.startswith p (String c s)) eqn:Hp.
    + intros [-> | Hin]%elem_of_cons.
      * apply startswith_length in Hp. lia.
      * apply IH in Hin. cbn [String.length]. lia.
    + intros Hin%IH. cbn [String.length]. lia.
  - intros Hin%IH. cbn [String.length]. lia.
Qed.

Lemma after_last_bound p s k :
  after_last p (len p) s = Some k -> (k <= len s)%Z.
Proof.
  unfold after_last. destruct (last (Py.finditer p s)) as [x|] eqn:Hl; [|done].
  cbn. intros [= <-]. apply last_Some_elem_of in Hl.
  apply finditer_from_bound in Hl. unfold len. lia.
Qed.

Lemma upto_length k s : (0 <= k)%Z -> (len (upto k s) <= k)%Z.
Proof.
  intros Hk. unfold upto, slice_index, len.
  destruct (k <? 0)%Z eqn:Hneg; [apply Z.ltb_lt in Hneg; lia|].
  rewrite string_take_length. lia.
Qed.

Lemma find_split_point_le self text :
  (1 <= max_length self)%Z ->
  (_find_split_point self text <= max_length self)%Z.
Proof.
  intros Hmax. unfold _find_split_point.
  set (max_search := Z.min (max_length self) (len text)).
  assert (Hsearch : (len (upto max_search text) <= max_length self)%Z).
  { assert (0 <= max_search)%Z by (unfold max_search, len; lia).
    pose proof (upto_length max_search text). lia. }
  set (search_text := upto max_search text) in *.
  assert (Hrest :
    (match after_last (NEWLINE +:+ NEWLINE) 2 search_text with
     | Some p => p
     | None =>
     match after_last NEWLINE 1 search_text with
     | Some p => p
     | None =>
     match after_last ". " 2 search_text with
     | Some p => p
     | None =>
     match after_last " " 1 search_text with
     | Some p => p
     | None => max_length self
     end end end end <= max_length self)%Z).
  { destruct (after_last (NEWLINE +:+ NEWLINE) 2 search_text) eqn:H1.
    { apply (after_last_bound (NEWLINE +:+ NEWLINE)) in H1. lia. }
    destruct (after_last NEWLINE 1 search_text) eqn:H2.
    { apply (after_last_bound NEWLINE) in H2. lia. }
    destruct (after_last ". " 2 search_text) eqn:H3.
    { apply (after_last_bound ". ") in H3. lia. }
    destruct (after_last " " 1 search_text) eqn:H4.
    { apply (after_last_bound " ") in H4. lia. }
    lia. }
  destruct (last (code_blocks _)) as [[a b]|]; [|exact Hrest].
  cbn [snd]. destruct (Z.of_nat b <=? max_length self)%Z eqn:Hb; [|exact Hrest].
  by apply Z.leb_le in Hb.
Qed.

(** White space *)

Lemma nonspace_append a b : nonspace (a +:+ b) = nonspace a +:+ nonspace b.
Proof.
  induction a as [|c a IH]; [done|].
  change (nonspace (String c (a +:+ b)) = nonspace (String c a) +:+ nonspace b).
  cbn [nonspace]. destruct (Py.isspace c); [exact IH|].
  change (String c (nonspace (a +:+ b)) = String c (nonspace a +:+ nonspace b)).
  by rewrite IH.
Qed.

Lemma nonspace_lstrip s : nonspace (Py.lstrip s) = nonspace s.
Proof.
  induction s as [|c s IH]; [done|]. cbn. destruct (Py.isspace c) eqn:Hc; [done|].
  cbn. by rewrite Hc.
Qed.

Lemma rstrip_empty s : Py.rstrip s = "" <-> nonspace s = "".
Proof.
  induction s as [|c s IH]; [done|]. cbn.
  destruct (Py.rstrip s) as [|d r]; destruct (Py.isspace c); split; try done.
  - intros _. by apply IH.
  - intros H. apply IH in H. done.
Qed.

Lemma nonspace_rstrip s : nonspace (Py.rstrip s) = nonspace s.
Proof.
  induction s as [|c s IH]; [done|]. cbn.
  destruct (Py.rstrip s) as [|d r] eqn:Hr.
  - assert (Hs : nonspace s = "") by (by apply rstrip_empty).
    rewrite Hs. destruct (Py.isspace c) eqn:Hc; cbn; by rewrite ?Hc.
  - cbn [nonspace] in *. destruct (Py.isspace c); by rewrite IH.
Qed.

Lemma nonspace_strip s : nonspace (Py.strip s) = nonspace s.
Proof. unfold Py.strip. by rewrite nonspace_rstrip, nonspace_lstrip. Qed.

Lemma strip_empty s : Py.strip s = "" <-> nonspace s = "".
Proof. unfold Py.strip. by rewrite rstrip_empty, nonspace_lstrip. Qed.

Lemma message_text chunk : text (message chunk) = chunk.
Proof. reflexivity. Qed.

Lemma append_empty_r x : x +:+ "" = x.
Proof.
  induction x as [|c x IH]; [done|].
  change (String c (x +:+ "") = String c x). by rewrite IH.
Qed.

Lemma join_snoc l x : Py.join (l ++ [x]) = Py.join l +:+ x.
Proof.
  rewrite join_app. change (Py.join [x]) with (x +:+ ""). by rewrite append_empty_r.
Qed.

(** What the loop of [_split_message] returns. *)
Lemma split_loop_spec self :
  (1 <= max_length self)%Z ->
  forall fuel messages remaining messages' remaining',
  split_loop fuel self messages remaining = Some (messages', remaining') ->
  exists bodies new,
    messages' = messages ++ new
    /\ Forall2 (fun b m => m = message b \/ m = message (b +:+ CONTINUED_AFTER))
         bodies new
    /\ Forall (fun b => (len b <= max_length self)%Z) bodies
    /\ nonspace (Py.join bodies) +:+ nonspace remaining' = nonspace remaining
    /\ (len remaining' <= max_length self)%Z
    /\ (nonspace remaining <> "" \/ remaining = "" ->
        Forall (fun m => text m <> "") new
        /\ (nonspace remaining' <> "" \/ remaining' = ""))
    /\ ((len remaining > max_length self)%Z -> new <> []).
Proof.
  intros Hmax. induction fuel as [|fuel IH];
    intros messages remaining messages' remaining'; cbn [split_loop].
  - destruct (len remaining >? max_length self)%Z eqn:Hgt; [done|].
    intros [= <- <-]. exists [], []. rewrite app_nil_r.
    rewrite Z.gtb_ltb in Hgt. apply Z.ltb_ge in Hgt.
    repeat split; auto; lia.
  - destruct (len remaining >? max_length self)%Z eqn:Hgt.
    2: { intros [= <- <-]. exists [], []. rewrite app_nil_r.
         rewrite Z.gtb_ltb in Hgt. apply Z.ltb_ge in Hgt.
         repeat split; auto; lia. }
    rewrite Z.gtb_ltb in Hgt. apply Z.ltb_lt in Hgt.
    pose proof (find_split_point_positive self remaining Hmax) as Hsp1.
    pose proof (find_split_point_le self remaining Hmax) as Hsp2.
    set (sp := _find_split_point self remaining) in *. clearbody sp.
    set (chunk := Py.strip (upto sp remaining)).
    set (rest := Py.strip (from sp remaining)).
    intros Hloop. apply IH in Hloop as (bodies & new & -> & Hnew & Hlen & Hns & Hrem & Hne & _).
    exists (chunk :: bodies),
      (message (if Py.truthy rest then chunk +:+ CONTINUED_AFTER else chunk) :: new).
    assert (Hcut : nonspace chunk +:+ nonspace rest = nonspace remaining).
    { unfold chunk, rest. rewrite !nonspace_strip, <- nonspace_append.
      unfold upto, from. by rewrite string_take_drop. }
    assert (Hrest : nonspace rest <> "" \/ rest = "").
    { destruct rest as [|c r] eqn:Hr; [by right|]. left.
      unfold rest in Hr. intros Hblank. rewrite <- Hr, nonspace_strip in Hblank.
      apply strip_empty in Hblank. by rewrite Hblank in Hr. }
    assert (Hchunk : (len chunk <= max_length self)%Z).
    { assert (len chunk <= len (upto sp remaining))%Z as H.
      { unfold len, chunk. pose proof (strip_length (upto sp remaining)). lia. }
      pose proof (upto_length sp remaining ltac:(lia)) as Hup.
      exact (Z.le_trans _ _ _ H (Z.le_trans _ _ _ Hup Hsp2)). }
    clearbody chunk rest.
    split; [by rewrite <- app_assoc|].
    split; [constructor; [destruct (Py.truthy rest); auto | exact Hnew]|].
    split; [by constructor|].
    split.
    { change (Py.join (chunk :: bodies)) with (chunk +:+ Py.join bodies).
      rewrite nonspace_append, append_assoc, Hns. exact Hcut. }
    split; [exact Hrem|].
    split; [|done].
    intros Hstart. destruct (Hne Hrest) as [Hall Hlast]. split; [|exact Hlast].
    constructor; [|exact Hall]. rewrite message_text.
    destruct Hstart as [Hstart | ->]; [|unfold len in Hgt; cbn in Hgt; lia].
    destruct (Py.truthy rest) eqn:Ht.
    + intros Hempty. apply (f_equal String.length) in Hempty.
      rewrite length_append in Hempty.
      change (String.length CONTINUED_AFTER) with 18 in Hempty.
      change (String.length "") with 0 in Hempty. lia.
    + assert (rest = "") as -> by (by destruct rest).
      intros ->. change ("" = nonspace remaining) in Hcut. by rewrite <- Hcut in Hstart.
Qed.

Lemma carries_plain b : carries b (message b).
Proof.
  exists "", "". repeat split; [set_solver | set_solver|].
  rewrite message_text. by rewrite append_empty_r.
Qed.

Lemma carries_after b : carries b (message (b +:+ CONTINUED_AFTER)).
Proof. exists "", CONTINUED_AFTER. repeat split; set_solver. Qed.

Lemma carries_before b : carries b (message (CONTINUED_BEFORE +:+ b)).
Proof.
  exists CONTINUED_BEFORE, "". repeat split; [set_solver | set_solver|].
  rewrite message_text. by rewrite append_empty_r.
Qed.

(** What [format_response] returns for a text that is not blank. *)
Lemma format_response_spec self text (add_header : bool) header_text :
  (1 <= max_length self)%Z ->
  nonspace text <> "" ->
  let full := if add_header then header_text +:+ text else text in
  exists (bodies : list string) (messages : list FormattedMessage),
    format_response self text add_header header_text = Some messages
    /\ messages <> []
    /\ Forall2 carries bodies messages
    /\ nonspace (Py.join bodies) = nonspace full
    /\ Forall (fun m => Formatter.text m <> "") messages
    /\ Forall (fun m => (len (Formatter.text m) <= max_length self + MARK_LENGTH)%Z)
         messages.
Proof.
  intros Hmax Htext. cbv zeta. unfold format_response.
  assert (Hblank : negb (Py.truthy text) || negb (Py.truthy (Py.strip text)) = false).
  { destruct text as [|c t]; [done|]. cbn [Py.truthy negb orb].
    destruct (Py.strip (String c t)) eqn:Hs; [|done].
    apply strip_empty in Hs. done. }
  rewrite Hblank.
  set (full := if add_header then header_text +:+ text else text).
  assert (Hfull : nonspace full <> "").
  { unfold full. destruct add_header; [|done]. rewrite nonspace_append.
    destruct (nonspace header_text); [done|done]. }
  clearbody full.
  destruct (len full <=? max_length self)%Z eqn:Hshort.
  { apply Z.leb_le in Hshort. exists [full], [message full].
    split; [done|]. split; [done|].
    split; [constructor; [apply carries_plain | constructor]|].
    split; [cbn; by rewrite append_empty_r|].
    split; constructor; try constructor; rewrite message_text.
    - by destruct full.
    - unfold MARK_LENGTH. lia. }
  apply Z.leb_gt in Hshort.
  unfold _split_message, split_with_fuel.
  destruct (split_loop_total self (String.length full) [] full Hmax (le_n _))
    as [[messages remaining] Hloop].
  rewrite Hloop.
  apply (split_loop_spec self Hmax) in Hloop
    as (bodies & new & -> & Hnew & Hlen & Hns & Hrem & Hne & Hsome).
  cbn [app]. destruct (Hne (or_introl Hfull)) as [Hall Hlast].
  assert (Hnonempty : new <> []) by (apply Hsome; lia).
  assert (Hcarry : Forall2 carries bodies new).
  { eapply Forall2_impl; [exact Hnew|]. intros b m [-> | ->];
      [apply carries_plain | apply carries_after]. }
  assert (Hfit : Forall (fun m => (len (Formatter.text m)
                                   <= max_length self + MARK_LENGTH)%Z) new).
  { clear -Hnew Hlen. induction Hnew as [|b m bodies new Hm _ IH]; [constructor|].
    apply Forall_cons in Hlen as [Hb Hlen]. constructor; [|by apply IH].
    destruct Hm as [-> | ->]; rewrite message_text, ?len_append;
      change (len CONTINUED_AFTER) with 18%Z; unfold MARK_LENGTH; lia. }
  destruct (Py.truthy remaining) eqn:Ht.
  - exists (bodies ++ [remaining]).
    destruct new as [|m new]; [done|].
    exists ((m :: new) ++ [message (CONTINUED_BEFORE +:+ remaining)]).
    split; [done|]. split; [done|].
    split; [apply Forall2_app; [exact Hcarry|];
            constructor; [apply carries_before | constructor]|].
    split; [by rewrite join_snoc, nonspace_append|].
    split; apply Forall_app; (split; [done|]); constructor; try constructor;
      rewrite message_text.
    + done.
    + rewrite len_append. change (len CONTINUED_BEFORE) with 18%Z.
      unfold MARK_LENGTH. lia.
  - assert (remaining = "") as -> by (by destruct remaining).
    exists bodies, new. split; [done|]. split; [done|]. split; [done|].
    split; [|done]. rewrite <- Hns. cbn [nonspace]. by rewrite append_empty_r.
Qed.

(** The message sent for a blank text. *)
Lemma format_response_blank self text add_header header_text :
  nonspace text = "" ->
  format_response self text add_header header_text = Some [EMPTY_RESPONSE].
Proof.
  intros Hblank. unfold format_response.
  destruct text as [|c t]; [done|]. cbn [Py.truthy negb orb].
  apply strip_empty in Hblank. by rewrite Hblank.
Qed.

(** X7.  For a formatter with a positive [max_length], [format_response]
    returns at least one message and no message has an empty text,
    whatever the text and the header. *)
Theorem X7_format_response_returns_messages_with_text
    (self : ResponseFormatter) (text : string) (add_header : bool)
    (header_text : string) :
  (1 <= max_length self)%Z ->
  exists first rest,
    format_response self text add_header header_text = Some (first :: rest)
    /\ Forall (fun m => Formatter.text m <> "") (first :: rest).
Proof.
  intros Hmax. destruct (nonspace text) as [|c t] eqn:Hns.
  - exists EMPTY_RESPONSE, []. split; [by apply format_response_blank|].
    by constructor.
  - destruct (format_response_spec self text add_header header_text Hmax)
      as (bodies & messages & -> & Hne & _ & _ & Hall & _); [by rewrite Hns|].
    destruct messages as [|first rest]; [done|]. by exists first, rest.
Qed.

Lemma X7_format_response_returns_messages_with_text_witness :
  exists first rest,
    format_response default_formatter straddling_text false ""
      = Some (first :: rest)
    /\ Forall (fun m => Formatter.text m <> "") (first :: rest).
Proof.
  apply (X7_format_response_returns_messages_with_text default_formatter
           straddling_text false "").
  vm_compute. discriminate.
Defined.

(** X8.  For a formatter with a positive [max_length], every message
    [format_response] returns is at most [max_length + 18] characters
    long, 18 being the length of a continuation mark; with
    [max_length] at most [MAX_SAFE_LENGTH] (the default) every message
    is within [MAX_MESSAGE_LENGTH]. *)
Theorem X8_every_message_fits_the_limit
    (self : ResponseFormatter) (text : string) (add_header : bool)
    (header_text : string) :
  (1 <= max_length self)%Z ->
  exists messages : list FormattedMessage,
    format_response self text add_header header_text = Some messages
    /\ Forall (fun m => (len (Formatter.text m) <= max_length self + MARK_LENGTH)%Z)
         messages
    /\ ((max_length self <= MAX_SAFE_LENGTH)%Z ->
        Forall (fun m => (len (Formatter.text m) <= MAX_MESSAGE_LENGTH)%Z) messages).
Proof.
  intros Hmax.
  assert (Hgen : exists messages : list FormattedMessage,
    format_response self text add_header header_text = Some messages
    /\ Forall (fun m => (len (Formatter.text m) <= max_length self + MARK_LENGTH)%Z)
         messages).
  { destruct (nonspace text) as [|c t] eqn:Hns.
    - exists [EMPTY_RESPONSE]. split; [by apply format_response_blank|].
      constructor; [|constructor]. unfold MARK_LENGTH.
      change (len (Formatter.text EMPTY_RESPONSE)) with 16%Z. lia.
    - destruct (format_response_spec self text add_header header_text Hmax)
        as (bodies & messages & -> & _ & _ & _ & _ & Hfit); [by rewrite Hns|].
      by exists messages. }
  destruct Hgen as (messages & Heq & Hfit). exists messages.
  split; [exact Heq|]. split; [exact Hfit|].
  intros Hsafe. eapply Forall_impl; [exact Hfit|]. intros m Hm. cbv beta in Hm.
  unfold MARK_LENGTH, MAX_SAFE_LENGTH, MAX_MESSAGE_LENGTH in *. lia.
Qed.

Lemma X8_every_message_fits_the_limit_witness :
  exists messages : list FormattedMessage,
    format_response default_formatter straddling_text false "" = Some messages
    /\ Forall (fun m => (len (Formatter.text m) <= MAX_MESSAGE_LENGTH)%Z) messages.
Proof.
  destruct (X8_every_message_fits_the_limit default_formatter straddling_text
              false "") as (messages & Heq & _ & Hfit).
  { vm_compute. discriminate. }
  exists messages. split; [exact Heq|]. apply Hfit. vm_compute. discriminate.
Defined.

(** X9.  Splitting loses white space only: for a formatter with a
    positive [max_length] and a text that is not blank, the messages
    of [format_response] are bodies with or without
    continuation marks around them, and the bodies put end to end
    have the characters of the text (after the header, when one is
    asked for) that are not white space, in order. *)
Theorem X9_splitting_loses_white_space_only
    (self : ResponseFormatter) (text : string) (add_header : bool)
    (header_text : string) :
  (1 <= max_length self)%Z ->
  nonspace text <> "" ->
  exists (bodies : list string) (messages : list FormattedMessage),
    format_response self text add_header header_text = Some messages
    /\ Forall2 carries bodies messages
    /\ nonspace (Py.join bodies)
       = nonspace (if add_header then header_text +:+ text else text).
Proof.
  intros Hmax Htext.
  destruct (format_response_spec self text add_header header_text Hmax Htext)
    as (bodies & messages & Heq & _ & Hcarry & Hns & _).
  by exists bodies, messages.
Qed.

Lemma X9_splitting_loses_white_space_only_witness :
  exists (bodies : list string) (messages : list FormattedMessage),
    format_response default_formatter straddling_text false "" = Some messages
    /\ Forall2 carries bodies messages
    /\ nonspace (Py.join bodies) = nonspace straddling_text.
Proof.
  apply (X9_splitting_loses_white_space_only default_formatter straddling_text
           false "").
  - vm_compute. discriminate.
  - vm_compute. discriminate.
Defined.

End SplittingFacts.

(* ===================================================================== *)
(** ** Properties of the formatting helpers *)
(* ===================================================================== *)

Section FormattingFacts.
Import Formatter Formatting.

(** X10.  [truncate_text] leaves a text that fits unchanged; a longer
    text is cut to exactly [max_length] characters, the suffix
    included, when the suffix itself fits.  The result is within
    [max_length] exactly when the text or the suffix is. *)
Theorem X10_truncate_text_length (text : string) (max_length : Z) (suffix : string) :
  let r := truncate_text text max_length suffix in
  ((len r <= max_length)%Z
     <-> (len text <= max_length)%Z \/ (len suffix <= max_length)%Z)
  /\ ((len text <= max_length)%Z -> r = text)
  /\ ((len suffix <= max_length < len text)%Z ->
      len r = max_length
      /\ r = Py.take (Z.to_nat (max_length - len suffix)) text +:+ suffix).
Proof.
  cbv zeta. unfold truncate_text.
  destruct (len text <=? max_length)%Z eqn:Hfit.
  { apply Z.leb_le in Hfit. split; [tauto|]. split; [done|]. lia. }
  apply Z.leb_gt in Hfit. rewrite len_append.
  unfold upto, slice_index.
  destruct (max_length - len suffix <? 0)%Z eqn:Hneg.
  - apply Z.ltb_lt in Hneg. split; [|split; [lia|lia]].
    unfold len at 1. rewrite string_take_length. unfold len in *. lia.
  - apply Z.ltb_ge in Hneg.
    assert (Hlen : (len (Py.take (Z.to_nat (max_length - len suffix)) text)
                    = max_length - len suffix)%Z).
    { unfold len at 1. rewrite string_take_length. unfold len in *. lia. }
    rewrite Hlen. split; [split; [intros _; right|]; lia|].
    split; [lia|]. intros _. split; [lia | reflexivity].
Qed.

Lemma X10_truncate_text_length_witness :
  truncate_text "hello world" 8 "..." = "hello..."
  /\ truncate_text "hello" 8 "..." = "hello".
Proof.
  destruct (X10_truncate_text_length "hello world" 8 "...") as (_ & _ & H).
  destruct H as [_ H]; [unfold len; cbn; lia|].
  destruct (X10_truncate_text_length "hello" 8 "...") as (_ & H' & _).
  split; [exact H|]. apply H'. unfold len; cbn; lia.
Defined.

(** *** [escape_markdown] *)

Lemma replace_char_cons a new c s :
  Str.replace (String a "") new (String c s)
  = (if Ascii.eqb a c then new else String c "")
    +:+ Str.replace (String a "") new s.
Proof.
  unfold Str.replace. cbn [Str.replace_from Py.startswith String.length Nat.sub].
  destruct (Ascii.eqb a c); [|reflexivity].
  by destruct s.
Qed.

Lemma replace_char_append a new x y :
  Str.replace (String a "") new (x +:+ y)
  = Str.replace (String a "") new x +:+ Str.replace (String a "") new y.
Proof.
  induction x as [|c x IH]; [reflexivity|].
  change (String c x +:+ y) with (String c (x +:+ y)).
  by rewrite !replace_char_cons, IH, append_assoc.
Qed.

Lemma escape_fold_append (chars : list string) : forall x y,
  Forall (fun ch => exists a, ch = String a "") chars ->
  foldl (fun text char => Str.replace char ("\" +:+ char) text) (x +:+ y) chars
  = foldl (fun text char => Str.replace char ("\" +:+ char) text) x chars
    +:+ foldl (fun text char => Str.replace char ("\" +:+ char) text) y chars.
Proof.
  induction chars as [|ch chars IH]; intros x y Hall; [reflexivity|].
  apply Forall_cons in Hall as [[a ->] Hall]. cbn [foldl].
  rewrite replace_char_append. by apply IH.
Qed.

Lemma special_chars_single :
  Forall (fun ch => exists a, ch = String a "") special_chars.
Proof. repeat (constructor; [by eexists|]). constructor. Qed.

Lemma escape_markdown_char c :
  escape_markdown (String c "")
  = if is_special c then String "\" (String c "") else String c "".
Proof.
  destruct c as [[] [] [] [] [] [] [] []]; vm_compute; reflexivity.
Qed.

(** X11.  [escape_markdown], which replaces one special character after
    the other over the whole text, puts exactly one backslash before
    every special character of the text and changes nothing else: no
    backslash it has added is escaped again, and the result is longer
    than the text by the number of special characters. *)
Theorem X11_escape_markdown_escapes_each_special_character (text : string) :
  escape_markdown text = escape_each text
  /\ String.length (escape_markdown text)
     = String.length text + count_special text.
Proof.
  assert (Heach : escape_markdown text = escape_each text).
  { induction text as [|c text IH]; [reflexivity|].
    change (String c text) with (String c "" +:+ text).
    unfold escape_markdown in *.
    rewrite escape_fold_append by apply special_chars_single.
    rewrite IH. fold (escape_markdown (String c "")).
    rewrite escape_markdown_char.
    change (escape_each (String c "" +:+ text))
      with (if is_special c then String "\" (String c (escape_each text))
            else String c (escape_each text)).
    by destruct (is_special c). }
  split; [exact Heach|]. rewrite Heach. clear Heach.
  induction text as [|c text IH]; [reflexivity|].
  cbn [escape_each count_special String.length].
  destruct (is_special c); cbn [String.length]; lia.
Qed.

End FormattingFacts.

(* ===================================================================== *)
(** ** What the action buttons write to git *)
(* ===================================================================== *)

Section ApprovalFacts.
Import Bot Callbacks Approval.

Ltac unfold_handler :=
  repeat (progress
    (unfold skip, mbind, handler_bind, mret, handler_ret, get, put, emit,
       raise, start;
     cbn [user_data effects fst snd])).

Lemma git_writes_app e1 e2 : git_writes (e1 ++ e2) = git_writes e1 ++ git_writes e2.
Proof. apply filter_app. Qed.

Lemma git_writes_say t : git_writes [Say t] = [].
Proof. reflexivity. Qed.

Lemma commit_approved_writes env c w :
  git_writes (effects (snd (commit_approved env c w)))
  = git_writes (effects w) ++ approval_writes env c.
Proof.
  unfold commit_approved, approval_writes.
  destruct (is_git_repo env);
    [|rewrite edit_message_text_run; cbn [snd effects];
      by rewrite git_writes_app].
  destruct (get_status env) as [status|];
    [|rewrite edit_message_text_run; cbn [snd effects];
      by rewrite git_writes_app].
  destruct (negb (is_clean status));
    [|rewrite edit_message_text_run; cbn [snd effects];
      by rewrite git_writes_app].
  unfold_handler. destruct (add_files env) as [[] msg]; cbn [fst].
  - unfold_handler. destruct (commit env) as [[] result];
      rewrite edit_message_text_run; cbn [snd effects];
      rewrite !git_writes_app, <- !app_assoc; reflexivity.
  - rewrite edit_message_text_run; cbn [snd effects].
    rewrite !git_writes_app, <- !app_assoc. reflexivity.
Qed.

Lemma commit_approved_outcome env c w :
  fst (commit_approved env c w)
  = if edit_message_text_raises env then Raised "TelegramError" else Returned tt.
Proof. destruct (commit_approved_run env c w) as [effs ->]. reflexivity. Qed.

Lemma commit_approved_user_data env c w :
  user_data (snd (commit_approved env c w)) = user_data w.
Proof. destruct (commit_approved_run env c w) as [effs ->]. reflexivity. Qed.

Lemma report_rejected_writes env w :
  git_writes (effects (snd (report_rejected env w))) = git_writes (effects w).
Proof.
  unfold report_rejected.
  destruct (is_git_repo env); [destruct (get_status env) as [status|];
    [destruct (negb (is_clean status))|]|];
    rewrite edit_message_text_run; cbn [snd effects];
    by rewrite git_writes_app, app_nil_r.
Qed.

Lemma report_rejected_outcome env w :
  fst (report_rejected env w)
  = if edit_message_text_raises env then Raised "TelegramError" else Returned tt.
Proof. destruct (report_rejected_run env w) as [effs ->]. reflexivity. Qed.

(** The git commands of an approval of the pending change [c]. *)
Lemma approve_writes ud c env :
  holds_pending ud c -> history_ok ud ->
  git_writes (effects (snd (handle_callback_query env (ActionData "approve")
                              (start ud))))
  = approval_writes env c.
Proof.
  intros [Hp Hs] Hok.
  unfold handle_callback_query, try_except, handle_action_callback.
  cbn [String.eqb Ascii.eqb Bool.eqb]. unfold approve. unfold_handler.
  rewrite Hp. cbn [is_pending truthy negb]. unfold_handler.
  rewrite Hs. cbn [String.eqb Ascii.eqb Bool.eqb CHANGE_STATE_PENDING].
  rewrite record_decision_run. cbn [user_data effects].
  rewrite lookup_insert_ne by done.
  unfold history_ok in Hok.
  destruct (ud !! "approval_history") as [h|] eqn:Hh;
    [destruct h as [| | | | |entries]; try done|].
  all: match goal with
       | |- context [commit_approved ?e ?c' ?w] =>
           pose proof (commit_approved_writes e c' w) as Hw;
           pose proof (commit_approved_outcome e c' w) as Ho;
           destruct (commit_approved e c' w) as [o w'] eqn:Hrun
       end;
    cbn [fst snd effects git_writes filter] in Hw, Ho; subst o;
    change (approval_writes env (mark_approved env c))
      with (approval_writes env c) in Hw;
    destruct (edit_message_text_raises env);
    rewrite ?edit_message_text_run; cbn [snd effects];
    rewrite ?git_writes_app, ?git_writes_say, ?app_nil_r; exact Hw.
Qed.

Lemma say_only_writes effs :
  Forall (fun e => is_git_write e = false) effs -> git_writes effs = [].
Proof.
  induction 1 as [|e effs He _ IH]; [done|].
  unfold git_writes. rewrite filter_cons, decide_False by (by rewrite He).
  exact IH.
Qed.

(** No other path through the action callbacks runs git. *)
Lemma other_paths_write_nothing env action ud :
  (action = "approve" -> forall c, holds_pending ud c -> ~ history_ok ud) ->
  git_writes (effects (snd (handle_callback_query env (ActionData action)
                              (start ud)))) = [].
Proof.
  intros Hother.
  unfold handle_callback_query, try_except, handle_action_callback.
  destruct (action =? "approve") eqn:Ha.
  { apply String.eqb_eq in Ha. specialize (Hother Ha).
    unfold approve. unfold_handler.
    destruct (ud !! "pending_change") as [v|] eqn:Hp; cbn [is_pending];
      unfold_handler.
    2: { rewrite !edit_message_text_run; cbn [fst snd effects].
         destruct (edit_message_text_raises env);
           rewrite ?edit_message_text_run; reflexivity. }
    destruct v as [|n|s|a b m|c|entries]; cbn [truthy negb]; unfold_handler.
    all: try destruct (n =? 0)%Z; try destruct (Py.truthy s);
      try destruct entries; cbn [negb]; unfold_handler.
    all: try (rewrite !edit_message_text_run; cbn [fst snd effects];
              destruct (edit_message_text_raises env);
              rewrite ?edit_message_text_run; reflexivity).
    destruct (state c =? CHANGE_STATE_PENDING) eqn:Hs.
    2: { rewrite !edit_message_text_run; cbn [fst snd effects].
         destruct (edit_message_text_raises env);
           rewrite ?edit_message_text_run; reflexivity. }
    apply String.eqb_eq in Hs. specialize (Hother c (conj Hp Hs)).
    rewrite record_decision_run. cbn [user_data effects].
    rewrite lookup_insert_ne by done. unfold history_ok in Hother.
    destruct (ud !! "approval_history") as [h|] eqn:Hh;
      [destruct h as [| | | | |entries]|]; try (by destruct Hother).
    all: rewrite !edit_message_text_run; reflexivity. }
  destruct (action =? "reject") eqn:Hr.
  { unfold reject. unfold_handler.
    destruct (ud !! "pending_change") as [v|] eqn:Hp; cbn [is_pending];
      unfold_handler.
    2: { rewrite !edit_message_text_run; cbn [fst snd effects].
         destruct (edit_message_text_raises env);
           rewrite ?edit_message_text_run; reflexivity. }
    destruct v as [|n|s|a b m|c|entries]; cbn [truthy negb]; unfold_handler.
    all: try destruct (n =? 0)%Z; try destruct (Py.truthy s);
      try destruct entries; cbn [negb]; unfold_handler.
    all: try (rewrite !edit_message_text_run; cbn [fst snd effects];
              destruct (edit_message_text_raises env);
              rewrite ?edit_message_text_run; reflexivity).
    destruct (state c =? CHANGE_STATE_PENDING) eqn:Hs.
    2: { rewrite !edit_message_text_run; cbn [fst snd effects].
         destruct (edit_message_text_raises env);
           rewrite ?edit_message_text_run; reflexivity. }
    rewrite record_decision_run. cbn [user_data effects].
    rewrite lookup_insert_ne by done.
    destruct (ud !! "approval_history") as [h|] eqn:Hh;
      [destruct h as [| | | | |entries]|].
    all: try (rewrite !edit_message_text_run; reflexivity).
    all: match goal with
         | |- context [report_rejected ?e ?w] =>
             pose proof (report_rejected_writes e w) as Hw;
             pose proof (report_rejected_outcome e w) as Ho;
             destruct (report_rejected e w) as [o w'] eqn:Hrun
         end;
      cbn [fst snd effects git_writes filter] in Hw, Ho; subst o;
      destruct (edit_message_text_raises env);
      rewrite ?edit_message_text_run; cbn [snd effects];
      rewrite ?git_writes_app, ?git_writes_say, ?app_nil_r; exact Hw. }
  destruct (action =? "retry"); [unfold retry; unfold_handler|].
  { destruct (truthy (default VNone (ud !! "last_transcription")));
      [destruct (truthy (default VNone (ud !! "last_transcription")))
      |destruct (truthy (default VNone (ud !! "last_prompt")))].
    all: try destruct (default VNone _); unfold_handler.
    all: rewrite ?edit_message_text_run; cbn [fst snd effects];
      destruct (edit_message_text_raises env);
      rewrite ?edit_message_text_run; reflexivity. }
  destruct (action =? "dismiss"); [reflexivity|].
  destruct (action =? "back"); [reflexivity|].
  rewrite edit_message_text_run.
  destruct (edit_message_text_raises env);
    rewrite ?edit_message_text_run; reflexivity.
Qed.

(** X12.  Among the action buttons only an approval of a pending change
    writes to git: every other press (reject, retry, dismiss, back, an
    unknown action, an approval without a pending change) stages and
    commits nothing, and an approval runs [git add -A], followed by
    the commit when the staging succeeded, in a repository with
    changes, and neither otherwise. *)
Theorem X12_git_is_written_by_an_approval_only
    (env : callback_env) (action : string) (ud : gmap string value) :
  let writes a :=
    git_writes (effects (snd (handle_callback_query env (ActionData a)
                                (start ud)))) in
  (writes action = []
   \/ exists c, action = "approve" /\ holds_pending ud c /\ history_ok ud
                /\ writes action = approval_writes env c)
  /\ (forall c, holds_pending ud c -> history_ok ud ->
      writes "approve" = approval_writes env c)
  /\ writes "reject" = [].
Proof.
  cbv zeta. split; [|split].
  - destruct (decide (action = "approve")) as [-> | Hne].
    2: { left. apply other_paths_write_nothing. done. }
    assert (history_ok ud \/ ~ history_ok ud) as [Hok | Hbad].
    { unfold history_ok. destruct (ud !! "approval_history") as [[]|]; tauto. }
    2: { left. apply other_paths_write_nothing. intros _ c _. exact Hbad. }
    destruct (ud !! "pending_change") as [[| | | |c|]|] eqn:Hp.
    5: destruct (decide (state c = CHANGE_STATE_PENDING)) as [Hs | Hs].
    5: { right. exists c. split; [done|]. split; [by split|]. split; [done|].
         by apply approve_writes. }
    all: left; apply other_paths_write_nothing; intros _ c' [Hc' Hs'];
      congruence.
  - intros c Hp Hok. by apply approve_writes.
  - apply other_paths_write_nothing. done.
Qed.

Lemma X12_git_is_written_by_an_approval_only_witness :
  let ud : gmap string value := {[ "pending_change" := VChange some_change ]} in
  holds_pending ud some_change
  /\ history_ok ud
  /\ git_writes (effects (snd (handle_callback_query dirty_repo
                                 (ActionData "approve") (start ud))))
     = [ GitAddFiles; GitCommit (commit_message some_change) ].
Proof.
  assert (Hp : holds_pending ({[ "pending_change" := VChange some_change ]})
                 some_change).
  { split; [apply lookup_singleton_eq | reflexivity]. }
  assert (Hok : history_ok ({[ "pending_change" := VChange some_change ]}))
    by (vm_compute; exact I).
  split; [exact Hp|]. split; [exact Hok|].
  exact (proj1 (proj2 (X12_git_is_written_by_an_approval_only dirty_repo "approve"
                         _)) some_change Hp Hok).
Defined.

End ApprovalFacts.

(* ===================================================================== *)
(** ** Properties of the session commands *)
(* ===================================================================== *)

Section SessionFacts.
Import Bot Sessions.

Ltac unfold_handler :=
  repeat (progress
    (unfold skip, mbind, handler_bind, mret, handler_ret, get, put, emit,
       raise, start;
     cbn [user_data effects fst snd])).

(** The store and the executor's start after a text message. *)
Lemma handle_text_run env text ud :
  authorized env = true ->
  session_keys_ok ud ->
  let w := snd (handle_text env text (start ud)) in
  session_keys_ok (user_data w)
  /\ sessions_resumed (effects w)
     = if spawn_raises env then [] else [stored_session_id ud].
Proof.
  intros Hauth Hok. cbv zeta. unfold handle_text. rewrite Hauth. cbn [negb].
  unfold_handler.
  rewrite get_or_create_session_id_run. cbn [user_data effects].
  set (ud0 := <["last_prompt" := VStr text]> ud).
  assert (Hok0 : session_keys_ok ud0) by (by apply session_keys_ok_insert).
  assert (Hsid : stored_session_id ud0 = stored_session_id ud).
  { unfold stored_session_id, ud0. by rewrite lookup_insert_ne. }
  destruct (initialised_turn_count ud0 Hok0) as [n Hn].
  rewrite (increment_turn_count_run _ _ n); cbn [user_data effects].
  2: { rewrite lookup_insert_ne by done. by rewrite initialised_session. }
  2: { by rewrite lookup_insert_ne. }
  unfold try_except. unfold_handler.
  unfold execute_streaming. fold (response_in env). rewrite Hsid.
  assert (Hkind : truthy (stored_session_id ud)
                  && negb match stored_session_id ud with
                          | VStr _ => true | _ => false end = false).
  { destruct (stored_session_kind ud Hok) as [-> | [s ->]]; [done|].
    simpl. apply andb_false_r. }
  rewrite Hkind.
  set (ud1 := <["turn_count" := VInt (n + 1)]>
                (<["last_active" := VStr (now env 1)]>
                   (<["last_active" := VStr (now env 0)]> (initialised ud0)))).
  assert (Hok1 : session_keys_ok ud1).
  { unfold session_keys_ok, ud1.
    rewrite !(lookup_insert_ne _ _ "claude_session_id") by done.
    rewrite initialised_session, lookup_insert_eq, Hsid.
    by destruct (stored_session_kind ud Hok) as [-> | [s ->]]. }
  assert (Hput : forall v, session_keys_ok (<["claude_session_id" := VStr v]> ud1)).
  { intros v. unfold session_keys_ok, ud1. rewrite lookup_insert_eq.
    rewrite lookup_insert_ne by done. by rewrite lookup_insert_eq. }
  destruct (spawn_raises env); unfold_handler.
  { split; [exact Hok1 | reflexivity]. }
  destruct (Py.truthy_opt (Executor.session_id (response_in env))); unfold_handler;
    destruct (Executor.success (response_in env)); unfold_handler;
    (split; [|reflexivity]);
    try (apply session_keys_ok_insert; [done | done |]); auto.
Qed.

(** X6.  The session the executor announces is the session the next turn
    resumes: after a text turn whose run reports the session id [s],
    the next text turn hands [s] to the executor, and the command
    line built for it ends with [--resume s]; a turn without a stored
    session gets no [--resume]. *)
Theorem X6_next_turn_resumes_the_announced_session
    (ud : gmap string value) (env1 env2 : text_env) (text1 text2 s : string) :
  authorized env1 = true ->
  authorized env2 = true ->
  session_keys_ok ud ->
  spawn_raises env1 = false ->
  Executor.session_id (response_in env1) = Some s ->
  s <> "" ->
  let w1 := snd (handle_text env1 text1 (start ud)) in
  let w2 := snd (handle_text env2 text2 (start (user_data w1))) in
  sessions_resumed (effects w1) = [stored_session_id ud]
  /\ sessions_resumed (effects w2) = (if spawn_raises env2 then [] else [VStr s])
  /\ (forall prompt,
        _build_command claude_executor prompt (session_argument (VStr s))
        = [ "claude"; "-p"; prompt; "--output-format"; "stream-json";
            "--verbose"; "--max-turns"; "10"; "--resume"; s ])
  /\ (forall prompt,
        _build_command claude_executor prompt (session_argument VNone)
        = [ "claude"; "-p"; prompt; "--output-format"; "stream-json";
            "--verbose"; "--max-turns"; "10" ]).
Proof.
  intros Hauth1 Hauth2 Hok Hspawn Hsid Hs. cbv zeta.
  destruct (handle_text_run env1 text1 ud Hauth1 Hok) as [Hok1 Hrun1].
  cbv zeta in Hok1, Hrun1. rewrite Hspawn in Hrun1.
  destruct (handle_text_run env2 text2 _ Hauth2 Hok1) as [_ Hrun2].
  cbv zeta in Hrun2.
  pose proof (handle_text_session env1 text1 ud Hauth1 Hok) as Hstored.
  rewrite Hspawn, Hsid in Hstored. cbn [negb andb Py.truthy_opt default] in Hstored.
  assert (Ht : Py.truthy s = true) by (by destruct s).
  rewrite Ht in Hstored.
  split; [exact Hrun1|]. split.
  { rewrite Hrun2. unfold stored_session_id. by rewrite Hstored. }
  split; intros prompt; unfold _build_command, session_argument;
    cbn [Py.truthy_opt default]; rewrite ?Ht; reflexivity.
Qed.

Lemma X6_next_turn_resumes_the_announced_session_witness :
  let w1 := snd (handle_text silent_env "hello" (start ∅)) in
  let w2 := snd (handle_text silent_env "again" (start (user_data w1))) in
  sessions_resumed (effects w1) = [VNone]
  /\ sessions_resumed (effects w2) = [VStr "abc"].
Proof.
  assert (Hok : session_keys_ok ∅) by (vm_compute; exact I).
  destruct (X6_next_turn_resumes_the_announced_session ∅ silent_env silent_env
              "hello" "again" "abc" eq_refl eq_refl Hok eq_refl eq_refl)
    as (H1 & H2 & _); [discriminate|].
  split; [exact H1 | exact H2].
Defined.

(** X13.  [initialize_user_data] fills in the defaults for a user
    without a [claude_session_id] key only: for such a user every key
    of the schema is reset to its default (a stored [github_repo]
    included), for any other user nothing but [last_active] changes.
    Keys outside the schema are always kept, and a second call changes
    [last_active] only. *)
Theorem X13_initialize_user_data_resets_new_users_only
    (now later : string) (ud : gmap string value) :
  let ud1 := user_data (snd (initialize_user_data now (start ud))) in
  let ud2 := user_data (snd (initialize_user_data later (start ud1))) in
  (forall key, USER_DATA_SCHEMA !! key = None -> ud1 !! key = ud !! key)
  /\ ud1 !! "last_active" = Some (VStr now)
  /\ (ud !! "claude_session_id" <> None ->
      ud1 = <["last_active" := VStr now]> ud)
  /\ (ud !! "claude_session_id" = None ->
      forall key v, USER_DATA_SCHEMA !! key = Some v -> key <> "last_active" ->
                    ud1 !! key = Some v)
  /\ ud2 = <["last_active" := VStr later]> ud1.
Proof.
  cbv zeta. unfold initialize_user_data. cbn [snd user_data start].
  split; [|split; [|split; [|split]]].
  - intros key Hkey. assert (key <> "last_active") by (intros ->; done).
    rewrite lookup_insert_ne by done.
    destruct (ud !! "claude_session_id"); [done|].
    rewrite lookup_union_r by done. done.
  - apply lookup_insert_eq.
  - intros Hs. by destruct (ud !! "claude_session_id").
  - intros Hs key v Hkey Hne. rewrite Hs, lookup_insert_ne by done.
    by apply lookup_union_Some_l.
  - rewrite lookup_insert_ne by done.
    destruct (ud !! "claude_session_id") as [v|] eqn:Hs; rewrite ?Hs; [done|].
    by rewrite (lookup_union_Some_l USER_DATA_SCHEMA ud "claude_session_id" VNone).
Qed.

Lemma X13_initialize_user_data_resets_new_users_only_witness :
  let ud : gmap string value := {[ "github_repo" := VStr "owner/repo" ]} in
  let ud' : gmap string value :=
    {[ "claude_session_id" := VStr "s-1"; "github_repo" := VStr "owner/repo" ]} in
  user_data (snd (initialize_user_data "t" (start ud))) !! "github_repo"
    = Some VNone
  /\ user_data (snd (initialize_user_data "t" (start ud'))) !! "github_repo"
    = Some (VStr "owner/repo").
Proof.
  split.
  - apply (proj1 (proj2 (proj2 (proj2
      (X13_initialize_user_data_resets_new_users_only "t" "t"
         {[ "github_repo" := VStr "owner/repo" ]}))))); [|reflexivity|discriminate].
    reflexivity.
  - rewrite (proj1 (proj2 (proj2
      (X13_initialize_user_data_resets_new_users_only "t" "t"
         {[ "claude_session_id" := VStr "s-1";
            "github_repo" := VStr "owner/repo" ]})))); [reflexivity|].
    vm_compute. discriminate.
Defined.

(** X14.  [/newsession] and the confirmed New Session button do the
    same to the store: the session id becomes [None], the turn count
    0, and every other key is kept; in particular a pending change
    stays pending (unlike [/clear]).  An unauthorised [/newsession]
    changes nothing. *)
Theorem X14_new_session_keeps_the_pending_change
    (env : Callbacks.callback_env) (ud : gmap string value) :
  let by_command := snd (handle_newsession true ud) in
  let by_button :=
    user_data (snd (Callbacks.handle_callback_query env
                      (Callbacks.ConfirmData "newsession") (start ud))) in
  by_command = <["turn_count" := VInt 0]> (<["claude_session_id" := VNone]> ud)
  /\ by_button = by_command
  /\ (forall key, key <> "claude_session_id" -> key <> "turn_count" ->
                  by_command !! key = ud !! key)
  /\ (forall c, Callbacks.holds_pending ud c -> Callbacks.holds_pending by_command c)
  /\ snd (handle_newsession false ud) = ud.
Proof.
  cbv zeta. unfold handle_newsession. cbn [negb snd].
  assert (Hcmd : user_data (snd (reset_session (start ud)))
                 = <["turn_count" := VInt 0]> (<["claude_session_id" := VNone]> ud)).
  { reflexivity. }
  rewrite Hcmd. split; [reflexivity|]. split.
  { unfold Callbacks.handle_callback_query, try_except,
      Callbacks.handle_confirm_callback.
    cbn [String.eqb Ascii.eqb Bool.eqb]. unfold_handler.
    rewrite edit_message_text_run. cbn [user_data].
    destruct (Callbacks.edit_message_text_raises env);
      rewrite ?edit_message_text_run; reflexivity. }
  split; [intros key H1 H2; by rewrite !lookup_insert_ne|].
  split; [|reflexivity].
  intros c [Hp Hs]. split; [|exact Hs]. by rewrite !lookup_insert_ne.
Qed.

Lemma X14_new_session_keeps_the_pending_change_witness :
  let ud : gmap string value :=
    {[ "pending_change" := VChange some_change ]} in
  Callbacks.holds_pending ud some_change
  /\ Callbacks.holds_pending (snd (handle_newsession true ud)) some_change.
Proof.
  assert (Hp : Callbacks.holds_pending
                 ({[ "pending_change" := VChange some_change ]}) some_change).
  { split; [apply lookup_singleton_eq | reflexivity]. }
  split; [exact Hp|].
  exact (proj1 (proj2 (proj2 (proj2
           (X14_new_session_keeps_the_pending_change Callbacks.clean_repo _))))
           some_change Hp).
Defined.

(** X16.  [/compact] keeps the session: it changes no key but
    [turn_count], which it sets to 0 when a session is active, and the
    next text turn resumes the session that was stored before.
    Without an active session, and for an unauthorised user, the
    store is unchanged. *)
Theorem X16_compact_keeps_the_session
    (env : text_env) (text : string) (ud : gmap string value) :
  authorized env = true ->
  session_keys_ok ud ->
  let compacted := snd (handle_compact true ud) in
  let next := snd (handle_text env text (start compacted)) in
  stored_session_id compacted = stored_session_id ud
  /\ sessions_resumed (effects next)
     = (if spawn_raises env then [] else [stored_session_id ud])
  /\ (forall key, key <> "turn_count" -> compacted !! key = ud !! key)
  /\ (truthy (stored_session_id ud) = true ->
      fst (handle_compact true ud) = [CompactingSession; SessionCompacted]
      /\ compacted !! "turn_count" = Some (VInt 0))
  /\ (truthy (stored_session_id ud) = false ->
      handle_compact true ud = ([NoActiveSessionToCompact], ud))
  /\ handle_compact false ud = ([Unauthorized], ud).
Proof.
  intros Hauth Hok. cbv zeta.
  assert (Hkeys : forall key, key <> "turn_count" ->
                    snd (handle_compact true ud) !! key = ud !! key).
  { intros key Hkey. unfold handle_compact. cbn [negb].
    destruct (negb (truthy (default VNone (ud !! "claude_session_id"))));
      cbn [snd]; [done|]. by rewrite lookup_insert_ne. }
  assert (Hsid : stored_session_id (snd (handle_compact true ud))
                 = stored_session_id ud).
  { unfold stored_session_id. by rewrite Hkeys. }
  assert (Hok' : session_keys_ok (snd (handle_compact true ud))).
  { unfold handle_compact. cbn [negb].
    destruct (negb (truthy (default VNone (ud !! "claude_session_id"))));
      cbn [snd]; [done|].
    unfold session_keys_ok in *. rewrite lookup_insert_ne by done.
    rewrite lookup_insert_eq. by destruct (ud !! "claude_session_id") as [[]|]. }
  destruct (handle_text_run env text _ Hauth Hok') as [_ Hrun].
  cbv zeta in Hrun. rewrite Hsid in Hrun.
  split; [exact Hsid|]. split; [exact Hrun|]. split; [exact Hkeys|].
  unfold handle_compact, stored_session_id. cbn [negb].
  split; [|split; [|reflexivity]].
  - intros ->. cbn [negb fst snd]. split; [reflexivity|]. apply lookup_insert_eq.
  - intros ->. reflexivity.
Qed.

Lemma X16_compact_keeps_the_session_witness :
  let ud : gmap string value :=
    {[ "claude_session_id" := VStr "abc"; "turn_count" := VInt 7 ]} in
  let compacted := snd (handle_compact true ud) in
  sessions_resumed (effects (snd (handle_text silent_env "go on" (start compacted))))
  = [VStr "abc"]
  /\ compacted !! "turn_count" = Some (VInt 0).
Proof.
  assert (Hok : session_keys_ok
                  ({[ "claude_session_id" := VStr "abc"; "turn_count" := VInt 7 ]}))
    by (vm_compute; exact I).
  destruct (X16_compact_keeps_the_session silent_env "go on" _ eq_refl Hok)
    as (_ & H2 & _ & H4 & _).
  split; [exact H2|]. apply H4. reflexivity.
Defined.

End SessionFacts.

(* ===================================================================== *)
(** ** Numerals and separators *)
(* ===================================================================== *)

Section ConversionFacts.
Import Access.

Lemma all_chars_append P a b :
  all_chars P (a +:+ b) = all_chars P a && all_chars P b.
Proof.
  induction a as [|c a IH]; [done|].
  change (all_chars P (String c (a +:+ b)) = all_chars P (String c a) && all_chars P b).
  cbn [all_chars]. by rewrite IH, andb_assoc.
Qed.

Lemma all_chars_impl (P Q : ascii -> bool) s :
  (forall c, P c = true -> Q c = true) ->
  all_chars P s = true -> all_chars Q s = true.
Proof.
  intros HPQ. induction s as [|c s IH]; [done|]. cbn [all_chars].
  intros [Hc Hs]%andb_true_iff. rewrite (HPQ c Hc). by apply IH.
Qed.

Lemma digits_value_snoc acc digits c :
  digits_value acc (digits +:+ String c "")
  = (10 * digits_value acc digits + default 0 (Str.digit_of c))%Z.
Proof.
  revert acc. induction digits as [|d digits IH]; intros acc; [reflexivity|].
  change (String d digits +:+ String c "") with (String d (digits +:+ String c "")).
  cbn [digits_value]. apply IH.
Qed.

Lemma int_digits_all digits : forall acc count after_digit,
  all_chars is_digit digits = true ->
  digits <> "" \/ after_digit = true ->
  Str.int_digits acc count after_digit digits
  = Some (digits_value acc digits, count + String.length digits).
Proof.
  induction digits as [|c digits IH]; intros acc count after_digit Hall Hne.
  { destruct Hne as [Hne | ->]; [done|]. cbn. do 2 f_equal. lia. }
  cbn [all_chars] in Hall. apply andb_true_iff in Hall as [Hc Hall].
  cbn [Str.int_digits digits_value]. unfold is_digit in Hc.
  destruct (Str.digit_of c) as [d|]; [|done]. cbn [default].
  rewrite IH by auto. cbn [String.length]. do 2 f_equal. lia.
Qed.

Lemma pretty_N_char_digit x :
  (x < 10)%N -> Str.digit_of (pretty_N_char x) = Some (Z.of_N x).
Proof.
  intros Hx.
  assert (x = 0 \/ x = 1 \/ x = 2 \/ x = 3 \/ x = 4 \/ x = 5 \/ x = 6
          \/ x = 7 \/ x = 8 \/ x = 9)%N as H by lia.
  repeat (destruct H as [-> | H]; [reflexivity|]). by subst.
Qed.

(** The digits [pretty] writes for a natural number. *)
Lemma pretty_N_go_digits (x : N) :
  exists digits,
    (forall s, pretty_N_go x s = digits +:+ s)
    /\ all_chars is_digit digits = true
    /\ digits_value 0 digits = Z.of_N x
    /\ ((0 < x)%N -> digits <> "")
    /\ (forall k, (Z.of_N x < 10 ^ Z.of_nat k)%Z -> String.length digits <= k).
Proof.
  induction x as [x IH] using (well_founded_induction N.lt_wf_0).
  destruct (decide (x = 0%N)) as [-> | Hx].
  { exists "". split; [intros s; apply pretty_N_go_0|].
    repeat split; try done. intros; cbn; lia. }
  assert (0 < x)%N as Hpos by lia.
  destruct (IH (x `div` 10)%N) as (digits & Hgo & Hall & Hval & _ & Hlen).
  { apply N.div_lt; lia. }
  pose proof (N.mod_lt x 10 ltac:(done)) as Hmod.
  pose proof (pretty_N_char_digit _ Hmod) as Hchar.
  exists (digits +:+ String (pretty_N_char (x `mod` 10)) "").
  split; [|split; [|split; [|split]]].
  - intros s. rewrite pretty_N_go_step, Hgo by done. by rewrite append_assoc.
  - rewrite all_chars_append, Hall. cbn [all_chars andb]. unfold is_digit.
    by rewrite Hchar.
  - rewrite digits_value_snoc, Hval, Hchar. cbn [default].
    pose proof (N.div_mod x 10 ltac:(done)) as Hdm.
    apply (f_equal Z.of_N) in Hdm. rewrite N2Z.inj_add, N2Z.inj_mul in Hdm.
    change (Z.of_N 10) with 10%Z in Hdm. unfold id. lia.
  - intros _. by destruct digits.
  - intros k Hk. rewrite length_append. cbn [String.length].
    destruct k as [|k]; [cbn in Hk; lia|].
    specialize (Hlen k). rewrite Nat2Z.inj_succ, Z.pow_succ_r in Hk by lia.
    assert (Z.of_N (x `div` 10) < 10 ^ Z.of_nat k)%Z; [|lia].
    rewrite N2Z.inj_div. apply Z.div_lt_upper_bound; lia.
Qed.

Lemma digit_not_space c : is_digit c = true -> Py.isspace c = false.
Proof.
  destruct c as [[] [] [] [] [] [] [] []]; vm_compute; congruence.
Qed.

Lemma digit_not_int_space c : is_digit c = true -> Str.int_space c = false.
Proof.
  destruct c as [[] [] [] [] [] [] [] []]; vm_compute; congruence.
Qed.

Lemma lstrip_int_id s :
  match s with String c _ => Str.int_space c = false | _ => True end ->
  Str.lstrip_int s = s.
Proof. destruct s as [|c s]; [done|]. cbn. by intros ->. Qed.

Lemma rstrip_int_id s :
  all_chars (fun c => negb (Str.int_space c)) s = true -> Str.rstrip_int s = s.
Proof.
  induction s as [|c s IH]; [done|]. cbn [all_chars Str.rstrip_int].
  intros [Hc Hs]%andb_true_iff. rewrite IH by done.
  apply negb_true_iff in Hc. rewrite Hc. by destruct s.
Qed.

Lemma lstrip_id s :
  match s with String c _ => Py.isspace c = false | _ => True end ->
  Py.lstrip s = s.
Proof. destruct s as [|c s]; [done|]. cbn. by intros ->. Qed.

Lemma rstrip_id s :
  all_chars (fun c => negb (Py.isspace c)) s = true -> Py.rstrip s = s.
Proof.
  induction s as [|c s IH]; [done|]. cbn [all_chars Py.rstrip].
  intros [Hc Hs]%andb_true_iff. rewrite IH by done.
  apply negb_true_iff in Hc. rewrite Hc. by destruct s.
Qed.

(** What [pretty] writes for an integer: an optional minus sign and a
    non-empty string of digits. *)
Lemma pretty_Z_digits (n : Z) :
  exists digits,
    pretty n = (if (n <? 0)%Z then "-" else "") +:+ digits
    /\ all_chars is_digit digits = true
    /\ digits <> ""
    /\ digits_value 0 digits = Z.abs n
    /\ (forall k, (Z.abs n < 10 ^ Z.of_nat k)%Z -> String.length digits <= Nat.max k 1).
Proof.
  assert (Hpos : forall p : positive,
    exists digits, pretty (N.pos p) = digits
      /\ all_chars is_digit digits = true /\ digits <> ""
      /\ digits_value 0 digits = Z.pos p
      /\ (forall k, (Z.pos p < 10 ^ Z.of_nat k)%Z -> String.length digits <= k)).
  { intros p. destruct (pretty_N_go_digits (N.pos p))
      as (digits & Hgo & Hall & Hval & Hne & Hlen).
    exists digits. unfold pretty, pretty_N.
    rewrite decide_False by done. rewrite Hgo, append_empty_r.
    repeat split; try done. by apply Hne. }
  destruct n as [|p|p].
  - exists "0". repeat split; try done. intros; cbn; lia.
  - destruct (Hpos p) as (digits & Heq & Hall & Hne & Hval & Hlen).
    exists digits. change (pretty (Z.pos p)) with (pretty (N.pos p)).
    rewrite Heq. repeat split; try done. intros k Hk. specialize (Hlen k Hk). lia.
  - destruct (Hpos p) as (digits & Heq & Hall & Hne & Hval & Hlen).
    exists digits. change (pretty (Z.neg p)) with ("-" +:+ pretty (N.pos p)).
    rewrite Heq. repeat split; try done. intros k Hk. specialize (Hlen k Hk). lia.
Qed.

(** [int(str(n)) == n] *)
Lemma int_pretty (n : Z) : convertible n -> Str.int (pretty n) = Some n.
Proof.
  intros Hn. destruct (pretty_Z_digits n) as (digits & -> & Hall & Hne & Hval & Hlen).
  specialize (Hlen 4300 Hn). change (Nat.max 4300 1) with 4300 in Hlen.
  assert (Hfirst : match digits with
                   | String c _ => is_digit c = true
                   | _ => True
                   end).
  { destruct digits as [|c d]; [done|]. cbn [all_chars] in Hall.
    by apply andb_true_iff in Hall as [? _]. }
  assert (Hnospace : all_chars (fun c => negb (Str.int_space c)) digits = true).
  { eapply all_chars_impl; [|exact Hall]. intros c Hc.
    by rewrite (digit_not_int_space c Hc). }
  unfold Str.int.
  assert (Hparse : Str.int_digits 0 0 false digits
                   = Some (Z.abs n, String.length digits)).
  { rewrite int_digits_all by auto. by rewrite Hval. }
  assert (Hlimit : (Str.INT_MAX_STR_DIGITS <? String.length digits)%nat = false).
  { apply Nat.ltb_ge. unfold Str.INT_MAX_STR_DIGITS. exact Hlen. }
  destruct (n <? 0)%Z eqn:Hneg.
  - change ("-" +:+ digits) with (String "-" digits).
    rewrite lstrip_int_id by reflexivity.
    rewrite rstrip_int_id by (cbn [all_chars]; by rewrite Hnospace).
    rewrite Hparse, Hlimit. apply Z.ltb_lt in Hneg. f_equal. lia.
  - change ("" +:+ digits) with digits.
    rewrite lstrip_int_id
      by (destruct digits as [|c d]; [done|]; by apply digit_not_int_space).
    rewrite rstrip_int_id by done.
    apply Z.ltb_ge in Hneg.
    destruct digits as [|c d]; [done|].
    assert (c <> "-"%char /\ c <> "+"%char) as [Hm Hp].
    { split; intros ->; done. }
    destruct c as [[] [] [] [] [] [] [] []]; try done;
      rewrite Hparse, Hlimit; f_equal; lia.
Qed.

(** *** Splitting at a character *)

Lemma split_from_nonempty sep s : forall skip, Str.split_from sep skip s <> [].
Proof.
  induction s as [|c s IH]; intros skip; cbn [Str.split_from]; [done|].
  destruct skip; [|apply IH].
  destruct (Py.startswith sep (String c s)); [done|].
  specialize (IH 0). by destruct (Str.split_from sep 0 s).
Qed.

Lemma split_char_cons c a s :
  Str.split (String c "") (String a s)
  = if Ascii.eqb c a then "" :: Str.split (String c "") s
    else match Str.split (String c "") s with
         | seg :: rest => String a seg :: rest
         | [] => []
         end.
Proof.
  unfold Str.split. cbn [Str.split_from Py.startswith String.length Nat.sub].
  destruct (Ascii.eqb c a); [by destruct s|].
  pose proof (split_from_nonempty (String c "") s 0).
  by destruct (Str.split_from (String c "") 0 s).
Qed.

Lemma split_char_free c x :
  all_chars (fun a => negb (Ascii.eqb c a)) x = true ->
  (forall y, Str.split (String c "") (x +:+ String c y)
             = x :: Str.split (String c "") y)
  /\ Str.split (String c "") x = [x].
Proof.
  induction x as [|a x IH]; intros Hfree.
  { split; [|reflexivity]. intros y.
    change ("" +:+ String c y) with (String c y).
    by rewrite split_char_cons, Ascii.eqb_refl. }
  cbn [all_chars] in Hfree. apply andb_true_iff in Hfree as [Ha Hfree].
  apply negb_true_iff in Ha. destruct (IH Hfree) as [IH1 IH2]. split.
  - intros y. change (String a x +:+ String c y) with (String a (x +:+ String c y)).
    by rewrite split_char_cons, Ha, IH1.
  - by rewrite split_char_cons, Ha, IH2.
Qed.

Lemma split_join c parts :
  parts <> [] ->
  Forall (fun part => all_chars (fun a => negb (Ascii.eqb c a)) part = true) parts ->
  Str.split (String c "") (Str.join (String c "") parts) = parts.
Proof.
  induction parts as [|part parts IH]; [done|]. intros _ Hall.
  apply Forall_cons in Hall as [Hpart Hall].
  destruct (split_char_free c part Hpart) as [Hcut Hone].
  destruct parts as [|next parts]; [exact Hone|].
  change (Str.join (String c "") (part :: next :: parts))
    with (part +:+ String c "" +:+ Str.join (String c "") (next :: parts)).
  change (String c "" +:+ ?y) with (String c y).
  rewrite Hcut, IH; done.
Qed.

(** *** The characters of a decimal numeral *)

Lemma pretty_Z_chars (n : Z) :
  all_chars (fun c => is_digit c || Ascii.eqb c "-") (pretty n) = true
  /\ pretty n <> "".
Proof.
  destruct (pretty_Z_digits n) as (digits & -> & Hall & Hne & _).
  assert (all_chars (fun c => is_digit c || Ascii.eqb c "-") digits = true).
  { eapply all_chars_impl; [|exact Hall]. by intros c ->. }
  destruct (n <? 0)%Z.
  - change ("-" +:+ digits) with (String "-" digits). by cbn [all_chars].
  - by change ("" +:+ digits) with digits.
Qed.

Lemma numeral_char_not_space c :
  is_digit c || Ascii.eqb c "-" = true -> Py.isspace c = false.
Proof. destruct c as [[] [] [] [] [] [] [] []]; vm_compute; congruence. Qed.

Lemma numeral_char_not_comma c :
  is_digit c || Ascii.eqb c "-" = true -> negb (Ascii.eqb "," c) = true.
Proof. destruct c as [[] [] [] [] [] [] [] []]; vm_compute; congruence. Qed.

Lemma strip_pretty (n : Z) : Py.strip (pretty n) = pretty n.
Proof.
  destruct (pretty_Z_chars n) as [Hall _]. unfold Py.strip.
  rewrite lstrip_id.
  - apply rstrip_id. eapply all_chars_impl; [|exact Hall].
    intros c Hc. by rewrite (numeral_char_not_space c Hc).
  - destruct (pretty n) as [|c s]; [done|]. cbn [all_chars] in Hall.
    apply andb_true_iff in Hall as [Hc _]. by apply numeral_char_not_space.
Qed.

Lemma truthy_pretty (n : Z) : Py.truthy (pretty n) = true.
Proof. destruct (pretty_Z_chars n) as [_ Hne]. by destruct (pretty n). Qed.

End ConversionFacts.

(* ===================================================================== *)
(** ** Properties of the allow list *)
(* ===================================================================== *)

Section AccessFacts.
Import Access.

Lemma allowed_ids_segments ids :
  Forall convertible ids ->
  mapM (fun uid => Str.int (Py.strip uid))
    (filter (fun uid => Py.truthy (Py.strip uid) = true) (map pretty ids))
  = Some ids.
Proof.
  induction 1 as [|n ids Hn _ IH]; [reflexivity|].
  cbn [map]. rewrite filter_cons, decide_True
    by (by rewrite strip_pretty, truthy_pretty).
  cbn [mapM]. rewrite strip_pretty, int_pretty by done. cbn. by rewrite IH.
Qed.

(** X15.  The allow list read from [ALLOWED_USER_IDS]: a setting whose
    comma-separated segments are all blank gives the empty list, and
    with the empty list [check_authorization] admits every user; a
    setting that is the decimal numerals of the ids joined by commas
    (each of 4300 digits at most, the longest [int] converts) gives
    back exactly these ids, and [check_authorization] then admits the
    members of the list and nobody else. *)
Theorem X15_the_allow_list_admits_its_members_and_fails_open
    (setting : string) (ids : list Z) (user_id : Z) :
  (Forall (fun segment => Py.strip segment = "") (Str.split "," setting) ->
   parse_allowed_user_ids setting = Some []
   /\ check_authorization [] user_id = true)
  /\ (ids <> [] -> Forall convertible ids ->
      parse_allowed_user_ids (Str.join "," (map pretty ids)) = Some ids
      /\ (check_authorization ids user_id = true <-> user_id ∈ ids)).
Proof.
  split.
  - intros Hblank. split; [|reflexivity]. unfold parse_allowed_user_ids.
    destruct (Py.truthy setting); [|reflexivity].
    induction Hblank as [|segment segments Hs _ IH]; [reflexivity|].
    rewrite filter_cons, decide_False by (by rewrite Hs). exact IH.
  - intros Hne Hall. split.
    + unfold parse_allowed_user_ids.
      assert (Hjoin : Py.truthy (Str.join "," (map pretty ids)) = true).
      { destruct ids as [|n ids]; [done|]. cbn [map].
        pose proof (truthy_pretty n) as Hn.
        destruct (map pretty ids); cbn [Str.join]; [done|].
        by destruct (pretty n). }
      rewrite Hjoin, split_join.
      * by apply allowed_ids_segments.
      * by destruct ids.
      * apply Forall_map. apply Forall_forall. intros n _.
        destruct (pretty_Z_chars n) as [Hchars _].
        eapply all_chars_impl; [|exact Hchars]. apply numeral_char_not_comma.
    + unfold check_authorization. destruct ids as [|n ids]; [done|].
      apply bool_decide_eq_true.
Qed.

Lemma X15_the_allow_list_admits_its_members_and_fails_open_witness :
  Forall (fun segment => Py.strip segment = "") (Str.split "," " , ,")
  /\ Forall convertible [123; 456]%Z
  /\ parse_allowed_user_ids " , ," = Some []
  /\ check_authorization [] 789 = true
  /\ parse_allowed_user_ids "123,456" = Some [123; 456]%Z
  /\ (check_authorization [123; 456]%Z 456 = true <-> 456%Z ∈ [123; 456]%Z).
Proof.
  assert (Hblank : Forall (fun segment => Py.strip segment = "")
                     (Str.split "," " , ,")).
  { repeat constructor. }
  assert (Hconv : Forall convertible [123; 456]%Z).
  { repeat constructor; unfold convertible; apply Z.ltb_lt; vm_compute;
      reflexivity. }
  destruct (X15_the_allow_list_admits_its_members_and_fails_open " , ,"
              [123; 456]%Z 789) as [Hopen _].
  destruct (X15_the_allow_list_admits_its_members_and_fails_open ""
              [123; 456]%Z 456) as [_ Hlist].
  destruct (Hopen Hblank) as [H1 H2].
  destruct (Hlist ltac:(done) Hconv) as [H3 H4].
  split; [exact Hblank|]. split; [exact Hconv|].
  split; [exact H1|]. split; [exact H2|]. split; [exact H3 | exact H4].
Defined.

End AccessFacts.

(* ===================================================================== *)
(** ** Properties of git_operations.py *)
(* ===================================================================== *)

Section GitFacts.
Import Git GitRuns.

Ltac unfold_git :=
  repeat (progress
    (unfold mbind, git_bind, mret, git_ret, throw, catch, _run_git;
     cbn [fst snd negb andb])).

Lemma is_git_repo_run env past :
  is_git_repo env past
  = (inl match run env past ["git"; "rev-parse"; "--git-dir"] with
         | Exits result => (returncode result =? 0)%Z
         | _ => false
         end,
     past ++ [["git"; "rev-parse"; "--git-dir"]]).
Proof.
  unfold is_git_repo. unfold_git.
  by destruct (run env past ["git"; "rev-parse"; "--git-dir"]).
Qed.

Lemma commit_run env message (amend : bool) past :
  let past1 := past ++ [["git"; "rev-parse"; "--git-dir"]] in
  let cmd1 := "git" :: ["commit"; "-m"; message]
                       ++ (if amend then ["--amend"] else []) in
  let cmd2 := ["git"; "rev-parse"; "--short"; "HEAD"] in
  fst (commit env message amend past)
  = if negb match run env past ["git"; "rev-parse"; "--git-dir"] with
            | Exits result => (returncode result =? 0)%Z
            | _ => false
            end
    then inl (false, "Not a git repository")
    else if negb (Py.truthy (Py.strip message))
    then inl (false, "Commit message cannot be empty")
    else
      match run env past1 cmd1 with
      | Exits _ =>
          match run env (past1 ++ [cmd1]) cmd2 with
          | Exits hash_result => inl (true, Py.strip (stdout hash_result))
          | TimesOut =>
              inl (false, "Failed to commit: " +:+ str env (TimeoutExpired cmd2))
          | Fails description =>
              inl (false, "Failed to commit: " +:+ str env (OtherError description))
          end
      | TimesOut =>
          inl (false, "Failed to commit: " +:+ str env (TimeoutExpired cmd1))
      | Fails description =>
          inl (false, "Failed to commit: " +:+ str env (OtherError description))
      end.
Proof.
  cbv zeta. unfold commit. unfold mbind at 1. unfold git_bind at 1.
  rewrite is_git_repo_run.
  destruct (match run env past ["git"; "rev-parse"; "--git-dir"] with
            | Exits result => (returncode result =? 0)%Z
            | _ => false
            end); cbn [negb]; [|reflexivity].
  destruct (Py.truthy (Py.strip message)); cbn [negb]; [|reflexivity].
  unfold_git.
  destruct (run env _ ("git" :: _)) as [r1 | | d1]; unfold_git; try reflexivity.
  destruct (run env _ ["git"; "rev-parse"; "--short"; "HEAD"]) as [r2 | | d2];
    reflexivity.
Qed.

(** X18.  [GitOperations.commit] always returns, and a failure it
    reports is "Not a git repository", "Commit message cannot be
    empty" or "Failed to commit: ..." followed by the text of an
    exception.  In a repository and with a message that is not
    blank, whenever [git commit] and [git rev-parse] end with an exit
    code, whichever it is, the result is a success that carries the
    stripped output of [git rev-parse --short HEAD]. *)
Theorem X18_commit_reports_success_whatever_git_exits_with
    (env : environment) (message : string) (amend : bool)
    (past : list (list string)) :
  let result := fst (commit env message amend past) in
  let past1 := past ++ [["git"; "rev-parse"; "--git-dir"]] in
  let cmd1 := "git" :: ["commit"; "-m"; message]
                       ++ (if amend then ["--amend"] else []) in
  let cmd2 := ["git"; "rev-parse"; "--short"; "HEAD"] in
  (exists ok text, result = inl (ok, text))
  /\ (forall text, result = inl (false, text) ->
        text = "Not a git repository"
        \/ text = "Commit message cannot be empty"
        \/ exists e, text = "Failed to commit: " +:+ str env e)
  /\ (forall committed hash_result,
        fst (is_git_repo env past) = inl true ->
        Py.strip message <> "" ->
        run env past1 cmd1 = Exits committed ->
        run env (past1 ++ [cmd1]) cmd2 = Exits hash_result ->
        result = inl (true, Py.strip (stdout hash_result)))
  /\ (always_exits env ->
      fst (is_git_repo env past) = inl true ->
      Py.strip message <> "" ->
      exists committed hash_result,
        run env past1 cmd1 = Exits committed
        /\ run env (past1 ++ [cmd1]) cmd2 = Exits hash_result
        /\ result = inl (true, Py.strip (stdout hash_result))).
Proof.
  cbv zeta. rewrite commit_run, is_git_repo_run. cbv zeta. cbn [fst].
  set (past1 := past ++ [["git"; "rev-parse"; "--git-dir"]]).
  set (cmd1 := "git" :: ["commit"; "-m"; message]
                        ++ (if amend then ["--amend"] else [])).
  set (cmd2 := ["git"; "rev-parse"; "--short"; "HEAD"]).
  destruct (match run env past ["git"; "rev-parse"; "--git-dir"] with
            | Exits result => (returncode result =? 0)%Z
            | _ => false
            end); cbn [negb].
  2: { split; [eauto|]. split; [|split; [intros ? ? [=] | intros _ [=]]].
       intros text [= Ht]. subst. auto. }
  destruct (Py.truthy (Py.strip message)) eqn:Hmsg; cbn [negb].
  2: { split; [eauto|]. split; [|split].
       - intros text [= Ht]. subst. auto.
       - intros ? ? _ Hne. by destruct (Py.strip message).
       - intros _ _ Hne. by destruct (Py.strip message). }
  destruct (run env past1 cmd1) as [r1 | | d1] eqn:Hrun1.
  2,3: (split; [eauto|]; split; [|split];
        [intros text [= Ht]; subst; eauto
        |intros ? ? _ _ [=]
        |intros Hexits; destruct (Hexits past1 cmd1) as [r Hr]; congruence]).
  destruct (run env (past1 ++ [cmd1]) cmd2) as [r2 | | d2] eqn:Hrun2.
  2,3: (split; [eauto|]; split; [|split];
        [intros text [= Ht]; subst; eauto
        |intros ? ? _ _ _ [=]
        |intros Hexits; destruct (Hexits (past1 ++ [cmd1]) cmd2) as [r Hr];
         congruence]).
  split; [eauto|]. split; [intros text [=]|]. split.
  - intros committed hash_result _ _ _ [= <-]. reflexivity.
  - intros _ _ _. by exists r1, r2.
Qed.

Lemma X18_commit_reports_success_whatever_git_exits_with_witness :
  always_exits nothing_to_commit
  /\ run nothing_to_commit [["git"; "rev-parse"; "--git-dir"]]
       ["git"; "commit"; "-m"; "Update notes"]
     = Exits {| returncode := 1;
                stdout := "nothing to commit, working tree clean";
                stderr := "" |}
  /\ run nothing_to_commit
       [["git"; "rev-parse"; "--git-dir"];
        ["git"; "commit"; "-m"; "Update notes"]]
       ["git"; "rev-parse"; "--short"; "HEAD"]
     = Exits {| returncode := 0; stdout := "abc1234" +:+ Formatter.NEWLINE;
                stderr := "" |}
  /\ fst (commit nothing_to_commit "Update notes" false []) = inl (true, "abc1234").
Proof.
  assert (Hexits : always_exits nothing_to_commit).
  { intros past cmd. unfold nothing_to_commit. cbn [run].
    repeat (destruct (bool_decide _); [by eexists|]). by eexists. }
  split; [exact Hexits|]. split; [reflexivity|]. split; [reflexivity|].
  rewrite (proj1 (proj2 (proj2
             (X18_commit_reports_success_whatever_git_exits_with
                nothing_to_commit "Update notes" false [])))
             {| returncode := 1;
                stdout := "nothing to commit, working tree clean";
                stderr := "" |}
             {| returncode := 0; stdout := "abc1234" +:+ Formatter.NEWLINE;
                stderr := "" |}
             eq_refl ltac:(discriminate) eq_refl eq_refl).
  reflexivity.
Defined.

(** *** [get_status] *)

Lemma read_status_line_past st line past :
  snd (read_status_line st line past) = past.
Proof.
  unfold read_status_line.
  destruct (Py.startswith "##" line).
  { unfold int. unfold_git.
    destruct (Py.contains "[ahead " line); unfold_git;
      [destruct (Str.int _); unfold_git; [|reflexivity]|];
      (destruct (Py.contains "behind " line); unfold_git;
       [destruct (Str.int _); unfold_git|]; reflexivity). }
  destruct (String.length line <? 3)%nat; reflexivity.
Qed.

Lemma columns line :
  Py.take 1 (Py.take 2 line) = Py.take 1 line
  /\ Py.drop 1 (Py.take 2 line) = Py.take 1 (Py.drop 1 line).
Proof. destruct line as [|a [|b rest]]; split; reflexivity. Qed.

(** One line of the status: what it does to the lists. *)
Lemma read_status_line_lists st line past st' :
  fst (read_status_line st line past) = inl st' ->
  (nothing_listed st' <-> nothing_listed st /\ unseen line = true)
  /\ ((forall f, f ∈ untracked st -> f ∈ staged st) ->
      forall f, f ∈ untracked st' -> f ∈ staged st').
Proof.
  unfold read_status_line, unseen, nothing_listed.
  destruct (columns line) as [<- <-].
  assert (Hcode : (Py.take 2 line =? "??") = true ->
                  (Py.take 1 (Py.take 2 line) =? " ") = false).
  { intros H%String.eqb_eq. by rewrite H. }
  set (first := Py.take 1 (Py.take 2 line) =? " ") in *.
  set (second := Py.drop 1 (Py.take 2 line) =? "M") in *.
  set (both := Py.take 2 line =? "??") in *.
  set (filename := Py.drop 3 line) in *.
  clearbody first second both filename.
  destruct (Py.startswith "##" line); cbn [orb].
  { unfold int. unfold_git.
    destruct (Py.contains "[ahead " line); unfold_git;
      [destruct (Str.int _); unfold_git; [|done]|];
      (destruct (Py.contains "behind " line); unfold_git;
       [destruct (Str.int _); unfold_git; [|done]|]);
      intros [= <-]; cbn [staged modified untracked]; tauto. }
  destruct (String.length line <? 3)%nat; cbn [orb].
  { unfold_git. intros [= <-]. tauto. }
  unfold_git. intros [= <-]. cbn [staged modified untracked].
  destruct first, second; cbn [negb andb].
  - split.
    + split; [intros [_ H]; by apply app_eq_nil in H as [_ [=]] | intros [_ [=]]].
    + auto.
  - destruct both; [by specialize (Hcode eq_refl)|].
    split; [tauto | auto].
  - split.
    + split; [intros [H _]; by apply app_eq_nil in H as [_ [=]] | intros [_ [=]]].
    + intros Hin f Hf. apply elem_of_app. left. auto.
  - split.
    + split; [intros [H _]; by apply app_eq_nil in H as [_ [=]] | intros [_ [=]]].
    + intros Hin f. destruct both.
      * intros [Hf | Hf]%elem_of_app; apply elem_of_app; [left; auto | by right].
      * intros Hf. apply elem_of_app. left. auto.
Qed.

Lemma read_status_lines_lists lines : forall st past st',
  fst (read_status_lines st lines past) = inl st' ->
  (nothing_listed st' <-> nothing_listed st /\ forallb unseen lines = true)
  /\ ((forall f, f ∈ untracked st -> f ∈ staged st) ->
      forall f, f ∈ untracked st' -> f ∈ staged st').
Proof.
  induction lines as [|line lines IH]; intros st past st'; cbn [read_status_lines].
  { unfold_git. intros [= <-]. cbn [forallb]. tauto. }
  unfold mbind, git_bind.
  pose proof (read_status_line_lists st line past) as Hline.
  pose proof (read_status_line_past st line past) as Hpast.
  destruct (read_status_line st line past) as [[st1 | e] past1];
    cbn [fst snd] in *; [|done].
  intros Hrest. apply IH in Hrest as [Hlists Hsub].
  destruct (Hline st1 eq_refl) as [Hlists1 Hsub1].
  cbn [forallb]. rewrite andb_true_iff. split; [tauto | auto].
Qed.

(** X19.  When [get_status] returns a status, it is clean exactly when
    every line [git status --porcelain] printed is a branch line, is
    shorter than three characters, or has a blank first column and a
    second column other than [M]; and every file listed as untracked
    is listed as staged too. *)
Theorem X19_get_status_is_clean_when_every_line_is_unseen
    (env : environment) (past : list (list string)) (st : GitStatus)
    (printed : CompletedProcess) :
  fst (get_status env past) = inl (Some st) ->
  run env (past ++ [["git"; "rev-parse"; "--git-dir"];
                    ["git"; "branch"; "--show-current"]])
    ["git"; "status"; "--porcelain=v1"; "--branch"] = Exits printed ->
  (is_clean st = true <-> forallb unseen (status_lines (stdout printed)) = true)
  /\ (forall f, f ∈ untracked st -> f ∈ staged st).
Proof.
  unfold get_status. unfold mbind at 1. unfold git_bind at 1.
  rewrite is_git_repo_run.
  destruct (match run env past ["git"; "rev-parse"; "--git-dir"] with
            | Exits result => (returncode result =? 0)%Z
            | _ => false
            end); cbn [negb]; [|done].
  unfold catch, mbind, git_bind, _run_git. cbn [fst snd negb andb].
  destruct (run env _ ["git"; "branch"; "--show-current"]) as [br | |];
    [|done|done].
  rewrite <- app_assoc. cbn [app].
  destruct (run env _ ["git"; "status"; "--porcelain=v1"; "--branch"])
    as [sr | |]; [|done|done].
  match goal with
  | |- context [read_status_lines ?st0 ?lines ?p] =>
      pose proof (read_status_lines_lists lines st0 p) as Hlists;
      destruct (read_status_lines st0 lines p) as [[st1 | e] past1]
  end; [|done].
  cbn [fst] in *. unfold mret, git_ret. cbn [fst].
  intros [= <-] [= <-]. cbn [is_clean untracked staged].
  destruct (Hlists st1 eq_refl) as [Hiff Hsub].
  unfold nothing_listed in Hiff. cbn [staged modified untracked] in Hiff, Hsub.
  assert (Hin : forall f, f ∈ untracked st1 -> f ∈ staged st1).
  { apply Hsub. intros f Hf. by apply elem_of_nil in Hf. }
  split; [|exact Hin].
  assert (Hiff' : staged st1 = [] /\ modified st1 = []
                  <-> forallb unseen (status_lines (stdout sr)) = true).
  { rewrite Hiff. split; [by intros [_ ?] | by intros ?]. }
  clear Hiff.
  destruct (staged st1) as [|f1 l1] eqn:Hst.
  - destruct (modified st1) as [|f2 l2].
    + destruct (untracked st1) as [|f3 l3].
      * split; [intros _; by apply Hiff' | done].
      * specialize (Hin f3 ltac:(left)). by apply elem_of_nil in Hin.
    + split; [done|]. intros H. apply Hiff' in H. by destruct H.
  - split; [done|]. intros H. apply Hiff' in H. by destruct H.
Qed.

Lemma X19_get_status_is_clean_when_every_line_is_unseen_witness :
  exists st,
    fst (get_status nothing_to_commit []) = inl (Some st)
    /\ status_lines ("## main" +:+ Formatter.NEWLINE +:+ " D gone.txt")
       = ["## main"; " D gone.txt"]
    /\ is_clean st = true.
Proof.
  eexists. split; [vm_compute; reflexivity|]. split; [reflexivity|].
  eapply (proj1 (X19_get_status_is_clean_when_every_line_is_unseen
                   nothing_to_commit [] _ _ eq_refl eq_refl)).
  reflexivity.
Defined.

(** *** The approve callback on these wrappers *)

Lemma add_files_run env past :
  in_repository env -> always_exits env ->
  fst (add_files env None past) = inl (true, "All changes staged").
Proof.
  intros Hrepo Hexits. unfold add_files. unfold mbind at 1. unfold git_bind at 1.
  rewrite is_git_repo_run. destruct (Hrepo past) as (r & -> & ->).
  cbn [Z.eqb negb]. unfold_git.
  destruct (Hexits (past ++ [["git"; "rev-parse"; "--git-dir"]])
              ["git"; "add"; "-A"]) as [r' ->].
  reflexivity.
Qed.

Lemma commit_in_repository env message past :
  in_repository env -> always_exits env -> Splitting.nonspace message <> "" ->
  exists committed hash_result,
    run env (past ++ [["git"; "rev-parse"; "--git-dir"]])
      ["git"; "commit"; "-m"; message] = Exits committed
    /\ run env (past ++ [["git"; "rev-parse"; "--git-dir"];
                         ["git"; "commit"; "-m"; message]])
         ["git"; "rev-parse"; "--short"; "HEAD"] = Exits hash_result
    /\ fst (commit env message false past)
       = inl (true, Py.strip (stdout hash_result)).
Proof.
  intros Hrepo Hexits Hmsg. rewrite commit_run. cbv zeta.
  destruct (Hrepo past) as (r & -> & ->). cbn [Z.eqb negb app].
  destruct (Py.strip message) eqn:Hs; [by apply strip_empty in Hs|].
  cbn [Py.truthy negb]. rewrite <- app_assoc. cbn [app].
  destruct (Hexits (past ++ [["git"; "rev-parse"; "--git-dir"]])
              ["git"; "commit"; "-m"; message]) as [r1 Hr1].
  destruct (Hexits (past ++ [["git"; "rev-parse"; "--git-dir"];
                             ["git"; "commit"; "-m"; message]])
              ["git"; "rev-parse"; "--short"; "HEAD"]) as [r2 Hr2].
  exists r1, r2. by rewrite Hr1, Hr2.
Qed.

Ltac unfold_handler :=
  repeat (progress
    (unfold Bot.skip, mbind, Bot.handler_bind, mret, Bot.handler_ret, Bot.get,
       Bot.put, Bot.emit, Bot.raise, Bot.start;
     cbn [Bot.user_data Bot.effects fst snd])).

(** The effects of an approval that stages and commits. *)
Lemma approve_committed (meets : Callbacks.callback_env) ud c status msg hash :
  Callbacks.holds_pending ud c -> Callbacks.history_ok ud ->
  Callbacks.is_git_repo meets = true ->
  Callbacks.get_status meets = Some status ->
  Callbacks.is_clean status = false ->
  Callbacks.add_files meets = (true, msg) ->
  Callbacks.commit meets = (true, hash) ->
  Callbacks.edit_message_text_raises meets = false ->
  Bot.effects (snd (Callbacks.handle_callback_query meets
                      (Callbacks.ActionData "approve") (Bot.start ud)))
  = [ Bot.GitAddFiles; Bot.GitCommit (Callbacks.commit_message c);
      Bot.Say (Bot.ApprovedCommitted hash Callbacks.commit_subject) ].
Proof.
  intros [Hp Hs] Hok Hrepo Hstatus Hdirty Hadd Hcommit Hedit.
  unfold Callbacks.handle_callback_query, Bot.try_except,
    Callbacks.handle_action_callback.
  cbn [String.eqb Ascii.eqb Bool.eqb]. unfold Callbacks.approve. unfold_handler.
  rewrite Hp. cbn [Bot.is_pending Bot.truthy negb]. unfold_handler.
  rewrite Hs.
  cbn [String.eqb Ascii.eqb Bool.eqb Bot.CHANGE_STATE_PENDING].
  rewrite record_decision_run. cbn [Bot.user_data Bot.effects].
  rewrite lookup_insert_ne by done.
  unfold Callbacks.history_ok in Hok.
  destruct (ud !! "approval_history") as [h|] eqn:Hh;
    [destruct h as [| | | | |entries]; try done|].
  all: unfold Callbacks.commit_approved;
    rewrite Hrepo, Hstatus, Hdirty; cbn [negb]; unfold_handler;
    rewrite Hadd; unfold_handler; rewrite Hcommit;
    rewrite edit_message_text_run, Hedit; reflexivity.
Qed.

(** X20.  The approve button on the wrappers of git_operations.py: in a
    repository whose status shows changes, and when every git command
    ends with an exit code, an approval of the pending change stages,
    commits and reports "Changes approved and committed" with the
    stripped output of the [git rev-parse --short HEAD] that follows
    the commit, whatever [git commit] exited with. *)
Theorem X20_approve_reports_a_commit_whatever_git_commit_exits_with
    (env : environment) (c : Bot.change) (now : nat -> string)
    (ud : gmap string Bot.value) :
  let meets := git_ops env c now false in
  let message := Callbacks.commit_message c in
  Callbacks.holds_pending ud c ->
  Callbacks.history_ok ud ->
  in_repository env ->
  always_exits env ->
  (exists status, Callbacks.get_status meets = Some status
                  /\ Callbacks.is_clean status = false) ->
  exists committed hash_result,
    run env (commands_before_commit env ++ [["git"; "rev-parse"; "--git-dir"]])
      ["git"; "commit"; "-m"; message] = Exits committed
    /\ run env (commands_before_commit env
                ++ [["git"; "rev-parse"; "--git-dir"];
                    ["git"; "commit"; "-m"; message]])
         ["git"; "rev-parse"; "--short"; "HEAD"] = Exits hash_result
    /\ Bot.effects (snd (Callbacks.handle_callback_query meets
                           (Callbacks.ActionData "approve") (Bot.start ud)))
       = [ Bot.GitAddFiles; Bot.GitCommit message;
           Bot.Say (Bot.ApprovedCommitted (Py.strip (stdout hash_result))
                      Callbacks.commit_subject) ].
Proof.
  cbv zeta. intros Hp Hok Hrepo Hexits (status & Hstatus & Hdirty).
  destruct (commit_in_repository env (Callbacks.commit_message c)
              (commands_before_commit env) Hrepo Hexits)
    as (committed & hash_result & Hrun1 & Hrun2 & Hcommit); [done|].
  exists committed, hash_result. split; [exact Hrun1|]. split; [exact Hrun2|].
  apply (approve_committed _ ud c status "All changes staged"
           (Py.strip (stdout hash_result)));
    try done.
  - unfold git_ops. cbn [Callbacks.is_git_repo]. unfold returned.
    rewrite is_git_repo_run. destruct (Hrepo []) as (r & -> & ->). reflexivity.
  - unfold git_ops. cbn [Callbacks.add_files]. unfold returned.
    by rewrite add_files_run.
  - unfold git_ops. cbn [Callbacks.commit]. unfold returned.
    fold (commands_before_commit env). by rewrite Hcommit.
Qed.

Lemma X20_approve_reports_a_commit_whatever_git_commit_exits_with_witness :
  let ud : gmap string Bot.value :=
    {[ "pending_change" := Bot.VChange Bot.some_change ]} in
  let meets := git_ops refused_commit Bot.some_change (fun _ => "t") false in
  run refused_commit
    (commands_before_commit refused_commit ++ [["git"; "rev-parse"; "--git-dir"]])
    ["git"; "commit"; "-m"; Callbacks.commit_message Bot.some_change]
  = Exits {| returncode := 128; stdout := "";
             stderr := "fatal: unable to auto-detect email address" |}
  /\ Bot.effects (snd (Callbacks.handle_callback_query meets
                         (Callbacks.ActionData "approve") (Bot.start ud)))
     = [ Bot.GitAddFiles;
         Bot.GitCommit (Callbacks.commit_message Bot.some_change);
         Bot.Say (Bot.ApprovedCommitted "abc1234" Callbacks.commit_subject) ].
Proof.
  assert (Hexits : always_exits refused_commit).
  { intros past cmd. unfold refused_commit. cbn [run].
    repeat (destruct (bool_decide _); [by eexists|]). by eexists. }
  assert (Hrepo : in_repository refused_commit).
  { intros past. eexists. split; reflexivity. }
  assert (Hp : Callbacks.holds_pending
                 ({[ "pending_change" := Bot.VChange Bot.some_change ]})
                 Bot.some_change).
  { split; [apply lookup_singleton_eq | reflexivity]. }
  assert (Hok : Callbacks.history_ok
                  ({[ "pending_change" := Bot.VChange Bot.some_change ]}))
    by (vm_compute; exact I).
  split; [reflexivity|].
  destruct (X20_approve_reports_a_commit_whatever_git_commit_exits_with
              refused_commit Bot.some_change (fun _ => "t") _ Hp Hok Hrepo Hexits)
    as (committed & hash_result & _ & Hrun & Heffects).
  { eexists. split; [vm_compute; reflexivity | reflexivity]. }
  rewrite Heffects.
  assert (hash_result
          = {| returncode := 0; stdout := "abc1234" +:+ Formatter.NEWLINE;
               stderr := "" |}) as ->.
  { unfold refused_commit in Hrun. cbn [run] in Hrun.
    rewrite bool_decide_eq_true_2 in Hrun by reflexivity. congruence. }
  reflexivity.
Defined.

End GitFacts.

(* ===================================================================== *)
(** ** Properties of the keyboards and of the routing *)
(* ===================================================================== *)

Section RoutingFacts.
Import Keyboards Routing Access.

Lemma splitn_from_nonempty sep s : forall maxsplit skip,
  Str.splitn_from sep maxsplit skip s <> [].
Proof.
  induction s as [|c s IH]; intros maxsplit skip; cbn [Str.splitn_from]; [done|].
  destruct skip; [|apply IH]. destruct maxsplit; [done|].
  destruct (Py.startswith sep (String c s)); [done|].
  specialize (IH (S maxsplit) 0). by destruct (Str.splitn_from sep (S maxsplit) 0 s).
Qed.

Lemma splitn_zero sep s : Str.splitn sep 0 s = [s].
Proof. by destruct s. Qed.

Lemma splitn_char_cons c n a s :
  Str.splitn (String c "") (S n) (String a s)
  = if Ascii.eqb c a then "" :: Str.splitn (String c "") n s
    else match Str.splitn (String c "") (S n) s with
         | seg :: rest => String a seg :: rest
         | [] => []
         end.
Proof.
  unfold Str.splitn. cbn [Str.splitn_from Py.startswith String.length Nat.sub].
  destruct (Ascii.eqb c a); [by destruct s|].
  pose proof (splitn_from_nonempty (String c "") s (S n) 0).
  by destruct (Str.splitn_from (String c "") (S n) 0 s).
Qed.

(** A segment without the separator is cut off at the separator that
    follows it. *)
Lemma splitn_char_free c n x :
  all_chars (fun a => negb (Ascii.eqb c a)) x = true ->
  (forall y, Str.splitn (String c "") (S n) (x +:+ String c y)
             = x :: Str.splitn (String c "") n y)
  /\ Str.splitn (String c "") (S n) x = [x].
Proof.
  induction x as [|a x IH]; intros Hfree.
  { split; [|reflexivity]. intros y.
    change ("" +:+ String c y) with (String c y).
    by rewrite splitn_char_cons, Ascii.eqb_refl. }
  cbn [all_chars] in Hfree. apply andb_true_iff in Hfree as [Ha Hfree].
  apply negb_true_iff in Ha. destruct (IH Hfree) as [IH1 IH2]. split.
  - intros y. change (String a x +:+ String c y) with (String a (x +:+ String c y)).
    by rewrite splitn_char_cons, Ha, IH1.
  - by rewrite splitn_char_cons, Ha, IH2.
Qed.

(** The three parts of ["category:action:param"]. *)
Lemma splitn_three category action param :
  colon_free category = true ->
  colon_free action = true ->
  Str.splitn ":" 2 (category +:+ ":" +:+ action +:+ ":" +:+ param)
  = [category; action; param].
Proof.
  intros Hc Ha.
  change (category +:+ ":" +:+ action +:+ ":" +:+ param)
    with (category +:+ String ":" (action +:+ String ":" param)).
  rewrite (proj1 (splitn_char_free ":" 1 category Hc)).
  rewrite (proj1 (splitn_char_free ":" 0 action Ha)).
  by rewrite splitn_zero.
Qed.

Lemma splitn_two category action :
  colon_free category = true ->
  colon_free action = true ->
  Str.splitn ":" 2 (category +:+ ":" +:+ action) = [category; action].
Proof.
  intros Hc Ha.
  change (category +:+ ":" +:+ action) with (category +:+ String ":" action).
  rewrite (proj1 (splitn_char_free ":" 1 category Hc)).
  by rewrite (proj2 (splitn_char_free ":" 0 action Ha)).
Qed.

Lemma page_button_shown data_type (n : Z) :
  colon_free data_type = true ->
  data_type <> "noop" ->
  convertible n ->
  press ("page:" +:+ data_type +:+ ":" +:+ pretty n)
  = Shows (PageShown (n + 1) (Some data_type)).
Proof.
  intros Hfree Hnoop Hn. unfold press, route.
  change ("page:" +:+ data_type +:+ ":" +:+ pretty n)
    with ("page" +:+ ":" +:+ data_type +:+ ":" +:+ pretty n).
  rewrite splitn_three by done.
  cbn -[pretty Str.int]. unfold handle_page_callback, Executor.py_eq.
  apply String.eqb_neq in Hnoop. rewrite Hnoop.
  cbn [Py.truthy_opt default]. unfold id. rewrite truthy_pretty, int_pretty by done.
  reflexivity.
Qed.

(** X17.  The buttons of [KeyboardBuilder.pagination] lead where they
    say: for a data type without a colon, other than "noop", and a
    page within the total, a press of Previous or Next is routed to
    [handle_page_callback], which reads the page number back and shows
    the page before or after the current one (the total has 4300
    digits at most, the longest [int] converts); the page indicator
    shows nothing and Dismiss is routed to the action handler. *)
Theorem X17_page_buttons_lead_to_the_page_they_name
    (current_page total_pages : Z) (data_type : string) :
  (0 <= current_page < total_pages)%Z ->
  convertible total_pages ->
  colon_free data_type = true ->
  data_type <> "noop" ->
  forall button, button ∈ concat (pagination current_page total_pages data_type) ->
    match text button with
    | Previous =>
        (0 < current_page)%Z
        /\ press (callback_data button)
           = Shows (PageShown current_page (Some data_type))
    | Next =>
        (current_page + 1 < total_pages)%Z
        /\ press (callback_data button)
           = Shows (PageShown (current_page + 2) (Some data_type))
    | PageOf page total =>
        page = (current_page + 1)%Z /\ total = total_pages
        /\ press (callback_data button) = Shows NothingShown
    | Dismiss =>
        press (callback_data button)
        = Calls (ActionCallback (Some "dismiss") None)
    | _ => False
    end.
Proof.
  intros Hpage Htotal Hfree Hnoop button.
  assert (Hconv : forall n, (0 <= n <= total_pages)%Z -> convertible n).
  { revert Htotal. unfold convertible. generalize (10 ^ 4300)%Z.
    intros bound Htotal n Hn. lia. }
  clear Htotal.
  assert (Hprev : (0 < current_page)%Z ->
                  press ("page:" +:+ data_type +:+ ":" +:+ pretty (current_page - 1)%Z)
                  = Shows (PageShown current_page (Some data_type))).
  { intros Hpos. rewrite page_button_shown; try done.
    - do 2 f_equal. lia.
    - apply Hconv. lia. }
  assert (Hnext : press ("page:" +:+ data_type +:+ ":" +:+ pretty (current_page + 1)%Z)
                  = Shows (PageShown (current_page + 2) (Some data_type))).
  { rewrite page_button_shown; try done.
    - do 2 f_equal. lia.
    - apply Hconv. lia. }
  unfold pagination. cbn [concat]. rewrite app_nil_r.
  destruct (0 <? current_page)%Z eqn:Hp;
    destruct (current_page <? total_pages - 1)%Z eqn:Hn;
    cbn [app]; rewrite ?elem_of_cons, elem_of_nil;
    intros H; repeat destruct H as [-> | H]; try done; cbn [text callback_data];
    try apply Z.ltb_lt in Hp; try apply Z.ltb_lt in Hn;
    try (split; [lia | auto]); try (by repeat split).
Qed.

Lemma X17_page_buttons_lead_to_the_page_they_name_witness :
  map (fun button => (text button, press (callback_data button)))
    (concat (pagination 2 5 "sessions"))
  = [ (Previous, Shows (PageShown 2 (Some "sessions")));
      (PageOf 3 5, Shows NothingShown);
      (Next, Shows (PageShown 4 (Some "sessions")));
      (Dismiss, Calls (ActionCallback (Some "dismiss") None)) ].
Proof.
  assert (Hconv : convertible 5).
  { unfold convertible. apply Z.ltb_lt. vm_compute. reflexivity. }
  pose proof (X17_page_buttons_lead_to_the_page_they_name 2 5 "sessions"
                ltac:(lia) Hconv eq_refl ltac:(discriminate)) as H.
  pose proof (H {| text := Previous; callback_data := "page:sessions:1" |}
                ltac:(set_solver)) as [_ H1].
  pose proof (H {| text := Next; callback_data := "page:sessions:3" |}
                ltac:(set_solver)) as [_ H3].
  cbn [text callback_data] in H1, H3.
  change (concat (pagination 2 5 "sessions"))
    with [ {| text := Previous; callback_data := "page:sessions:1" |};
           {| text := PageOf 3 5; callback_data := "page:noop" |};
           {| text := Next; callback_data := "page:sessions:3" |};
           {| text := Dismiss; callback_data := "action:dismiss" |} ].
  cbn [map text callback_data]. rewrite H1, H3. reflexivity.
Defined.

(** X21.  The buttons of [KeyboardBuilder.confirmation] carry their
    action back: for an action without a colon, [handle_callback_query]
    calls the confirm (or cancel) handler with this very action; of an
    action with a colon the handlers get the part before the first
    colon only. *)
Theorem X21_confirmation_buttons_carry_their_action (action : string) :
  let pressed action :=
    map (fun button => (text button, press (callback_data button)))
      (concat (confirmation action)) in
  (colon_free action = true ->
   pressed action = [ (Confirm, Calls (ConfirmCallback (Some action)));
                      (Cancel, Calls (CancelCallback (Some action))) ])
  /\ (forall tail,
        colon_free action = true ->
        pressed (action +:+ ":" +:+ tail)
        = [ (Confirm, Calls (ConfirmCallback (Some action)));
            (Cancel, Calls (CancelCallback (Some action))) ]).
Proof.
  cbv zeta. unfold confirmation, press, route. cbn [concat app map text callback_data].
  split.
  - intros Hfree.
    change ("confirm:" +:+ action) with ("confirm" +:+ ":" +:+ action).
    change ("cancel:" +:+ action) with ("cancel" +:+ ":" +:+ action).
    by rewrite !splitn_two.
  - intros tail Hfree.
    change ("confirm:" +:+ action +:+ ":" +:+ tail)
      with ("confirm" +:+ ":" +:+ action +:+ ":" +:+ tail).
    change ("cancel:" +:+ action +:+ ":" +:+ tail)
      with ("cancel" +:+ ":" +:+ action +:+ ":" +:+ tail).
    by rewrite !splitn_three.
Qed.

Lemma X21_confirmation_buttons_carry_their_action_witness :
  map (fun button => (text button, press (callback_data button)))
    (concat (confirmation "newsession"))
  = [ (Confirm, Calls (ConfirmCallback (Some "newsession")));
      (Cancel, Calls (CancelCallback (Some "newsession"))) ].
Proof.
  exact (proj1 (X21_confirmation_buttons_carry_their_action "newsession") eq_refl).
Defined.

End RoutingFacts.

(* ===================================================================== *)
(** ** Properties of the code blocks *)
(* ===================================================================== *)

Section DiffFacts.
Import Formatter Diffs Access.

Lemma join_cons_char sep a seg rest :
  Str.join sep (String a seg :: rest) = String a (Str.join sep (seg :: rest)).
Proof. by destruct rest. Qed.

Lemma join_split c s :
  Str.join (String c "") (Str.split (String c "") s) = s.
Proof.
  induction s as [|a s IH]; [reflexivity|].
  rewrite split_char_cons.
  pose proof (split_from_nonempty (String c "") s 0) as Hne.
  fold (Str.split (String c "") s) in Hne.
  destruct (Str.split (String c "") s) as [|seg rest]; [done|].
  destruct (Ascii.eqb_spec c a) as [-> | _].
  - change (String a (Str.join (String a "") (seg :: rest)) = String a s).
    by rewrite IH.
  - by rewrite join_cons_char, IH.
Qed.

Lemma join_two_parts sep l1 l2 :
  l1 <> [] -> l2 <> [] ->
  Str.join sep (l1 ++ l2) = Str.join sep l1 +:+ sep +:+ Str.join sep l2.
Proof.
  intros H1 H2. induction l1 as [|x l1 IH]; [done|].
  destruct l1 as [|y l1].
  - destruct l2; [done|]. reflexivity.
  - change (Str.join sep ((x :: y :: l1) ++ l2))
      with (x +:+ sep +:+ Str.join sep ((y :: l1) ++ l2)).
    rewrite IH by done.
    change (Str.join sep (x :: y :: l1)) with (x +:+ sep +:+ Str.join sep (y :: l1)).
    by rewrite !append_assoc.
Qed.

Lemma join_length_ge c l :
  length l - 1 <= String.length (Str.join (String c "") l).
Proof.
  induction l as [|x l IH]; [cbn; lia|].
  destruct l as [|y l]; [cbn; lia|].
  change (Str.join (String c "") (x :: y :: l))
    with (x +:+ String c "" +:+ Str.join (String c "") (y :: l)).
  rewrite !length_append. cbn [String.length length] in *. lia.
Qed.

(** A positive number has no more digits than its value. *)
Lemma pretty_length (k : Z) : (1 <= k)%Z -> (len (pretty k) <= k)%Z.
Proof.
  intros Hk. destruct (pretty_Z_digits k) as (digits & -> & _ & _ & _ & Hlen).
  assert ((k <? 0)%Z = false) as -> by lia.
  change ("" +:+ digits) with digits.
  specialize (Hlen (Z.to_nat k)). unfold len.
  assert (Z.abs k < 10 ^ Z.of_nat (Z.to_nat k))%Z.
  { rewrite Z2Nat.id by lia. pose proof (Z.pow_gt_lin_r 10 k). lia. }
  specialize (Hlen ltac:(done)). lia.
Qed.

(** Cutting a code block at [max_lines] lines adds 18 characters at
    most. *)
Lemma format_code_block_length code language (max_lines : Z) :
  (1 <= max_lines)%Z ->
  (len (format_code_block code language (Some max_lines))
   <= len code + len language + 26)%Z.
Proof.
  intros Hmax. unfold format_code_block.
  assert ((max_lines =? 0)%Z = false) as -> by lia. cbn [negb].
  rewrite !len_append. change (len FENCE) with 3%Z. change (len NEWLINE) with 1%Z.
  destruct (Z.of_nat (length (Str.split NEWLINE code)) >? max_lines)%Z eqn:Hlong;
    [|lia].
  rewrite Z.gtb_ltb in Hlong. apply Z.ltb_lt in Hlong.
  pose proof (join_split (ascii_of_nat 10) code) as Hcode.
  fold NEWLINE in Hcode.
  set (lines := Str.split NEWLINE code) in *.
  unfold list_upto. assert ((max_lines <? 0)%Z = false) as -> by lia.
  set (n := Z.to_nat max_lines).
  assert (Hn : 1 <= n < length lines) by lia.
  rewrite <- (take_drop n lines) in Hcode.
  rewrite join_two_parts in Hcode.
  2: { intros H%(f_equal length). rewrite length_take in H. cbn in H. lia. }
  2: { intros H%(f_equal length). rewrite length_drop in H. cbn in H. lia. }
  apply (f_equal len) in Hcode. rewrite !len_append in Hcode.
  change (len NEWLINE) with 1%Z in Hcode.
  pose proof (join_length_ge (ascii_of_nat 10) (drop n lines)) as Hdrop.
  fold NEWLINE in Hdrop. rewrite length_drop in Hdrop.
  pose proof (pretty_length (Z.of_nat (length lines) - max_lines) ltac:(lia)) as Hk.
  rewrite !len_append. change (len NEWLINE) with 1%Z.
  change (len "... (") with 5%Z. change (len " more lines)") with 12%Z.
  unfold len in *. lia.
Qed.

Lemma show_diff_shown outcome (raises : bool) formatted :
  show_diff outcome raises = GitDiff formatted ->
  exists diff_output,
    formatted = format_code_block diff_output "diff" (Some 50%Z)
    /\ (len diff_output <= 3516)%Z.
Proof.
  unfold show_diff. destruct outcome as [result | | description]; [|done|done].
  destruct (negb (Git.returncode result =? 0)%Z); [done|].
  destruct raises; [done|].
  destruct (negb (Py.truthy (Py.strip (Git.stdout result)))); [done|].
  intros [= <-]. eexists. split; [reflexivity|].
  destruct (len (Py.strip (Git.stdout result)) >? 3500)%Z eqn:Hlong.
  - rewrite len_append. change (len TRUNCATED) with 16%Z.
    pose proof (upto_length 3500 (Py.strip (Git.stdout result)) ltac:(lia)). lia.
  - rewrite Z.gtb_ltb in Hlong. apply Z.ltb_ge in Hlong. lia.
Qed.

(** X22.  Cutting a code block at [max_lines] lines (at least one) makes
    [format_code_block] return at most 26 characters more than the
    code and the language name together; and the code block the
    [git:diff] button shows is at most 3546 characters long, so that
    the reply, heading included, is within [MAX_SAFE_LENGTH]. *)
Theorem X22_the_diff_reply_fits_one_message
    (code language : string) (max_lines : Z)
    (outcome : Git.process) (raises : bool) :
  ((1 <= max_lines)%Z ->
   (len (format_code_block code language (Some max_lines))
    <= len code + len language + 26)%Z)
  /\ (forall formatted, show_diff outcome raises = GitDiff formatted ->
       (len formatted <= 3546)%Z
       /\ (GIT_DIFF_HEADING_LENGTH + len formatted <= MAX_SAFE_LENGTH)%Z).
Proof.
  split; [apply format_code_block_length|].
  intros formatted (diff_output & -> & Hlen)%show_diff_shown.
  pose proof (format_code_block_length diff_output "diff" 50 ltac:(lia)) as H.
  change (len "diff") with 4%Z in H.
  unfold GIT_DIFF_HEADING_LENGTH, MAX_SAFE_LENGTH. lia.
Qed.

Lemma X22_the_diff_reply_fits_one_message_witness :
  let outcome :=
    Git.Exits {| Git.returncode := 0; Git.stdout := "+a" +:+ NEWLINE;
                 Git.stderr := "" |} in
  let formatted := FENCE +:+ "diff" +:+ NEWLINE +:+ "+a" +:+ NEWLINE +:+ FENCE in
  show_diff outcome false = GitDiff formatted
  /\ (len formatted <= 3546)%Z
  /\ (len (format_code_block (NEWLINE +:+ NEWLINE) "" (Some 1%Z)) <= 2 + 0 + 26)%Z.
Proof.
  cbv zeta.
  destruct (X22_the_diff_reply_fits_one_message (NEWLINE +:+ NEWLINE) "" 1
              (Git.Exits {| Git.returncode := 0; Git.stdout := "+a" +:+ NEWLINE;
                            Git.stderr := "" |}) false) as [Hcut Hfit].
  split; [reflexivity|].
  split; [exact (proj1 (Hfit _ eq_refl)) | apply Hcut; lia].
Defined.

End DiffFacts.

(* ===================================================================== *)
(** ** Properties of the [/repo] command *)
(* ===================================================================== *)

Section RepoFacts.
Import Bot Repo.

(** The store after [/repo arg]. *)
Lemma handle_repo_store env arg rest ud :
  authorized env = true ->
  snd (handle_repo env (arg :: rest) ud)
  = if String.eqb (Str.lower arg) "clear" then
      <["claude_session_id" := VNone]>
        (<["repo_path" := VNone]>
           (<["github_repo" := VNone]> (initialised_at env ud)))
    else if Py.contains "/" (Str.strip_chars "/" arg) then
      match run env (fst (setup_of env arg)) with
      | Git.Exits result =>
          if (Git.returncode result =? 0)%Z then
            <["claude_session_id" := VNone]>
              (<["repo_path" := VStr (snd (setup_of env arg))]>
                 (<["github_repo" := VStr (Str.strip_chars "/" arg)]>
                    (initialised_at env ud)))
          else initialised_at env ud
      | _ => initialised_at env ud
      end
    else initialised_at env ud.
Proof.
  intros Hauth. unfold handle_repo, setup_of, initialised_at. rewrite Hauth.
  cbn [negb]. destruct (Str.lower arg =? "clear"); [reflexivity|].
  destruct (Py.contains "/" (Str.strip_chars "/" arg)); cbn [negb]; [|reflexivity].
  destruct (path_exists env _); cbn [fst snd].
  - destruct (run env ["git"; "pull"]) as [result | | d]; try reflexivity.
    destruct (Git.returncode result =? 0)%Z; cbn [negb]; [|reflexivity].
    by destruct (run env ["git"; "branch"; "--show-current"]).
  - destruct (run env ("git" :: "clone" :: _)) as [result | | d]; try reflexivity.
    destruct (Git.returncode result =? 0)%Z; cbn [negb]; [|reflexivity].
    by destruct (run env ["git"; "branch"; "--show-current"]).
Qed.

(** X23.  [/repo owner/name] links the repository exactly when the
    [git clone] or [git pull] it runs exits with code 0: the store
    then holds the slug, the local path and no session id; after any
    other end of the command the store is as [initialize_user_data]
    left it.  [/repo clear] unlinks and resets the session.  In every
    case the session id is reset whenever the linked repository
    changes, and no key but [github_repo], [repo_path] and
    [claude_session_id] is touched. *)
Theorem X23_repo_links_on_success_and_resets_the_session
    (env : repo_env) (arg : string) (rest : list string)
    (ud : gmap string value) :
  authorized env = true ->
  let before := initialised_at env ud in
  let after := snd (handle_repo env (arg :: rest) ud) in
  (set_up env arg ->
   after !! "github_repo" = Some (VStr (Str.strip_chars "/" arg))
   /\ after !! "repo_path" = Some (VStr (snd (setup_of env arg)))
   /\ after !! "claude_session_id" = Some VNone)
  /\ (~ set_up env arg -> Str.lower arg <> "clear" -> after = before)
  /\ (Str.lower arg = "clear" ->
      after !! "github_repo" = Some VNone
      /\ after !! "repo_path" = Some VNone
      /\ after !! "claude_session_id" = Some VNone)
  /\ (after !! "github_repo" <> before !! "github_repo" ->
      after !! "claude_session_id" = Some VNone)
  /\ (forall key, key <> "github_repo" -> key <> "repo_path" ->
                  key <> "claude_session_id" -> after !! key = before !! key)
  /\ snd (handle_repo env [] ud) = before.
Proof.
  intros Hauth. cbv zeta.
  assert (Hshow : snd (handle_repo env [] ud) = initialised_at env ud).
  { unfold handle_repo, initialised_at. rewrite Hauth. cbn [negb].
    by destruct (truthy _). }
  rewrite handle_repo_store by done.
  unfold set_up.
  destruct (Str.lower arg =? "clear") eqn:Hclear.
  { apply String.eqb_eq in Hclear.
    split; [intros (? & _); done|]. split; [done|].
    split; [intros _; repeat split; by simplify_map_eq|].
    split; [intros _; apply lookup_insert_eq|].
    split; [|done].
    intros key H1 H2 H3. by rewrite !lookup_insert_ne. }
  apply String.eqb_neq in Hclear.
  destruct (Py.contains "/" (Str.strip_chars "/" arg)).
  2: { split; [intros (_ & ? & _); done|]. repeat split; done. }
  destruct (run env (fst (setup_of env arg))) as [result | | d].
  2,3: (split; [intros (_ & _ & r & [=] & _)|]; repeat split; done).
  destruct (Git.returncode result =? 0)%Z eqn:Hrc.
  - split.
    { intros _. repeat split; by simplify_map_eq. }
    split.
    { intros Hnot _. exfalso. apply Hnot. split; [done|]. split; [done|].
      exists result. split; [done|]. by apply Z.eqb_eq. }
    split; [done|].
    split; [intros _; apply lookup_insert_eq|].
    split; [|done].
    intros key H1 H2 H3. by rewrite !lookup_insert_ne.
  - split.
    { intros (_ & _ & r & [= <-] & Hzero). rewrite Hzero in Hrc. done. }
    repeat split; done.
Qed.

Lemma X23_repo_links_on_success_and_resets_the_session_witness :
  let ud : gmap string value :=
    {[ "claude_session_id" := VStr "abc"; "turn_count" := VInt 7 ]} in
  set_up reachable "/torvalds/linux/"
  /\ ~ set_up unreachable "/torvalds/linux/"
  /\ snd (handle_repo reachable ["/torvalds/linux/"] ud) !! "github_repo"
     = Some (VStr "torvalds/linux")
  /\ snd (handle_repo reachable ["/torvalds/linux/"] ud) !! "repo_path"
     = Some (VStr "/workspace/linux")
  /\ snd (handle_repo reachable ["/torvalds/linux/"] ud) !! "claude_session_id"
     = Some VNone
  /\ snd (handle_repo unreachable ["/torvalds/linux/"] ud)
     = initialised_at unreachable ud.
Proof.
  cbv zeta.
  assert (Hup : set_up reachable "/torvalds/linux/").
  { split; [discriminate|]. split; [reflexivity|]. eexists. split; reflexivity. }
  assert (Hdown : ~ set_up unreachable "/torvalds/linux/").
  { intros (_ & _ & result & [= <-] & [=]). }
  destruct (X23_repo_links_on_success_and_resets_the_session reachable
              "/torvalds/linux/" []
              {[ "claude_session_id" := VStr "abc"; "turn_count" := VInt 7 ]}
              eq_refl) as (H1 & _).
  destruct (X23_repo_links_on_success_and_resets_the_session unreachable
              "/torvalds/linux/" []
              {[ "claude_session_id" := VStr "abc"; "turn_count" := VInt 7 ]}
              eq_refl) as (_ & H2 & _).
  destruct (H1 Hup) as (Ha & Hb & Hc).
  split; [exact Hup|]. split; [exact Hdown|].
  split; [exact Ha|]. split; [exact Hb|]. split; [exact Hc|].
  apply H2; [exact Hdown | discriminate].
Defined.

End RepoFacts.
